(** * monster-backend: habit ledger, XP accounting, Hell Week, battles, friends

    A shallow embedding of the two Express applications of the repository,
    [server.js] (module [Server]) and the serverless copy [api/index.js]
    (module [Api]), together with the Mongoose models [models/User.js] and
    [models/Habit.js].

    Conventions of the embedding.
    - JavaScript numbers that hold XP, levels, day counts and millisecond
      timestamps are integers of [Z].
    - A Mongo [ObjectId] is a [nat]; [toString] on ids is injective, so the
      string comparisons of the routes are comparisons of ids.
    - A collection is the list of its documents in insertion order;
      [findOne] returns the first match.
    - [new Date()] / [Date.now()] readings are arguments of the routes, and
      the outcomes of [Math.floor(Math.random() * 36)] are a list carried by
      the world.
    - Each route is a function from its request and the world to a response
      and a new world; [None] stands for a handler that never finishes (the
      friend-code retry loop of the pre-save hook running out of draws). *)

From Stdlib Require Import ZArith List String Ascii Bool Lia Permutation.
From Stdlib Require Import Sorted.
Import ListNotations.
Local Open Scope string_scope.
Local Open Scope list_scope.
Local Open Scope Z_scope.

Set Implicit Arguments.

Definition ObjectId := nat.
Bind Scope nat_scope with ObjectId.

(** [x || d] on numbers: [0] is falsy. *)
Definition or_else (x d : Z) : Z := if x =? 0 then d else x.

(* ------------------------------------------------------------------ *)
(** ** Leveling policy ([server.js], RPG helpers) *)

Definition LEVEL_THRESHOLDS : list Z :=
  [0; 100; 300; 600; 1000; 1500; 2100; 2800; 3600; 5000; 10000; 20000].

(** The body of the [for] loop of [calculateLevel]: [ts] holds the
    thresholds from index [i] on, [level] is the loop variable. *)
Fixpoint levelLoop (ts : list Z) (i level xp : Z) : Z :=
  match ts with
  | [] => level
  | t :: rest => if xp >=? t then levelLoop rest (i + 1) (i + 1) xp else level
  end.

Definition calculateLevel (xp : Z) : Z :=
  levelLoop (tl LEVEL_THRESHOLDS) 1 1 xp.

(* ------------------------------------------------------------------ *)
(** ** Documents *)

Module User.

Record HellWeek := mkHellWeek {
  isActive : bool;
  startDate : option Z;
  targetDate : option Z
}.

Inductive RequestStatus := pending | rejected.

Record FriendRequest := mkFriendRequest {
  from : ObjectId;
  status : RequestStatus;
  timestamp : Z
}.

(** [email], [password], [monsterType] and [createdAt] are not read or
    written by any route below and are left out; so is the password
    hook, which returns at once unless the password was modified. *)
Record t := mk {
  _id : ObjectId;
  platformXp : Z;
  level : Z;
  hellWeek : HellWeek;
  friendCode : option string;
  friends : list ObjectId;
  friendRequests : list FriendRequest
}.

Definition with_platformXp (v : Z) (u : t) : t :=
  mk (_id u) v (level u) (hellWeek u) (friendCode u) (friends u) (friendRequests u).
Definition with_level (v : Z) (u : t) : t :=
  mk (_id u) (platformXp u) v (hellWeek u) (friendCode u) (friends u) (friendRequests u).
Definition with_hellWeek (v : HellWeek) (u : t) : t :=
  mk (_id u) (platformXp u) (level u) v (friendCode u) (friends u) (friendRequests u).
Definition with_friendCode (v : option string) (u : t) : t :=
  mk (_id u) (platformXp u) (level u) (hellWeek u) v (friends u) (friendRequests u).
Definition with_friends (v : list ObjectId) (u : t) : t :=
  mk (_id u) (platformXp u) (level u) (hellWeek u) (friendCode u) v (friendRequests u).
Definition with_friendRequests (v : list FriendRequest) (u : t) : t :=
  mk (_id u) (platformXp u) (level u) (hellWeek u) (friendCode u) (friends u) v.

End User.

Module Habit.

Inductive HabitType := solo | battle.
Inductive BattleStatus := pending | active | completed | rejected | waiting.

(** An element of [xpGrantedDates]: the schema's [{date, grantedAt}]
    sub-document, or one of the two older shapes that the code of the
    toggle route still tests for, a bare date string and a record without
    [grantedAt]. The schema gives every record a [grantedAt]
    ([default: Date.now]), so a document that went through it holds
    sub-documents with both fields only. *)
Inductive Grant :=
| GrantStr (date : string)
| GrantObj (date : string) (grantedAt : option Z).

(** [rules], [color], the rep fields and [createdAt] are carried along
    unchanged by every route below and are left out. *)
Record t := mk {
  _id : ObjectId;
  userId : ObjectId;
  name : string;
  completedDates : list string;
  xpGrantedDates : list Grant;
  currentStreak : Z;
  longestStreak : Z;
  partnerId : option ObjectId;
  sharedGroupId : option ObjectId;
  type : HabitType;
  battleStatus : BattleStatus;
  battleDuration : Z;
  battleStartDate : option Z;
  battleWinner : option ObjectId;
  isVisible : bool
}.

Definition with_ledger (cd : list string) (xg : list Grant) (cs : Z) (h : t) : t :=
  mk (_id h) (userId h) (name h) cd xg cs (longestStreak h) (partnerId h)
     (sharedGroupId h) (type h) (battleStatus h) (battleDuration h)
     (battleStartDate h) (battleWinner h) (isVisible h).

Definition with_battleStatus (v : BattleStatus) (h : t) : t :=
  mk (_id h) (userId h) (name h) (completedDates h) (xpGrantedDates h)
     (currentStreak h) (longestStreak h) (partnerId h) (sharedGroupId h)
     (type h) v (battleDuration h) (battleStartDate h) (battleWinner h)
     (isVisible h).

Definition with_accept (startDate : Z) (h : t) : t :=
  mk (_id h) (userId h) (name h) (completedDates h) (xpGrantedDates h)
     (currentStreak h) (longestStreak h) (partnerId h) (sharedGroupId h)
     (type h) active (battleDuration h) (Some startDate) (battleWinner h)
     true.

Definition with_battleWinner (v : option ObjectId) (h : t) : t :=
  mk (_id h) (userId h) (name h) (completedDates h) (xpGrantedDates h)
     (currentStreak h) (longestStreak h) (partnerId h) (sharedGroupId h)
     (type h) (battleStatus h) (battleDuration h) (battleStartDate h) v
     (isVisible h).

(** The object literal handed to [new Habit(...)]: every key may be
    absent. The request body of [POST /habits] is such an object too
    (taken after the schema's casts, the [trim] of [name] and the
    [grantedAt] default of its grant records, and not carrying an [_id] of
    its own). *)
Record Fields := mkFields {
  f_userId : option ObjectId;
  f_name : option string;
  f_completedDates : option (list string);
  f_xpGrantedDates : option (list Grant);
  f_currentStreak : option Z;
  f_longestStreak : option Z;
  f_partnerId : option ObjectId;
  f_sharedGroupId : option ObjectId;
  f_type : option HabitType;
  f_battleStatus : option BattleStatus;
  f_battleDuration : option Z;
  f_battleStartDate : option Z;
  f_battleWinner : option ObjectId;
  f_isVisible : option bool
}.

Definition default {A : Type} (o : option A) (d : A) : A :=
  match o with Some a => a | None => d end.

(** [required: true] on a string path also refuses the empty string. *)
Definition requiredString (o : option string) : option string :=
  match o with
  | Some s => if String.eqb s "" then None else Some s
  | None => None
  end.

(** Validation of a new document against [habitSchema], with the schema
    defaults filled in; [None] is a [ValidationError]. *)
Definition validate (id : ObjectId) (f : Fields) : option t :=
  match f_userId f, requiredString (f_name f) with
  | Some uid, Some nm =>
      Some (mk id uid nm
               (default (f_completedDates f) [])
               (default (f_xpGrantedDates f) [])
               (default (f_currentStreak f) 0)
               (default (f_longestStreak f) 0)
               (f_partnerId f)
               (f_sharedGroupId f)
               (default (f_type f) solo)
               (default (f_battleStatus f) active)
               (default (f_battleDuration f) 7)
               (f_battleStartDate f)
               (f_battleWinner f)
               (default (f_isVisible f) true))
  | _, _ => None
  end.

(** The message of the [ValidationError]: the required paths that are
    missing, in the order of the schema. *)
Definition validationMessage (f : Fields) : string :=
  ("Habit validation failed: " ++
   match f_userId f, requiredString (f_name f) with
   | None, None => "userId: Path `userId` is required., name: Path `name` is required."
   | None, Some _ => "userId: Path `userId` is required."
   | Some _, _ => "name: Path `name` is required."
   end)%string.

End Habit.

(* ------------------------------------------------------------------ *)
(** ** The world: the two collections, the id allocator, the random
       draws still to come, and the log of persistence writes *)

Inductive Write :=
| UserSaved (id : ObjectId)
| HabitSaved (id : ObjectId)
| HabitDeleted (id : ObjectId).

Record World := mkWorld {
  users : list User.t;
  habits : list Habit.t;
  nextOid : ObjectId;
  random : list nat;
  writes : list Write
}.

Inductive Outcome (A : Type) :=
| Ret (a : A) (w : World)
| Throw (message : string) (w : World)
| Hang.
Arguments Hang {A}.

Definition M (A : Type) := World -> Outcome A.

Definition ret {A : Type} (a : A) : M A := fun w => Ret a w.

Definition throw {A : Type} (message : string) : M A := fun w => Throw A message w.

Definition bind {A B : Type} (m : M A) (k : A -> M B) : M B :=
  fun w =>
    match m w with
    | Ret a w' => k a w'
    | Throw _ e w' => Throw B e w'
    | Hang => Hang
    end.

Notation "x <- m ;; k" := (bind m (fun x => k))
  (at level 61, m at next level, right associativity).
Notation "m ;;; k" := (bind m (fun _ => k))
  (at level 61, right associativity).

(** What a route sends back. *)
Inductive Json :=
| JError (error : string)
| JMessage (message : string)
| JHabit (habit : Habit.t)
| JUser (user : User.t)
| JToggle (habit : Habit.t) (userLv userXp : option Z)
| JHellWeek (message : string) (hellWeek : User.HellWeek)
| JMessageUser (message : string) (user : User.t)
| JSurrender (message : string) (habit : Habit.t) (user : option User.t)
| JFriends (message : string) (friends : list ObjectId)
| JNothing.

Record Response := mkResponse { statusCode : nat; body : Json }.

Definition Route := World -> option (Response * World).

(** [try { ... } catch (err) { res.status(code).json({ error: err.message }) }] *)
Definition tryCatch (code : nat) (m : M Response) : Route :=
  fun w =>
    match m w with
    | Ret r w' => Some (r, w')
    | Throw _ e w' => Some (mkResponse code (JError e), w')
    | Hang => None
    end.

(* ------------------------------------------------------------------ *)
(** ** Persistence *)

Definition newObjectId : M ObjectId :=
  fun w => Ret (nextOid w)
               (mkWorld (users w) (habits w) (S (nextOid w)) (random w) (writes w)).

Definition logWrite (x : Write) : M unit :=
  fun w => Ret tt (mkWorld (users w) (habits w) (nextOid w) (random w) (writes w ++ [x])).

Definition setUsers (us : list User.t) : M unit :=
  fun w => Ret tt (mkWorld us (habits w) (nextOid w) (random w) (writes w)).

Definition setHabits (hs : list Habit.t) : M unit :=
  fun w => Ret tt (mkWorld (users w) hs (nextOid w) (random w) (writes w)).

Definition setRandom (rs : list nat) : M unit :=
  fun w => Ret tt (mkWorld (users w) (habits w) (nextOid w) rs (writes w)).

Definition getWorld : M World := fun w => Ret w w.

Definition hang {A : Type} : M A := fun _ => Hang.

Definition User_findById (id : ObjectId) : M (option User.t) :=
  w <- getWorld ;; ret (find (fun u => Nat.eqb (User._id u) id) (users w)).

Definition hasFriendCode (code : string) (u : User.t) : bool :=
  match User.friendCode u with
  | Some c => String.eqb c code
  | None => false
  end.

Definition User_findOne_friendCode (code : string) : M (option User.t) :=
  w <- getWorld ;; ret (find (hasFriendCode code) (users w)).

(** *** [models/User.js]: the friend-code pre-save hook *)

Definition chars : string := "ABCDEFGHIJKLMNOPQRSTUVWXYZ0123456789".

Definition charAt (i : nat) (s : string) : string :=
  match String.get i s with
  | Some c => String c EmptyString
  | None => EmptyString
  end.

(** The inner [for] loop: [k] characters still to draw. *)
Fixpoint drawCode (k : nat) (code : string) (rs : list nat) : option (string * list nat) :=
  match k with
  | O => Some (code, rs)
  | S k' =>
      match rs with
      | [] => None
      | r :: rs' => drawCode k' (code ++ charAt r chars)%string rs'
      end
  end.

(** The [while (!isUnique)] loop; it can only stop on a code that no
    stored user has, and it runs for as long as there are draws. *)
Fixpoint uniqueCode (fuel : nat) (rs : list nat) (us : list User.t) : option (string * list nat) :=
  match fuel with
  | O => None
  | S fuel' =>
      match drawCode 5 "" rs with
      | None => None
      | Some (code, rs') =>
          match find (hasFriendCode code) us with
          | None => Some (code, rs')
          | Some _ => uniqueCode fuel' rs' us
          end
      end
  end.

(** [!this.friendCode]: absent or the empty string. *)
Definition lacksFriendCode (u : User.t) : bool :=
  match User.friendCode u with
  | Some c => String.eqb c ""
  | None => true
  end.

Definition preSave (u : User.t) : M User.t :=
  if lacksFriendCode u then
    w <- getWorld ;;
    match uniqueCode (S (List.length (random w))) (random w) (users w) with
    | Some (code, rs) => setRandom rs ;;; ret (User.with_friendCode (Some code) u)
    | None => hang
    end
  else ret u.

(** Writing a loaded document back: it takes the place of the stored
    document that has its [_id]. *)
Definition replaceById {A : Type} (key : A -> ObjectId) (a : A) (l : list A) : list A :=
  map (fun v => if Nat.eqb (key v) (key a) then a else v) l.

Definition replaceUser (u : User.t) (us : list User.t) : list User.t :=
  replaceById User._id u us.

(** [await user.save()] on a loaded document; answers the document as
    stored (the in-memory document after the hooks). *)
Definition User_save (u : User.t) : M User.t :=
  u' <- preSave u ;;
  w <- getWorld ;;
  setUsers (replaceUser u' (users w)) ;;;
  logWrite (UserSaved (User._id u')) ;;;
  ret u'.

Definition Habit_findById (id : ObjectId) : M (option Habit.t) :=
  w <- getWorld ;; ret (find (fun h => Nat.eqb (Habit._id h) id) (habits w)).

Definition sameGroup (g : option ObjectId) (h : Habit.t) : bool :=
  match g, Habit.sharedGroupId h with
  | Some a, Some b => Nat.eqb a b
  | None, None => true
  | _, _ => false
  end.

(** [Habit.findOne({ sharedGroupId: my.sharedGroupId, _id: { $ne: my._id } })] *)
Definition Habit_findOne_counterpart (my : Habit.t) : M (option Habit.t) :=
  w <- getWorld ;;
  ret (find (fun h => sameGroup (Habit.sharedGroupId my) h
                      && negb (Nat.eqb (Habit._id h) (Habit._id my)))
            (habits w)).

Definition replaceHabit (h : Habit.t) (hs : list Habit.t) : list Habit.t :=
  replaceById Habit._id h hs.

(** [await habit.save()] on a loaded document. *)
Definition Habit_save (h : Habit.t) : M unit :=
  w <- getWorld ;;
  setHabits (replaceHabit h (habits w)) ;;;
  logWrite (HabitSaved (Habit._id h)).

(** [new Habit({ ... })]: the document gets its [_id] at construction. *)
Definition Habit_new (f : Habit.Fields) : M (ObjectId * Habit.Fields) :=
  id <- newObjectId ;; ret (id, f).

(** [await habit.save()] on a new document: validate, then insert. *)
Definition Habit_saveNew (d : ObjectId * Habit.Fields) : M Habit.t :=
  match Habit.validate (fst d) (snd d) with
  | Some h =>
      w <- getWorld ;;
      setHabits (habits w ++ [h]) ;;;
      logWrite (HabitSaved (Habit._id h)) ;;;
      ret h
  | None => throw (Habit.validationMessage (snd d))
  end.

(* ------------------------------------------------------------------ *)
(** ** Array and string helpers of the language *)

(** [Array.prototype.indexOf]: the first index, or [-1]. *)
Fixpoint indexOfFrom (x : string) (l : list string) (i : Z) : Z :=
  match l with
  | [] => -1
  | y :: l' => if String.eqb y x then i else indexOfFrom x l' (i + 1)
  end.

Definition indexOf (x : string) (l : list string) : Z := indexOfFrom x l 0.

(** [l.splice(start, 1)] for [start >= 0]: what is left in [l]. *)
Definition splice1 (start : Z) (l : list string) : list string :=
  firstn (Z.to_nat start) l ++ skipn (S (Z.to_nat start)) l.

(** [Array.prototype.sort()] without a comparator orders strings by their
    code units; strings are compared here character by character, which
    is the same order on ASCII dates. *)
Fixpoint insertSorted (x : string) (l : list string) : list string :=
  match l with
  | [] => [x]
  | y :: l' => if String.leb x y then x :: l else y :: insertSorted x l'
  end.

Definition sort (l : list string) : list string := fold_right insertSorted [] l.

(** [ids.includes(id)] on an array of ObjectIds. *)
Definition includes (id : ObjectId) (ids : list ObjectId) : bool :=
  existsb (Nat.eqb id) ids.

(* ------------------------------------------------------------------ *)
(** ** [server.js] *)

Module Server.

Import Habit User.

(** *** 4. [POST /habits] *)

Definition post_habits (partnerId : option ObjectId) (battleDuration : option Z)
    (habitData : Habit.Fields) : Route :=
  tryCatch 400 (
    sharedGroupId <-
      match partnerId with
      | Some _ => g <- newObjectId ;; ret (Some g)
      | None => ret None
      end ;;
    habit <- Habit_new
      {| f_userId := f_userId habitData;
         f_name := f_name habitData;
         f_completedDates := f_completedDates habitData;
         f_xpGrantedDates := f_xpGrantedDates habitData;
         f_currentStreak := f_currentStreak habitData;
         f_longestStreak := f_longestStreak habitData;
         f_battleStartDate := f_battleStartDate habitData;
         f_battleWinner := f_battleWinner habitData;
         f_partnerId := partnerId;
         f_sharedGroupId := sharedGroupId;
         f_type := Some (match partnerId with Some _ => battle | None => solo end);
         f_battleStatus := Some (match partnerId with Some _ => waiting | None => active end);
         f_isVisible := Some (match partnerId with Some _ => false | None => true end);
         f_battleDuration := Some (or_else (Habit.default battleDuration 0) 7) |} ;;
    habit <- Habit_saveNew habit ;;
    match partnerId with
    | Some partner =>
        partnerHabit <- Habit_new
          {| f_name := f_name habitData;
             f_completedDates := f_completedDates habitData;
             f_xpGrantedDates := f_xpGrantedDates habitData;
             f_currentStreak := f_currentStreak habitData;
             f_longestStreak := f_longestStreak habitData;
             f_battleStartDate := f_battleStartDate habitData;
             f_battleWinner := f_battleWinner habitData;
             f_userId := Some partner;
             f_partnerId := f_userId habitData;
             f_sharedGroupId := sharedGroupId;
             f_type := Some battle;
             f_battleStatus := Some Habit.pending;
             f_isVisible := Some false;
             f_battleDuration := Some (or_else (Habit.default battleDuration 0) 7) |} ;;
        Habit_saveNew partnerHabit ;;;
        ret tt
    | None => ret tt
    end ;;;
    ret (mkResponse 201 (JHabit habit))).

(** *** 5. [POST /habits/:id/toggle] *)

Definition UNDO_WINDOW_MS : Z := 60 * 1000.

(** [typeof entry === 'object' ? entry.date === date : entry === date] *)
Definition grantMatches (date : string) (entry : Grant) : bool :=
  match entry with
  | GrantObj d _ => String.eqb d date
  | GrantStr s => String.eqb s date
  end.

(** [if (xpGrantEntry)]: [undefined] and the empty string are falsy. *)
Definition truthyEntry (entry : option Grant) : bool :=
  match entry with
  | Some (GrantObj _ _) => true
  | Some (GrantStr s) => negb (String.eqb s "")
  | None => false
  end.

(** [xpGrantEntry.grantedAt ? new Date(xpGrantEntry.grantedAt) : null] *)
Definition grantedAtOf (entry : option Grant) : option Z :=
  match entry with
  | Some (GrantObj _ g) => g
  | _ => None
  end.

(** The ledger part of the route, from [indexOf] down to
    [habit.currentStreak = ...]: the habit as saved, and [xpChange]. *)
Definition toggleLedger (habit : Habit.t) (date : string) (now : Z) : Habit.t * Z :=
  let existsIndex := indexOf date (completedDates habit) in
  let xpGrantEntry := find (grantMatches date) (xpGrantedDates habit) in
  let '(dates, grants, xpChange) :=
    if existsIndex >? -1 then
      let dates := splice1 existsIndex (completedDates habit) in
      if truthyEntry xpGrantEntry then
        match grantedAtOf xpGrantEntry with
        | Some grantedAt =>
            if now - grantedAt <? UNDO_WINDOW_MS then
              (dates,
               filter (fun entry => negb (grantMatches date entry)) (xpGrantedDates habit),
               -15)
            else (dates, xpGrantedDates habit, 0)
        | None => (dates, xpGrantedDates habit, 0)
        end
      else (dates, xpGrantedDates habit, 0)
    else
      let dates := completedDates habit ++ [date] in
      if negb (truthyEntry xpGrantEntry) then
        (dates, xpGrantedDates habit ++ [GrantObj date (Some now)], 15)
      else (dates, xpGrantedDates habit, 0) in
  let dates := sort dates in
  (Habit.with_ledger dates grants (Z.of_nat (List.length dates)) habit,
   xpChange).

(** The body of [if (user && xpChange !== 0) { ... }] up to the save. *)
Definition awardXp (user : User.t) (xpChange : Z) : User.t :=
  let xpChange :=
    if isActive (hellWeek user)
    then (if xpChange >? 0 then xpChange + 20 else xpChange - 20)
    else xpChange in
  let xp := Z.max 0 (or_else (platformXp user) 0 + xpChange) in
  let user := User.with_platformXp xp user in
  User.with_level (Z.max (or_else (level user) 1) (calculateLevel (platformXp user))) user.

Definition post_habits_toggle (id : ObjectId) (date : string) (now : Z) : Route :=
  tryCatch 500 (
    found <- Habit_findById id ;;
    match found with
    | None => ret (mkResponse 404 (JError "Not found"))
    | Some habit =>
        let '(habit, xpChange) := toggleLedger habit date now in
        Habit_save habit ;;;
        owner <- User_findById (Habit.userId habit) ;;
        match owner with
        | Some user =>
            if negb (xpChange =? 0) then
              user <- User_save (awardXp user xpChange) ;;
              ret (mkResponse 200
                     (JToggle habit (Some (level user)) (Some (platformXp user))))
            else
              ret (mkResponse 200
                     (JToggle habit (Some (level user)) (Some (platformXp user))))
        | None => ret (mkResponse 200 (JToggle habit None None))
        end
    end).

(** *** 8. [POST /user/:userId/hell-week] *)

(** A route that falls through without calling [res.json]. *)
Definition noResponse : Response := mkResponse 0 JNothing.

Definition hellWeekOff : User.HellWeek := mkHellWeek false None None.

(** [tStart] is the reading of [new Date()] and [tNow] the reading of
    [Date.now()] in the object literal of the [start] branch. *)
Definition post_user_hell_week (userId : ObjectId) (action : string)
    (tStart tNow : Z) : Route :=
  tryCatch 500 (
    found <- User_findById userId ;;
    match found with
    | None => ret (mkResponse 404 (JError "User not found"))
    | Some user =>
        if (action =? "start")%string then
          if isActive (hellWeek user) then
            ret (mkResponse 400 (JError "Already in hell"))
          else if or_else (level user) 1 <? 4 then
            ret (mkResponse 400 (JError "Hell Week requires Level 4"))
          else
            user <- User_save
              (User.with_hellWeek
                 (mkHellWeek true (Some tStart)
                    (Some (tNow + 7 * 24 * 60 * 60 * 1000))) user) ;;
            ret (mkResponse 200 (JHellWeek "Welcome to Hell." (hellWeek user)))
        else if (action =? "surrender")%string then
          user <- User_save
            (User.with_platformXp (Z.max 0 (platformXp user - 700))
               (User.with_hellWeek hellWeekOff user)) ;;
          ret (mkResponse 200 (JMessageUser "You gave up early. Coward." user))
        else if (action =? "fail")%string then
          user <- User_save
            (User.with_platformXp (Z.max 0 (platformXp user - 500))
               (User.with_hellWeek hellWeekOff user)) ;;
          ret (mkResponse 200 (JMessageUser "You survived but failed. Shame." user))
        else if (action =? "complete")%string then
          let user := User.with_hellWeek hellWeekOff user in
          let user := User.with_platformXp (or_else (platformXp user) 0 + 1000) user in
          let user :=
            User.with_level
              (Z.max (or_else (level user) 1) (calculateLevel (platformXp user))) user in
          user <- User_save user ;;
          ret (mkResponse 200 (JMessageUser "You conquered Hell. Legendary." user))
        else ret noResponse
    end).

(** *** [POST /battles/respond] *)

Definition post_battles_respond (habitId : ObjectId) (action : string)
    (now : Z) : Route :=
  tryCatch 500 (
    found <- Habit_findById habitId ;;
    match found with
    | None => ret (mkResponse 404 (JError "Battle not found"))
    | Some myHabit =>
        opponentHabit <- Habit_findOne_counterpart myHabit ;;
        if (action =? "accept")%string then
          let myHabit := Habit.with_accept now myHabit in
          match opponentHabit with
          | Some opponent => Habit_save (Habit.with_accept now opponent)
          | None => ret tt
          end ;;;
          Habit_save myHabit ;;;
          ret (mkResponse 200 (JHabit myHabit))
        else if (action =? "reject")%string then
          w <- getWorld ;;
          setHabits (filter (fun h => negb (Nat.eqb (Habit._id h) habitId)) (habits w)) ;;;
          logWrite (HabitDeleted habitId) ;;;
          match opponentHabit with
          | Some opponent => Habit_save (Habit.with_battleStatus Habit.rejected opponent)
          | None => ret tt
          end ;;;
          ret (mkResponse 200 (JMessage "Battle Rejected"))
        else ret noResponse
    end).

(** *** [POST /battles/surrender] *)

Definition post_battles_surrender (habitId : ObjectId) : Route :=
  tryCatch 500 (
    found <- Habit_findById habitId ;;
    match found with
    | None => ret (mkResponse 404 (JError "Habit not found"))
    | Some myHabit =>
        opponentHabit <- Habit_findOne_counterpart myHabit ;;
        let myHabit := Habit.with_battleStatus completed myHabit in
        let myHabit := Habit.with_battleWinner (partnerId myHabit) myHabit in
        match opponentHabit with
        | Some opponent =>
            Habit_save
              (Habit.with_battleWinner (partnerId myHabit)
                 (Habit.with_battleStatus completed opponent))
        | None => ret tt
        end ;;;
        Habit_save myHabit ;;;
        owner <- User_findById (Habit.userId myHabit) ;;
        match owner with
        | Some user =>
            user <- User_save
              (User.with_platformXp (Z.max 0 (or_else (platformXp user) 0 - 100)) user) ;;
            ret (mkResponse 200
                   (JSurrender "You surrendered. Rival wins." myHabit (Some user)))
        | None =>
            ret (mkResponse 200
                   (JSurrender "You surrendered. Rival wins." myHabit None))
        end
    end).

(** *** 10. [POST /social/add-friend] and 11. [POST /social/handle-request] *)

Section Social.

(** [String.prototype.toUpperCase] of the runtime. *)
Variable toUpperCase : string -> string.

Definition post_social_add_friend (userId : ObjectId) (friendCode : string)
    (now : Z) : Route :=
  tryCatch 500 (
    sender <- User_findById userId ;;
    target <- User_findOne_friendCode (toUpperCase friendCode) ;;
    match target with
    | None => ret (mkResponse 404 (JError "User not found with this code."))
    | Some target =>
        match sender with
        | None => throw "Cannot read properties of null (reading 'id')"
        | Some sender =>
            if Nat.eqb (User._id sender) (User._id target) then
              ret (mkResponse 400 (JError "You cannot add yourself."))
            else if includes (User._id target) (friends sender) then
              ret (mkResponse 400 (JError "Already friends."))
            else
              match find (fun r => Nat.eqb (from r) userId) (friendRequests target) with
              | Some _ => ret (mkResponse 400 (JError "Request already sent."))
              | None =>
                  User_save
                    (User.with_friendRequests
                       (friendRequests target
                          ++ [mkFriendRequest userId User.pending now])
                       target) ;;;
                  ret (mkResponse 200 (JMessage "Friend request sent!"))
              end
        end
    end).

End Social.

(** The message of the [VersionError] that [save] raises for a document
    whose stored version is no longer the one that was loaded. *)
Definition versionError : string := "No matching document found".

(** The two documents are loaded and saved independently; for
    [userId <> requesterId] they are different records of the store. For
    [userId = requesterId] they are two copies of one record: once the save
    of [requester] has written its new friend, the copy [user] is stale, its
    save is refused with a [VersionError], and the route answers 500 with the
    first save kept. *)
Definition post_social_handle_request (userId requesterId : ObjectId)
    (action : string) : Route :=
  tryCatch 500 (
    user <- User_findById userId ;;
    requester <- User_findById requesterId ;;
    match user, requester with
    | Some user, Some requester =>
        let user :=
          User.with_friendRequests
            (filter (fun r => negb (Nat.eqb (from r) requesterId)) (friendRequests user))
            user in
        if (action =? "accept")%string then
          let user :=
            if includes requesterId (friends user) then user
            else User.with_friends (friends user ++ [requesterId]) user in
          let stale :=
            Nat.eqb userId requesterId && negb (includes userId (friends requester)) in
          let requester :=
            if includes userId (friends requester) then requester
            else User.with_friends (friends requester ++ [userId]) requester in
          User_save requester ;;;
          (if stale then throw versionError else ret tt) ;;;
          user <- User_save user ;;
          ret (mkResponse 200 (JFriends ("Request " ++ action ++ "ed")%string (friends user)))
        else
          user <- User_save user ;;
          ret (mkResponse 200 (JFriends ("Request " ++ action ++ "ed")%string (friends user)))
    | _, _ => ret (mkResponse 404 (JError "User not found"))
    end).

(** *** 9. [GET /user/:id] *)

Definition get_user (id : ObjectId) : Route :=
  tryCatch 500 (
    found <- User_findById id ;;
    match found with
    | None => ret (mkResponse 404 (JError "User not found"))
    | Some user =>
        user <- (if lacksFriendCode user then User_save user else ret user) ;;
        let calculatedLevel := calculateLevel (or_else (platformXp user) 0) in
        if calculatedLevel >? or_else (level user) 1 then
          user <- User_save (User.with_level calculatedLevel user) ;;
          ret (mkResponse 200 (JUser user))
        else ret (mkResponse 200 (JUser user))
    end).

(** *** The application: the routes above, by method and path *)

Inductive Request :=
| POST_habits (partnerId : option ObjectId) (battleDuration : option Z)
    (habitData : Habit.Fields)
| POST_habits_toggle (id : ObjectId) (date : string) (now : Z)
| POST_user_hell_week (userId : ObjectId) (action : string) (tStart tNow : Z)
| POST_battles_respond (habitId : ObjectId) (action : string) (now : Z)
| POST_battles_surrender (habitId : ObjectId)
| POST_social_add_friend (userId : ObjectId) (friendCode : string) (now : Z)
| POST_social_handle_request (userId requesterId : ObjectId) (action : string)
| GET_user (id : ObjectId).

Section App.

Variable toUpperCase : string -> string.

Definition app (req : Request) : Route :=
  match req with
  | POST_habits partnerId battleDuration habitData =>
      post_habits partnerId battleDuration habitData
  | POST_habits_toggle id date now => post_habits_toggle id date now
  | POST_user_hell_week userId action tStart tNow =>
      post_user_hell_week userId action tStart tNow
  | POST_battles_respond habitId action now =>
      post_battles_respond habitId action now
  | POST_battles_surrender habitId => post_battles_surrender habitId
  | POST_social_add_friend userId friendCode now =>
      post_social_add_friend toUpperCase userId friendCode now
  | POST_social_handle_request userId requesterId action =>
      post_social_handle_request userId requesterId action
  | GET_user id => get_user id
  end.

End App.

(** *** Queries: [Habit.find], [deleteOne], [populate] *)

Definition statusEqb (a b : Habit.BattleStatus) : bool :=
  match a, b with
  | Habit.pending, Habit.pending
  | Habit.active, Habit.active
  | Habit.completed, Habit.completed
  | Habit.rejected, Habit.rejected
  | Habit.waiting, Habit.waiting => true
  | _, _ => false
  end.

Definition isBattle (h : Habit.t) : bool :=
  match Habit.type h with
  | Habit.battle => true
  | Habit.solo => false
  end.

(** [Habit.find(filter)]: the matching documents, in store order. *)
Definition Habit_find (filter_ : Habit.t -> bool) : M (list Habit.t) :=
  w <- getWorld ;; ret (filter filter_ (habits w)).

(** What is left of a collection when its first match is deleted. *)
Fixpoint removeFirst {A : Type} (P : A -> bool) (l : list A) : list A :=
  match l with
  | [] => []
  | a :: l' => if P a then l' else a :: removeFirst P l'
  end.

(** [Habit.deleteOne(filter)] *)
Definition Habit_deleteOne (filter_ : Habit.t -> bool) : M unit :=
  w <- getWorld ;;
  match find filter_ (habits w) with
  | Some h =>
      setHabits (removeFirst filter_ (habits w)) ;;;
      logWrite (HabitDeleted (Habit._id h))
  | None => ret tt
  end.

(** [Habit.findByIdAndDelete(id)], as in the reject branch above. *)
Definition Habit_findByIdAndDelete (id : ObjectId) : M unit :=
  w <- getWorld ;;
  setHabits (filter (fun h => negb (Nat.eqb (Habit._id h) id)) (habits w)) ;;;
  logWrite (HabitDeleted id).

(** [.populate(path, ...)] of a user reference: the stored user, or [null]. *)
Definition populated (ref : option ObjectId) (w : World) : option User.t :=
  match ref with
  | Some id => find (fun u => Nat.eqb (User._id u) id) (users w)
  | None => None
  end.

(** What a read route sends back: the data with its status, or an error. *)
Inductive Reply (A : Type) :=
| Sent (status : nat) (data : A)
| Failed (status : nat) (error : string).

Definition tryCatchReply {A : Type} (code : nat) (m : M (Reply A))
    : World -> option (Reply A * World) :=
  fun w =>
    match m w with
    | Ret r w' => Some (r, w')
    | Throw _ e w' => Some (Failed A code e, w')
    | Hang => None
    end.

(** *** 3. [GET /habits]

    The first query of the route is kept: its result is not used. *)

Definition get_habits (userId : ObjectId) : World -> option (Reply (list Habit.t) * World) :=
  tryCatchReply 500 (
    Habit_find (fun h => Nat.eqb (Habit.userId h) userId
                         && isVisible h && negb (isBattle h)) ;;;
    visibleHabits <- Habit_find
      (fun h => Nat.eqb (Habit.userId h) userId
                && isVisible h && negb (statusEqb (battleStatus h) completed)) ;;
    ret (Sent 200%nat visibleHabits)).

(** *** 14. [GET /habits/shared/:groupId] *)

Definition get_habits_shared (groupId : ObjectId)
    : World -> option (Reply (list (Habit.t * option User.t)) * World) :=
  tryCatchReply 500 (
    found <- Habit_find (sameGroup (Some groupId)) ;;
    w <- getWorld ;;
    ret (Sent 200%nat (map (fun h => (h, populated (Some (Habit.userId h)) w)) found))).

(** *** 7. [DELETE /habits/:id] *)

Definition delete_habits (id : ObjectId) : Route :=
  tryCatch 500 (
    Habit_findByIdAndDelete id ;;;
    ret (mkResponse 200 (JMessage "Deleted"))).

(** *** [GET /battles/requests] and [GET /battles/sent] *)

Definition get_battles_requests (userId : ObjectId)
    : World -> option (Reply (list (Habit.t * option User.t)) * World) :=
  tryCatchReply 500 (
    requests <- Habit_find
      (fun h => Nat.eqb (Habit.userId h) userId
                && statusEqb (battleStatus h) Habit.pending && isBattle h) ;;
    w <- getWorld ;;
    ret (Sent 200%nat (map (fun h => (h, populated (partnerId h) w)) requests))).

Definition get_battles_sent (userId : ObjectId)
    : World -> option (Reply (list (Habit.t * option User.t)) * World) :=
  tryCatchReply 500 (
    sent <- Habit_find
      (fun h => Nat.eqb (Habit.userId h) userId
                && statusEqb (battleStatus h) waiting && isBattle h) ;;
    w <- getWorld ;;
    ret (Sent 200%nat (map (fun h => (h, populated (partnerId h) w)) sent))).

(** *** [POST /battles/cancel] *)

Definition post_battles_cancel (habitId : ObjectId) : Route :=
  tryCatch 500 (
    found <- Habit_findById habitId ;;
    match found with
    | None => ret (mkResponse 404 (JError "Battle not found"))
    | Some myHabit =>
        Habit_deleteOne
          (fun h => sameGroup (Habit.sharedGroupId myHabit) h
                    && negb (Nat.eqb (Habit._id h) (Habit._id myHabit))) ;;;
        Habit_findByIdAndDelete habitId ;;;
        ret (mkResponse 200 (JMessage "Battle request cancelled"))
    end).

(** *** [GET /battles]: the expiry sweep, then the listing *)

Section Expiry.

(** [addDays d n] is the time value of [d] after
    [d.setDate(d.getDate() + n)], the calendar arithmetic of the runtime in
    its local time zone. *)
Variable addDays : Z -> Z -> Z.

(** The [for (const battle of activeBattles)] loop. *)
Fixpoint sweep (now : Z) (activeBattles : list Habit.t) : M unit :=
  match activeBattles with
  | [] => ret tt
  | theBattle :: rest =>
      match battleStartDate theBattle with
      | Some start =>
          if now >? addDays start (battleDuration theBattle) then
            Habit_save (Habit.with_battleStatus completed theBattle) ;;;
            sweep now rest
          else sweep now rest
      | None => sweep now rest
      end
  end.

Definition get_battles (userId : ObjectId) (now : Z)
    : World -> option (Reply (list (Habit.t * option User.t)) * World) :=
  tryCatchReply 500 (
    activeBattles <- Habit_find
      (fun h => Nat.eqb (Habit.userId h) userId
                && isBattle h && statusEqb (battleStatus h) active) ;;
    sweep now activeBattles ;;;
    battles <- Habit_find
      (fun h => Nat.eqb (Habit.userId h) userId
                && isBattle h
                && (statusEqb (battleStatus h) active
                    || statusEqb (battleStatus h) completed)) ;;
    w <- getWorld ;;
    ret (Sent 200%nat (map (fun h => (h, populated (partnerId h) w)) battles))).

End Expiry.

(** *** 13. [GET /social/requests]

    A request is listed when it is pending and its sender is a stored
    user; the entry carries the sender and the timestamp. *)

Definition isPending (r : User.FriendRequest) : bool :=
  match User.status r with
  | User.pending => true
  | User.rejected => false
  end.

Definition get_social_requests (userId : ObjectId)
    : World -> option (Reply (list (User.t * Z)) * World) :=
  tryCatchReply 500 (
    found <- User_findById userId ;;
    match found with
    | None => ret (Failed _ 404%nat "User not found")
    | Some user =>
        w <- getWorld ;;
        ret (Sent 200%nat
               (flat_map
                  (fun r =>
                     match populated (Some (from r)) w with
                     | Some sender =>
                         if isPending r then [(sender, timestamp r)] else []
                     | None => []
                     end)
                  (friendRequests user)))
    end).

End Server.

(* ------------------------------------------------------------------ *)
(** ** [api/index.js], the serverless copy

    Only the routes that differ from [server.js] in what they decide are
    written out; the two social routes are the same text as in [server.js]. *)

Module Api.

Import Habit User.

(** *** 4. [POST /habits] *)

Definition post_habits (partnerId : option ObjectId) (battleDuration : option Z)
    (habitData : Habit.Fields) : Route :=
  tryCatch 400 (
    sharedGroupId <-
      match partnerId with
      | Some _ => g <- newObjectId ;; ret (Some g)
      | None => ret None
      end ;;
    habit <- Habit_new
      {| f_userId := f_userId habitData;
         f_name := f_name habitData;
         f_completedDates := f_completedDates habitData;
         f_xpGrantedDates := f_xpGrantedDates habitData;
         f_currentStreak := f_currentStreak habitData;
         f_longestStreak := f_longestStreak habitData;
         f_battleStartDate := f_battleStartDate habitData;
         f_battleWinner := f_battleWinner habitData;
         f_isVisible := f_isVisible habitData;
         f_partnerId := partnerId;
         f_sharedGroupId := sharedGroupId;
         f_type := Some (match partnerId with Some _ => battle | None => solo end);
         f_battleStatus := Some (match partnerId with Some _ => waiting | None => active end);
         f_battleDuration := Some (or_else (Habit.default battleDuration 0) 7) |} ;;
    habit <- Habit_saveNew habit ;;
    match partnerId with
    | Some partner =>
        partnerHabit <- Habit_new
          {| f_name := f_name habitData;
             f_completedDates := f_completedDates habitData;
             f_xpGrantedDates := f_xpGrantedDates habitData;
             f_currentStreak := f_currentStreak habitData;
             f_longestStreak := f_longestStreak habitData;
             f_battleStartDate := f_battleStartDate habitData;
             f_battleWinner := f_battleWinner habitData;
             f_userId := Some partner;
             f_partnerId := f_userId habitData;
             f_sharedGroupId := sharedGroupId;
             f_type := Some battle;
             f_battleStatus := Some Habit.pending;
             f_isVisible := Some false;
             f_battleDuration := Some (or_else (Habit.default battleDuration 0) 7) |} ;;
        Habit_saveNew partnerHabit ;;;
        ret tt
    | None => ret tt
    end ;;;
    ret (mkResponse 201 (JHabit habit))).

(** *** 5. [POST /habits/:id/toggle] *)

Definition toggleLedger (habit : Habit.t) (date : string) : Habit.t * Z :=
  let existsIndex := indexOf date (completedDates habit) in
  let '(dates, xpChange) :=
    if existsIndex >? -1
    then (splice1 existsIndex (completedDates habit), -15)
    else (completedDates habit ++ [date], 15) in
  let dates := sort dates in
  (Habit.with_ledger dates (xpGrantedDates habit) (Z.of_nat (List.length dates)) habit,
   xpChange).

Definition awardXp (user : User.t) (xpChange : Z) : User.t :=
  let xpChange :=
    if isActive (hellWeek user)
    then (if xpChange >? 0 then xpChange + 20 else xpChange - 20)
    else xpChange in
  let xp := Z.max 0 (or_else (platformXp user) 0 + xpChange) in
  let user := User.with_platformXp xp user in
  User.with_level (calculateLevel (platformXp user)) user.

Definition post_habits_toggle (id : ObjectId) (date : string) : Route :=
  tryCatch 500 (
    found <- Habit_findById id ;;
    match found with
    | None => ret (mkResponse 404 (JError "Not found"))
    | Some habit =>
        let '(habit, xpChange) := toggleLedger habit date in
        Habit_save habit ;;;
        owner <- User_findById (Habit.userId habit) ;;
        match owner with
        | Some user =>
            user <- User_save (awardXp user xpChange) ;;
            ret (mkResponse 200
                   (JToggle habit (Some (level user)) (Some (platformXp user))))
        | None => ret (mkResponse 200 (JToggle habit None None))
        end
    end).

(** *** 8. [POST /user/:userId/hell-week]

    The response is sent inside the branch; [user.save()] follows it for
    every action. *)

Definition post_user_hell_week (userId : ObjectId) (action : string)
    (tStart tNow : Z) : Route :=
  tryCatch 500 (
    found <- User_findById userId ;;
    match found with
    | None => ret (mkResponse 404 (JError "User not found"))
    | Some user =>
        if (action =? "start")%string then
          if isActive (hellWeek user) then
            ret (mkResponse 400 (JError "Already in hell"))
          else
            let user :=
              User.with_hellWeek
                (mkHellWeek true (Some tStart)
                   (Some (tNow + 7 * 24 * 60 * 60 * 1000))) user in
            User_save user ;;;
            ret (mkResponse 200 (JHellWeek "Welcome to Hell." (hellWeek user)))
        else if (action =? "surrender")%string then
          let user :=
            User.with_platformXp (Z.max 0 (platformXp user - 500))
              (User.with_hellWeek Server.hellWeekOff user) in
          User_save user ;;;
          ret (mkResponse 200 (JMessageUser "You gave up. Shame." user))
        else
          User_save user ;;;
          ret Server.noResponse
    end).

(** *** 9. [GET /user/:id] *)

Definition get_user (id : ObjectId) : Route :=
  tryCatch 500 (
    found <- User_findById id ;;
    match found with
    | None => ret (mkResponse 404 (JError "User not found"))
    | Some user =>
        user <- (if lacksFriendCode user then User_save user else ret user) ;;
        let calculatedLevel := calculateLevel (or_else (platformXp user) 0) in
        if negb (level user =? calculatedLevel) then
          user <- User_save (User.with_level calculatedLevel user) ;;
          ret (mkResponse 200 (JUser user))
        else ret (mkResponse 200 (JUser user))
    end).

Definition post_social_add_friend := Server.post_social_add_friend.
Definition post_social_handle_request := Server.post_social_handle_request.

End Api.

(* ------------------------------------------------------------------ *)
(** ** Vocabulary of the statements *)

Definition userById (id : ObjectId) (w : World) : option User.t :=
  find (fun u => Nat.eqb (User._id u) id) (users w).

Definition habitById (id : ObjectId) (w : World) : option Habit.t :=
  find (fun h => Nat.eqb (Habit._id h) id) (habits w).

(** The two records of one battle: [mine] and [theirs] are stored under
    their ids, share the group token [g], no third record carries it, and
    [mine] names the owner of [theirs] as its partner. *)
Record BattlePair (w : World) (g : ObjectId) (mine theirs : Habit.t) : Prop := {
  pair_mine : habitById (Habit._id mine) w = Some mine;
  pair_theirs : habitById (Habit._id theirs) w = Some theirs;
  pair_distinct : Habit._id mine <> Habit._id theirs;
  pair_group_mine : Habit.sharedGroupId mine = Some g;
  pair_group_theirs : Habit.sharedGroupId theirs = Some g;
  pair_only :
    forall h, In h (habits w) -> Habit.sharedGroupId h = Some g ->
      Habit._id h = Habit._id mine \/ Habit._id h = Habit._id theirs;
  pair_partner : Habit.partnerId mine = Some (Habit.userId theirs)
}.

(** Every id handed out so far is below the allocator's next id. *)
Definition groupsAllocated (w : World) : Prop :=
  forall h g, In h (habits w) -> Habit.sharedGroupId h = Some g -> (g < nextOid w)%nat.

(** What a successful battle creation looks like from [w]: the outcome
    is a 201 carrying the creator's record, and the store has grown by the
    creator's and the invitee's records, linked by the token allocated from
    [nextOid w]; [visible] is the creator's [isVisible]. *)
Definition battlePairCreated (w : World) (outcome : option (Response * World))
    (creator partner : ObjectId) (visible : bool) : Prop :=
  exists w' mine theirs,
    outcome = Some (mkResponse 201 (JHabit mine), w') /\
    habits w' = habits w ++ [mine; theirs] /\
    users w' = users w /\
    Habit.sharedGroupId mine = Some (nextOid w) /\
    Habit.sharedGroupId theirs = Some (nextOid w) /\
    Habit._id mine <> Habit._id theirs /\
    (groupsAllocated w ->
       forall h, In h (habits w) -> Habit.sharedGroupId h <> Some (nextOid w)) /\
    Habit.userId mine = creator /\
    Habit.partnerId mine = Some partner /\
    Habit.type mine = Habit.battle /\
    Habit.battleStatus mine = Habit.waiting /\
    Habit.isVisible mine = visible /\
    Habit.userId theirs = partner /\
    Habit.partnerId theirs = Some creator /\
    Habit.type theirs = Habit.battle /\
    Habit.battleStatus theirs = Habit.pending /\
    Habit.isVisible theirs = false /\
    Habit.battleDuration theirs = Habit.battleDuration mine.

(** The documents that [POST /social/handle-request] saves on [accept]:
    the user's, with the requests of [requesterId] filtered out and the
    requester pushed unless included, and the requester's. *)
Definition acceptedUser (requesterId : ObjectId) (user : User.t) : User.t :=
  let user :=
    User.with_friendRequests
      (filter (fun r => negb (Nat.eqb (User.from r) requesterId))
         (User.friendRequests user)) user in
  if includes requesterId (User.friends user) then user
  else User.with_friends (User.friends user ++ [requesterId]) user.

Definition acceptedRequester (userId : ObjectId) (requester : User.t) : User.t :=
  if includes userId (User.friends requester) then requester
  else User.with_friends (User.friends requester ++ [userId]) requester.

(** The document that [POST /social/add-friend] saves. *)
Definition requestedTarget (senderId : ObjectId) (now : Z) (target : User.t) : User.t :=
  User.with_friendRequests
    (User.friendRequests target ++ [User.mkFriendRequest senderId User.pending now])
    target.

(** Every stored user is an untouched document of [w], or has XP >= 0. *)
Definition xpSafe (w w' : World) : Prop :=
  forall u', In u' (users w') -> In u' (users w) \/ 0 <= User.platformXp u'.

(** From [w] to [w'] no stored level goes down: a user found under an id
    in both has kept the level, or has the level derived from the XP. *)
Definition levelKept (w w' : World) : Prop :=
  forall id u u',
    userById id w = Some u -> userById id w' = Some u' ->
    User.level u <= User.level u' /\
    (User.level u' = User.level u \/
     User.level u' = calculateLevel (User.platformXp u')).

(** From [w] to [w'] every stored user is still stored, at the same level. *)
Definition levelSame (w w' : World) : Prop :=
  forall id u,
    userById id w = Some u ->
    exists u', userById id w' = Some u' /\ User.level u' = User.level u.

(** The operations of [server.js] that recompute the level from the XP,
    with the other Hell Week actions. *)
Definition recomputesLevel (req : Server.Request) : bool :=
  match req with
  | Server.POST_habits_toggle _ _ _ => true
  | Server.POST_user_hell_week _ _ _ _ => true
  | Server.GET_user _ => true
  | _ => false
  end.

(** The XP change after the multiplier of an active Hell Week. *)
Definition boosted (user : User.t) (xpChange : Z) : Z :=
  if User.isActive (User.hellWeek user)
  then (if xpChange >? 0 then xpChange + 20 else xpChange - 20)
  else xpChange.

(** The operations of [server.js] that change XP by a habit toggle or by
    a penalty. *)
Definition changesXp (req : Server.Request) : bool :=
  match req with
  | Server.POST_habits_toggle _ _ _ => true
  | Server.POST_user_hell_week _ action _ _ =>
      String.eqb action "surrender" || String.eqb action "fail"
  | Server.POST_battles_surrender _ => true
  | _ => false
  end.

(** The number of grant records that [xpGrantedDates] holds for a date. *)
Definition grantCount (date : string) (habit : Habit.t) : Z :=
  Z.of_nat (List.length (filter (Server.grantMatches date) (Habit.xpGrantedDates habit))).

(** A grant record as the schema of [models/Habit.js] stores it and
    hands it to the route: a sub-document with its date and its
    [grantedAt]. *)
Definition stamped (g : Habit.Grant) : bool :=
  match g with
  | Habit.GrantObj _ (Some _) => true
  | _ => false
  end.

Definition stampedGrants (habit : Habit.t) : bool :=
  forallb stamped (Habit.xpGrantedDates habit).

(** Toggling one date again and again, at the given clock readings: the
    habit at the end and the sum of the XP changes signalled. *)
Fixpoint toggleMany (habit : Habit.t) (date : string) (times : list Z) : Habit.t * Z :=
  match times with
  | [] => (habit, 0)
  | now :: rest =>
      let '(habit1, xpChange) := Server.toggleLedger habit date now in
      let '(habit2, total) := toggleMany habit1 date rest in
      (habit2, xpChange + total)
  end.

(** Every habit id handed out so far is below the allocator's next id. *)
Definition idsAllocated (w : World) : Prop :=
  forall h, In h (habits w) -> (Habit._id h < nextOid w)%nat.

(** Every character of [s] is one of the 36 characters of [chars]. *)
Definition inAlphabet (s : string) : Prop :=
  forall c, In c (list_ascii_of_string s) -> In c (list_ascii_of_string chars).

(** What a route keeps: the users are the same users, document by
    document under the same ids; and a refusal (a status of 400 or more)
    leaves both collections as they were. *)
Definition orderly (w : World) (r : Response) (w' : World) : Prop :=
  map User._id (users w') = map User._id (users w) /\
  ((400 <= statusCode r)%nat -> users w' = users w /\ habits w' = habits w).

(** A battle whose end date, [addDays] of its start and its duration, is
    before [now]. *)
Definition due (addDays : Z -> Z -> Z) (now : Z) (h : Habit.t) : bool :=
  match Habit.battleStartDate h with
  | Some start => now >? addDays start (Habit.battleDuration h)
  | None => false
  end.

(** The active battles of [userId] that are due. *)
Definition expired (addDays : Z -> Z -> Z) (userId : ObjectId) (now : Z)
    (h : Habit.t) : bool :=
  Nat.eqb (Habit.userId h) userId && Server.isBattle h
  && Server.statusEqb (Habit.battleStatus h) Habit.active
  && due addDays now h.

Definition expire (addDays : Z -> Z -> Z) (userId : ObjectId) (now : Z)
    (h : Habit.t) : Habit.t :=
  if expired addDays userId now h
  then Habit.with_battleStatus Habit.completed h else h.

(** The requests whose route answers a refusal before its first write.
    A battle creation inserts two documents and can fail at the second; a
    handle-request of a user with itself saves two copies of one document
    and fails at the second. *)
Definition refusesFirst (req : Server.Request) : bool :=
  match req with
  | Server.POST_habits (Some _) _ _ => false
  | Server.POST_social_handle_request userId requesterId _ =>
      negb (Nat.eqb userId requesterId)
  | _ => true
  end.

(* ------------------------------------------------------------------ *)
(** ** Leveling policy: properties *)

Lemma levelLoop_lower (ts : list Z) (xp : Z) :
  forall i level, level <= i -> level <= levelLoop ts i level xp.
Proof.
  induction ts as [|t rest IH]; intros i level Hle; simpl.
  - lia.
  - destruct (xp >=? t).
    + specialize (IH (i + 1) (i + 1)). lia.
    + lia.
Qed.

Lemma levelLoop_mono (ts : list Z) (xp xp' : Z) :
  xp <= xp' ->
  forall i level, level <= i ->
    levelLoop ts i level xp <= levelLoop ts i level xp'.
Proof.
  intros Hxp. induction ts as [|t rest IH]; intros i level Hle; simpl.
  - lia.
  - destruct (Z.geb_spec xp t) as [Hge|Hlt].
    + destruct (Z.geb_spec xp' t) as [_|Hlt']; [apply IH; lia | lia].
    + destruct (Z.geb_spec xp' t) as [_|_]; [|lia].
      pose proof (levelLoop_lower rest xp' (i := i + 1) (level := i + 1)).
      lia.
Qed.

(** C8. [calculateLevel] is monotonic non-decreasing in the XP (in
    particular over all non-negative integers), and on the threshold table
    of the system it maps 0 to 1, 100 to 2, 19999 to 11 and 20000 to 12. *)
Theorem calculateLevel_monotone_and_table :
  (forall xp xp', xp <= xp' -> calculateLevel xp <= calculateLevel xp') /\
  calculateLevel 0 = 1 /\
  calculateLevel 100 = 2 /\
  calculateLevel 20000 = 12 /\
  calculateLevel 19999 = 11.
Proof.
  split.
  - intros xp xp' H. unfold calculateLevel. apply levelLoop_mono; lia.
  - repeat split; reflexivity.
Qed.

(* ------------------------------------------------------------------ *)
(** ** Lists: first index, splice, sort *)

Lemma indexOfFrom_absent (x : string) (l : list string) :
  ~ In x l -> forall i, indexOfFrom x l i = -1.
Proof.
  induction l as [|y l IH]; intros Hn i; simpl; [reflexivity|].
  destruct (String.eqb_spec y x) as [->|Hne].
  - exfalso. apply Hn. now left.
  - apply IH. intros Hin. apply Hn. now right.
Qed.

Lemma indexOfFrom_split (x : string) (l : list string) :
  In x l ->
  forall i, exists l1 l2,
    l = l1 ++ x :: l2 /\ ~ In x l1 /\
    indexOfFrom x l i = i + Z.of_nat (List.length l1).
Proof.
  induction l as [|y l IH]; intros Hin i; [contradiction|]. simpl.
  destruct (String.eqb_spec y x) as [->|Hne].
  - exists [], l. simpl. repeat split; [tauto | lia].
  - destruct Hin as [->|Hin]; [congruence|].
    destruct (IH Hin (i + 1)) as (l1 & l2 & -> & Hn & Hi).
    exists (y :: l1), l2. simpl. repeat split.
    + intros [E|E]; [congruence | tauto].
    + rewrite Hi. lia.
Qed.

Lemma splice1_at (l1 l2 : list string) (x : string) :
  splice1 (Z.of_nat (List.length l1)) (l1 ++ x :: l2) = l1 ++ l2.
Proof.
  unfold splice1. rewrite Nat2Z.id.
  induction l1 as [|y l1 IH]; simpl; [reflexivity|].
  f_equal. exact IH.
Qed.

Lemma insertSorted_perm (x : string) (l : list string) :
  Permutation (insertSorted x l) (x :: l).
Proof.
  induction l as [|y l IH]; simpl; [reflexivity|].
  destruct (String.leb x y); [reflexivity|].
  rewrite IH. apply perm_swap.
Qed.

Lemma sort_perm (l : list string) : Permutation (sort l) l.
Proof.
  induction l as [|x l IH]; simpl; [reflexivity|].
  rewrite insertSorted_perm. now constructor.
Qed.

Lemma sort_In (x : string) (l : list string) : In x (sort l) <-> In x l.
Proof.
  split; apply Permutation_in; [apply sort_perm | symmetry; apply sort_perm].
Qed.

(* ------------------------------------------------------------------ *)
(** ** The completion ledger of [server.js] *)

Import Habit User Server.

Lemma indexOf_present (x : string) (l : list string) :
  In x l ->
  exists l1 l2, l = l1 ++ x :: l2 /\ ~ In x l1 /\
    (indexOf x l >? -1) = true /\ splice1 (indexOf x l) l = l1 ++ l2.
Proof.
  intros Hin. destruct (indexOfFrom_split x l Hin 0) as (l1 & l2 & E & Hn & Hi).
  exists l1, l2. unfold indexOf. rewrite Hi. simpl. repeat split; try assumption.
  - apply Z.gtb_lt. lia.
  - subst l. apply splice1_at.
Qed.

Lemma indexOf_absent (x : string) (l : list string) :
  ~ In x l -> (indexOf x l >? -1) = false.
Proof.
  intros Hn. unfold indexOf. rewrite indexOfFrom_absent by assumption. reflexivity.
Qed.

(** Unchecking takes out the first occurrence only; on a list without
    duplicates the date is gone. *)
Lemma NoDup_split_absent (x : string) (l1 l2 : list string) :
  NoDup (l1 ++ x :: l2) -> ~ In x (l1 ++ l2).
Proof.
  intros Hnd. apply NoDup_remove_2 in Hnd. exact Hnd.
Qed.

(** Checking a date that is not completed and has a grant record: no XP,
    the grant list is left as it is. *)
Lemma toggleLedger_recheck (habit : Habit.t) (date : string) (now : Z) :
  ~ In date (completedDates habit) ->
  truthyEntry (find (grantMatches date) (xpGrantedDates habit)) = true ->
  toggleLedger habit date now =
    (Habit.with_ledger (sort (completedDates habit ++ [date])) (xpGrantedDates habit)
       (Z.of_nat (List.length (sort (completedDates habit ++ [date])))) habit, 0).
Proof.
  intros Hn Ht. unfold toggleLedger.
  rewrite (indexOf_absent _ _ Hn), Ht. reflexivity.
Qed.

(** Checking a date that is not completed and has no grant record. *)
Lemma toggleLedger_check (habit : Habit.t) (date : string) (now : Z) :
  ~ In date (completedDates habit) ->
  find (grantMatches date) (xpGrantedDates habit) = None ->
  toggleLedger habit date now =
    (Habit.with_ledger (sort (completedDates habit ++ [date]))
       (xpGrantedDates habit ++ [GrantObj date (Some now)])
       (Z.of_nat (List.length (sort (completedDates habit ++ [date])))) habit, 15).
Proof.
  intros Hn Hf. unfold toggleLedger.
  rewrite (indexOf_absent _ _ Hn), Hf. reflexivity.
Qed.

(** Unchecking a date whose grant record is outside the undo window. *)
Lemma toggleLedger_late_uncheck (habit : Habit.t) (date d : string) (grantedAt now : Z) :
  In date (completedDates habit) ->
  find (grantMatches date) (xpGrantedDates habit) = Some (GrantObj d (Some grantedAt)) ->
  UNDO_WINDOW_MS <= now - grantedAt ->
  exists l1 l2,
    completedDates habit = l1 ++ date :: l2 /\ ~ In date l1 /\
    toggleLedger habit date now =
      (Habit.with_ledger (sort (l1 ++ l2)) (xpGrantedDates habit)
         (Z.of_nat (List.length (sort (l1 ++ l2)))) habit, 0).
Proof.
  intros Hin Hf Hold.
  destruct (indexOf_present _ _ Hin) as (l1 & l2 & E & Hn & Hi & Hs).
  exists l1, l2. repeat split; try assumption.
  unfold toggleLedger. rewrite Hi, Hs, Hf. simpl.
  destruct (Z.ltb_spec (now - grantedAt) UNDO_WINDOW_MS); [lia | reflexivity].
Qed.

(** Unchecking a date whose grant record is inside the undo window. *)
Lemma toggleLedger_undo (habit : Habit.t) (date d : string) (grantedAt now : Z) :
  In date (completedDates habit) ->
  find (grantMatches date) (xpGrantedDates habit) = Some (GrantObj d (Some grantedAt)) ->
  now - grantedAt < UNDO_WINDOW_MS ->
  exists l1 l2,
    completedDates habit = l1 ++ date :: l2 /\ ~ In date l1 /\
    toggleLedger habit date now =
      (Habit.with_ledger (sort (l1 ++ l2))
         (filter (fun entry => negb (grantMatches date entry)) (xpGrantedDates habit))
         (Z.of_nat (List.length (sort (l1 ++ l2)))) habit, -15).
Proof.
  intros Hin Hf Hnew.
  destruct (indexOf_present _ _ Hin) as (l1 & l2 & E & Hn & Hi & Hs).
  exists l1, l2. repeat split; try assumption.
  unfold toggleLedger. rewrite Hi, Hs, Hf. simpl.
  destruct (Z.ltb_spec (now - grantedAt) UNDO_WINDOW_MS); [reflexivity | lia].
Qed.

(* ------------------------------------------------------------------ *)
(** ** Persistence: what a save stores and what a lookup finds *)

Section Replace.

Variables (A : Type) (key : A -> ObjectId).

Lemma find_replace_same (a a0 : A) (l : list A) :
  find (fun v => Nat.eqb (key v) (key a)) l = Some a0 ->
  find (fun v => Nat.eqb (key v) (key a)) (replaceById key a l) = Some a.
Proof.
  unfold replaceById. induction l as [|v l IH]; simpl; [discriminate|].
  destruct (Nat.eqb (key v) (key a)) eqn:E.
  - intros _. rewrite Nat.eqb_refl. reflexivity.
  - rewrite E. exact IH.
Qed.

Lemma find_replace_other (a : A) (id : ObjectId) (l : list A) :
  key a <> id ->
  find (fun v => Nat.eqb (key v) id) (replaceById key a l)
    = find (fun v => Nat.eqb (key v) id) l.
Proof.
  intros Hne. unfold replaceById. induction l as [|v l IH]; simpl; [reflexivity|].
  destruct (Nat.eqb (key v) (key a)) eqn:E.
  - apply Nat.eqb_eq in E.
    destruct (Nat.eqb_spec (key a) id) as [|_]; [contradiction|].
    destruct (Nat.eqb_spec (key v) id) as [|_]; [congruence | exact IH].
  - destruct (Nat.eqb (key v) id); [reflexivity | exact IH].
Qed.

Lemma In_replace (a x : A) (l : list A) :
  In x (replaceById key a l) -> In x l \/ x = a.
Proof.
  unfold replaceById. rewrite in_map_iff. intros (v & E & Hin).
  destruct (Nat.eqb (key v) (key a)); subst; auto.
Qed.

Lemma find_key (id : ObjectId) (a : A) (l : list A) :
  find (fun v => Nat.eqb (key v) id) l = Some a -> key a = id /\ In a l.
Proof.
  intros H. apply find_some in H. destruct H as [Hin E].
  apply Nat.eqb_eq in E. auto.
Qed.

End Replace.

Ltac run :=
  cbv beta iota zeta delta
    [tryCatch bind ret throw hang getWorld setUsers setHabits setRandom
     logWrite newObjectId Habit_findById User_findById User_findOne_friendCode
     Habit_findOne_counterpart Habit_save Habit_new Habit_saveNew];
  cbn [users habits nextOid random writes fst snd].

Lemma User_save_coded (u : User.t) (w : World) :
  lacksFriendCode u = false ->
  User_save u w =
    Ret u (mkWorld (replaceUser u (users w)) (habits w) (nextOid w) (random w)
             (writes w ++ [UserSaved (User._id u)])).
Proof.
  intros H. unfold User_save, preSave. rewrite H. reflexivity.
Qed.

(** A save never throws; when it returns, the stored document is the one
    handed in, up to the friend code given by the hook. *)
Lemma User_save_inv (u : User.t) (w : World) :
  match User_save u w with
  | Ret u' w' =>
      u' = User.with_friendCode (friendCode u') u /\
      users w' = replaceUser u' (users w) /\
      habits w' = habits w
  | Throw _ _ _ => False
  | Hang => True
  end.
Proof.
  unfold User_save, preSave. destruct (lacksFriendCode u); run.
  - destruct (uniqueCode _ _ _) as [[code rs]|]; run; [|exact I].
    destruct u; repeat split.
  - destruct u; repeat split.
Qed.

(** The ledger touches [completedDates], [xpGrantedDates] and
    [currentStreak] only. *)
Lemma toggleLedger_frame (habit : Habit.t) (date : string) (now : Z) :
  exists dates grants,
    fst (toggleLedger habit date now)
      = Habit.with_ledger dates grants (Z.of_nat (List.length dates)) habit.
Proof.
  unfold toggleLedger.
  destruct (if indexOf date (completedDates habit) >? -1 then _ else _)
    as [[dates grants] xpChange].
  simpl. eauto.
Qed.

Lemma toggleLedger_ids (habit : Habit.t) (date : string) (now : Z) :
  Habit._id (fst (toggleLedger habit date now)) = Habit._id habit /\
  Habit.userId (fst (toggleLedger habit date now)) = Habit.userId habit.
Proof.
  destruct (toggleLedger_frame habit date now) as (dates & grants & ->).
  split; reflexivity.
Qed.

(** C10. A toggle whose ledger signals an XP change of 0 (a late uncheck,
    or a re-check of a date already paid) answers, leaves the [users]
    collection and the random draws exactly as they were, and performs one
    write only, the save of the habit: the owner is not saved. *)
Theorem zero_delta_toggle_leaves_user_untouched
    (w : World) (id : ObjectId) (date : string) (now : Z) (habit : Habit.t) :
  habitById id w = Some habit ->
  snd (toggleLedger habit date now) = 0 ->
  exists r w',
    post_habits_toggle id date now w = Some (r, w') /\
    users w' = users w /\
    random w' = random w /\
    writes w' = writes w ++ [HabitSaved id].
Proof.
  unfold habitById. intros Hh Hz.
  pose proof (find_key Habit._id _ _ Hh) as [Hid _].
  pose proof (toggleLedger_ids habit date now) as [Hid1 _].
  unfold post_habits_toggle. run. rewrite Hh. run.
  destruct (toggleLedger habit date now) as [habit1 xpChange].
  simpl in Hz, Hid1. subst xpChange. rewrite Hid1, Hid.
  destruct (find _ (users w)) as [user|]; simpl;
    do 2 eexists; repeat split.
Qed.

(** C10 at work: re-checking a date that was already paid. *)
Lemma zero_delta_toggle_leaves_user_untouched_witness :
  let habit :=
    Habit.mk 1 7 "run" [] [GrantObj "2024-05-01" (Some 5000)]
      0 0 None None solo active 7 None None true in
  let user := User.mk 7 15 1 (mkHellWeek false None None) (Some "AB12C") [] [] in
  let w := mkWorld [user] [habit] 8 [] [] in
  exists r w',
    post_habits_toggle 1 "2024-05-01" 900000 w = Some (r, w') /\
    users w' = users w /\
    random w' = random w /\
    writes w' = writes w ++ [HabitSaved 1%nat].
Proof.
  intros habit user w.
  apply (zero_delta_toggle_leaves_user_untouched w 1 "2024-05-01" 900000 (habit := habit));
    reflexivity.
Defined.

(* ------------------------------------------------------------------ *)
(** ** Late uncheck, then re-check *)

(** A toggle whose ledger signals 0: the answer and the world, in full.
    The habit is saved, the owner is read and not written, and the answer
    carries the owner's level and XP as stored. *)
Lemma post_habits_toggle_unpaid
    (w : World) (id : ObjectId) (date : string) (now : Z) (habit habit1 : Habit.t) :
  habitById id w = Some habit ->
  toggleLedger habit date now = (habit1, 0) ->
  post_habits_toggle id date now w =
    Some (mkResponse 200
            (JToggle habit1
               (option_map level (userById (Habit.userId habit) w))
               (option_map platformXp (userById (Habit.userId habit) w))),
          mkWorld (users w) (replaceHabit habit1 (habits w)) (nextOid w) (random w)
            (writes w ++ [HabitSaved id])) /\
  habitById id
    (mkWorld (users w) (replaceHabit habit1 (habits w)) (nextOid w) (random w)
       (writes w ++ [HabitSaved id])) = Some habit1.
Proof.
  unfold habitById, userById. intros Hh Ht.
  pose proof (find_key Habit._id _ _ Hh) as [Hid _].
  pose proof (toggleLedger_ids habit date now) as [Hid1 Huid1].
  rewrite Ht in Hid1, Huid1. cbn [fst] in Hid1, Huid1.
  split.
  - unfold post_habits_toggle. run. rewrite Hh. run. rewrite Ht. run.
    rewrite Huid1, Hid1, Hid.
    destruct (find _ (users w)) as [user|]; reflexivity.
  - cbn [habits]. rewrite <- Hid, <- Hid1.
    apply (find_replace_same Habit._id habit1 (a0 := habit)).
    rewrite Hid1, Hid. exact Hh.
Qed.

(** C4. A stored habit with a completed date whose grant record is older
    than the undo window (60 s). The toggle that unchecks the date answers
    200 and signals an XP change of 0: the habit is stored without the
    date and with [xpGrantedDates] as it was, no user is written, and the
    answer carries the owner's XP as stored. Every later toggle that
    re-checks the date, in any store where the habit has the date unchecked
    and the grant record still present, answers 200 and signals 0 as well:
    the date is stored again, the grant list is left alone and no user is
    written. *)
Theorem late_uncheck_keeps_grant_and_pays_once
    (w : World) (id : ObjectId) (date d : string) (grantedAt now : Z)
    (habit : Habit.t) :
  habitById id w = Some habit ->
  In date (completedDates habit) ->
  NoDup (completedDates habit) ->
  find (grantMatches date) (xpGrantedDates habit) = Some (GrantObj d (Some grantedAt)) ->
  UNDO_WINDOW_MS < now - grantedAt ->
  exists w1 unchecked,
    post_habits_toggle id date now w =
      Some (mkResponse 200
              (JToggle unchecked
                 (option_map level (userById (Habit.userId habit) w))
                 (option_map platformXp (userById (Habit.userId habit) w))), w1) /\
    snd (toggleLedger habit date now) = 0 /\
    habitById id w1 = Some unchecked /\
    ~ In date (completedDates unchecked) /\
    xpGrantedDates unchecked = xpGrantedDates habit /\
    users w1 = users w /\
    writes w1 = writes w ++ [HabitSaved id] /\
    forall (w2 : World) (later : Habit.t) (now' : Z),
      habitById id w2 = Some later ->
      ~ In date (completedDates later) ->
      find (grantMatches date) (xpGrantedDates later)
        = find (grantMatches date) (xpGrantedDates unchecked) ->
      exists w3 rechecked,
        post_habits_toggle id date now' w2 =
          Some (mkResponse 200
                  (JToggle rechecked
                     (option_map level (userById (Habit.userId later) w2))
                     (option_map platformXp (userById (Habit.userId later) w2))), w3) /\
        snd (toggleLedger later date now') = 0 /\
        habitById id w3 = Some rechecked /\
        In date (completedDates rechecked) /\
        xpGrantedDates rechecked = xpGrantedDates later /\
        users w3 = users w2 /\
        writes w3 = writes w2 ++ [HabitSaved id].
Proof.
  intros Hh Hin Hnd Hf Hold.
  destruct (toggleLedger_late_uncheck habit date now Hin Hf) as (l1 & l2 & E & Hn & Ht);
    [lia|].
  destruct (@post_habits_toggle_unpaid w id date now habit _ Hh Ht) as [R1 S1].
  do 2 eexists. split; [exact R1|]. rewrite Ht. cbn [fst snd].
  split; [reflexivity|]. split; [exact S1|]. cbn [users writes].
  split.
  { cbn. rewrite sort_In. apply NoDup_split_absent. rewrite <- E. exact Hnd. }
  split; [reflexivity|]. split; [reflexivity|]. split; [reflexivity|].
  intros w2 later now' Hl Hout Hsame.
  assert (Hr : toggleLedger later date now' =
                 (Habit.with_ledger (sort (completedDates later ++ [date]))
                    (xpGrantedDates later)
                    (Z.of_nat (List.length (sort (completedDates later ++ [date]))))
                    later, 0)).
  { apply toggleLedger_recheck; [exact Hout|]. rewrite Hsame. cbn. rewrite Hf.
    reflexivity. }
  destruct (@post_habits_toggle_unpaid w2 id date now' later _ Hl Hr) as [R2 S2].
  do 2 eexists. split; [exact R2|]. rewrite Hr. cbn [fst snd].
  split; [reflexivity|]. split; [exact S2|]. cbn [users writes].
  split.
  { cbn. rewrite sort_In, in_app_iff. right. now left. }
  repeat split.
Qed.

(** C4 at work: a habit completed on 2024-05-01 and paid for that date
    two minutes before the uncheck; the owner has 15 XP before and after
    the uncheck, and before and after the re-check that follows. *)
Lemma late_uncheck_keeps_grant_and_pays_once_witness :
  let habit :=
    Habit.mk 1 7 "run" ["2024-04-30"; "2024-05-01"]
      [GrantObj "2024-04-30" (Some 1000); GrantObj "2024-05-01" (Some 5000)]
      2 0 None None solo active 7 None None true in
  let user := User.mk 7 15 1 (mkHellWeek false None None) (Some "AB12C") [] [] in
  let w := mkWorld [user] [habit] 8 [] [] in
  exists w1 unchecked w3 rechecked,
    post_habits_toggle 1 "2024-05-01" 125000 w
      = Some (mkResponse 200 (JToggle unchecked (Some 1) (Some 15)), w1) /\
    habitById 1 w1 = Some unchecked /\
    completedDates unchecked = ["2024-04-30"] /\
    users w1 = [user] /\
    post_habits_toggle 1 "2024-05-01" 126000 w1
      = Some (mkResponse 200 (JToggle rechecked (Some 1) (Some 15)), w3) /\
    habitById 1 w3 = Some rechecked /\
    In "2024-05-01" (completedDates rechecked) /\
    xpGrantedDates rechecked = xpGrantedDates habit /\
    users w3 = [user].
Proof.
  intros habit user w.
  assert (Hh : habitById 1 w = Some habit) by reflexivity.
  assert (Hin : In "2024-05-01" (completedDates habit)) by (simpl; tauto).
  assert (Hnd : NoDup (completedDates habit)).
  { simpl. repeat constructor; simpl; intuition discriminate. }
  assert (Hf : find (grantMatches "2024-05-01") (xpGrantedDates habit)
               = Some (GrantObj "2024-05-01" (Some 5000))) by reflexivity.
  assert (Hold : UNDO_WINDOW_MS < 125000 - 5000) by (unfold UNDO_WINDOW_MS; lia).
  destruct (@late_uncheck_keeps_grant_and_pays_once w 1%nat "2024-05-01" "2024-05-01"
              5000 125000 habit Hh Hin Hnd Hf Hold)
    as (w1 & unchecked & R1 & _ & S1 & Out & G1 & U1 & _ & Again).
  destruct (Again w1 unchecked 126000 S1 Out eq_refl)
    as (w3 & rechecked & R2 & _ & S2 & In2 & G2 & U2 & _).
  exists w1, unchecked, w3, rechecked.
  vm_compute in R1. injection R1 as Eu Ew. subst unchecked w1.
  split; [reflexivity|].
  split; [exact S1|].
  split; [reflexivity|].
  split; [reflexivity|].
  split; [exact R2|].
  split; [exact S2|].
  split; [exact In2|].
  split; [rewrite G2; reflexivity|].
  rewrite U2. reflexivity.
Defined.

(* ------------------------------------------------------------------ *)
(** ** Check, then undo *)

Lemma find_app_none (A : Type) (f : A -> bool) (l l' : list A) :
  find f l = None -> find f (l ++ l') = find f l'.
Proof.
  induction l as [|a l IH]; simpl; [reflexivity|].
  destruct (f a); [discriminate | exact IH].
Qed.

Lemma filter_none (A : Type) (f : A -> bool) (l : list A) :
  find f l = None -> filter (fun a => negb (f a)) l = l.
Proof.
  induction l as [|a l IH]; simpl; [reflexivity|].
  destruct (f a); [discriminate|]. simpl. intros H. now rewrite IH.
Qed.

Lemma filter_app_none (A : Type) (f : A -> bool) (l : list A) (a : A) :
  find f l = None -> f a = true -> filter (fun a => negb (f a)) (l ++ [a]) = l.
Proof.
  intros Hl Ha. rewrite filter_app, filter_none by assumption.
  simpl. rewrite Ha. simpl. apply app_nil_r.
Qed.

Lemma grantMatches_self (date : string) (g : option Z) :
  grantMatches date (GrantObj date g) = true.
Proof. simpl. apply String.eqb_refl. Qed.

(** [awardXp] keeps the identity, the friend code and the Hell Week state. *)
Lemma awardXp_frame (user : User.t) (xpChange : Z) :
  User._id (awardXp user xpChange) = User._id user /\
  friendCode (awardXp user xpChange) = friendCode user /\
  hellWeek (awardXp user xpChange) = hellWeek user.
Proof. repeat split. Qed.

Lemma lacksFriendCode_awardXp (user : User.t) (xpChange : Z) :
  lacksFriendCode (awardXp user xpChange) = lacksFriendCode user.
Proof. reflexivity. Qed.

Lemma platformXp_awardXp (user : User.t) (xpChange : Z) :
  platformXp (awardXp user xpChange)
    = Z.max 0 (or_else (platformXp user) 0 + boosted user xpChange).
Proof. reflexivity. Qed.

Lemma or_else_zero (x : Z) : or_else x 0 = x.
Proof. unfold or_else. destruct (Z.eqb_spec x 0); congruence. Qed.

Lemma award_then_refund (user : User.t) :
  0 <= platformXp user ->
  platformXp (awardXp user 15) = platformXp user + boosted user 15 /\
  platformXp (awardXp (awardXp user 15) (-15)) = platformXp user.
Proof.
  intros Hxp. rewrite !platformXp_awardXp, !or_else_zero.
  unfold boosted. cbn [hellWeek awardXp User.with_level User.with_platformXp].
  destruct (isActive (hellWeek user)); simpl; lia.
Qed.

(** A toggle with a non-zero XP change on a habit whose owner is stored
    and has a friend code: the response and the world, in full. *)
Lemma post_habits_toggle_paid
    (w : World) (id : ObjectId) (date : string) (now : Z)
    (habit habit1 : Habit.t) (user : User.t) (xpChange : Z) :
  habitById id w = Some habit ->
  userById (Habit.userId habit) w = Some user ->
  lacksFriendCode user = false ->
  toggleLedger habit date now = (habit1, xpChange) ->
  xpChange <> 0 ->
  post_habits_toggle id date now w =
    Some (mkResponse 200
            (JToggle habit1 (Some (level (awardXp user xpChange)))
               (Some (platformXp (awardXp user xpChange)))),
          mkWorld (replaceUser (awardXp user xpChange) (users w))
            (replaceHabit habit1 (habits w)) (nextOid w) (random w)
            ((writes w ++ [HabitSaved id]) ++ [UserSaved (Habit.userId habit)])).
Proof.
  unfold habitById, userById. intros Hh Hu Hc Ht Hx.
  pose proof (find_key Habit._id _ _ Hh) as [Hid _].
  pose proof (find_key User._id _ _ Hu) as [Huid _].
  pose proof (toggleLedger_ids habit date now) as [Hid1 Huid1].
  rewrite Ht in Hid1, Huid1. simpl in Hid1, Huid1.
  unfold post_habits_toggle. run. rewrite Hh. run. rewrite Ht. run.
  rewrite Huid1, Hu. run.
  destruct (Z.eqb_spec xpChange 0) as [|_]; [contradiction|]. simpl.
  rewrite User_save_coded by (rewrite lacksFriendCode_awardXp; exact Hc).
  simpl. rewrite Hid1, Hid, Huid. reflexivity.
Qed.

(** C3. A date that is not completed and has no grant record, on a habit
    whose owner is stored with a non-negative XP: toggling it at [t1] and
    again at [t2], less than 60 s after the grant, answers both times; the
    ledger signals +15 and then -15; the owner's XP goes up by the
    (possibly boosted) award and comes back to what it was; the date is
    not in [completedDates] afterwards, and [xpGrantedDates] is what it was,
    with no record for the date. *)
Theorem toggle_twice_within_undo_window
    (w : World) (id : ObjectId) (date : string) (t1 t2 : Z)
    (habit : Habit.t) (user : User.t) :
  habitById id w = Some habit ->
  userById (Habit.userId habit) w = Some user ->
  lacksFriendCode user = false ->
  0 <= platformXp user ->
  ~ In date (completedDates habit) ->
  find (grantMatches date) (xpGrantedDates habit) = None ->
  t2 - t1 < UNDO_WINDOW_MS ->
  exists r1 w1 r2 w2 habit1 habit2 user1 user2,
    post_habits_toggle id date t1 w = Some (r1, w1) /\
    post_habits_toggle id date t2 w1 = Some (r2, w2) /\
    toggleLedger habit date t1 = (habit1, 15) /\
    habitById id w1 = Some habit1 /\
    toggleLedger habit1 date t2 = (habit2, -15) /\
    habitById id w2 = Some habit2 /\
    userById (Habit.userId habit) w1 = Some user1 /\
    platformXp user1 = platformXp user + boosted user 15 /\
    userById (Habit.userId habit) w2 = Some user2 /\
    platformXp user2 = platformXp user /\
    ~ In date (completedDates habit2) /\
    Permutation (completedDates habit2) (completedDates habit) /\
    xpGrantedDates habit2 = xpGrantedDates habit /\
    find (grantMatches date) (xpGrantedDates habit2) = None.
Proof.
  intros Hh Hu Hc Hxp Hn Hf Ht.
  pose proof (find_key Habit._id _ _ Hh) as [Hid _].
  pose proof (find_key User._id _ _ Hu) as [Huid _].
  pose proof (toggleLedger_check habit date t1 Hn Hf) as L1.
  set (habit1 := Habit.with_ledger (sort (completedDates habit ++ [date]))
                   (xpGrantedDates habit ++ [GrantObj date (Some t1)])
                   (Z.of_nat (List.length (sort (completedDates habit ++ [date]))))
                   habit) in *.
  set (user1 := awardXp user 15).
  pose proof (post_habits_toggle_paid w id date t1 Hh Hu Hc L1 ltac:(lia)) as R1.
  fold user1 in R1.
  match type of R1 with _ = Some (?r, ?w') => set (r1 := r) in *; set (w1 := w') in * end.
  (* the world after the first toggle *)
  assert (Hh1 : habitById id w1 = Some habit1).
  { unfold habitById, w1. cbn [habits]. rewrite <- Hid.
    change (Habit._id habit) with (Habit._id habit1).
    apply (find_replace_same Habit._id habit1 (a0 := habit)).
    cbn [Habit._id habit1 Habit.with_ledger]. rewrite Hid. exact Hh. }
  assert (Hu1 : userById (Habit.userId habit1) w1 = Some user1).
  { unfold userById, w1. cbn [users]. change (Habit.userId habit1) with (Habit.userId habit).
    rewrite <- Huid. change (User._id user) with (User._id user1).
    apply (find_replace_same User._id user1 (a0 := user)).
    cbn [User._id user1 awardXp User.with_level User.with_platformXp].
    rewrite Huid. exact Hu. }
  (* the second toggle is an undo *)
  assert (Hin1 : In date (completedDates habit1)).
  { cbn [completedDates habit1 Habit.with_ledger].
    rewrite sort_In, in_app_iff. right. now left. }
  assert (Hf1 : find (grantMatches date) (xpGrantedDates habit1)
                = Some (GrantObj date (Some t1))).
  { cbn [xpGrantedDates habit1 Habit.with_ledger].
    rewrite find_app_none by exact Hf. cbn [find].
    rewrite grantMatches_self. reflexivity. }
  destruct (toggleLedger_undo habit1 date t2 Hin1 Hf1 Ht) as (l1 & l2 & E & Hn1 & L2).
  cbn [completedDates xpGrantedDates habit1 Habit.with_ledger] in E, L2.
  rewrite (filter_app_none _ _ _ Hf (grantMatches_self date (Some t1))) in L2.
  fold habit1 in L2.
  match type of L2 with _ = (?h, _) => set (habit2 := h) in * end.
  assert (Hc1 : lacksFriendCode user1 = false) by exact Hc.
  pose proof (post_habits_toggle_paid w1 id date t2 Hh1 Hu1 Hc1 L2 ltac:(lia)) as R2.
  match type of R2 with _ = Some (?r, ?w') => set (r2 := r) in *; set (w2 := w') in * end.
  assert (Hperm : Permutation (l1 ++ l2) (completedDates habit)).
  { pose proof (sort_perm (completedDates habit ++ [date])) as P.
    rewrite E in P.
    apply (Permutation_app_inv l1 l2 (completedDates habit) [] date) in P.
    now rewrite app_nil_r in P. }
  destruct (award_then_refund user Hxp) as [X1 X2].
  exists r1, w1, r2, w2, habit1, habit2, user1, (awardXp user1 (-15)).
  repeat match goal with |- _ /\ _ => split end;
    try assumption; try reflexivity.
  - unfold habitById, w2. cbn [habits]. rewrite <- Hid.
    change (Habit._id habit) with (Habit._id habit2).
    apply (find_replace_same Habit._id habit2 (a0 := habit1)).
    change (Habit._id habit2) with (Habit._id habit). rewrite Hid. exact Hh1.
  - unfold userById, w2. cbn [users]. rewrite <- Huid.
    change (User._id user) with (User._id (awardXp user1 (-15))).
    apply (find_replace_same User._id (awardXp user1 (-15)) (a0 := user1)).
    change (User._id (awardXp user1 (-15))) with (User._id user).
    rewrite Huid. exact Hu1.
  - cbn [completedDates habit2 Habit.with_ledger]. rewrite sort_In.
    intros Hin. apply Hn. eapply Permutation_in; eassumption.
  - cbn [completedDates habit2 Habit.with_ledger].
    rewrite sort_perm. exact Hperm.
Qed.

Lemma toggle_twice_within_undo_window_witness :
  let habit :=
    Habit.mk 1 7 "run" ["2024-04-30"] [GrantObj "2024-04-30" (Some 1000)]
      1 0 None None solo active 7 None None true in
  let user := User.mk 7 90 1 (mkHellWeek true (Some 0) (Some 604800000))
                (Some "AB12C") [] [] in
  let w := mkWorld [user] [habit] 8 [] [] in
  exists r1 w1 r2 w2 user2,
    post_habits_toggle 1 "2024-05-01" 5000 w = Some (r1, w1) /\
    post_habits_toggle 1 "2024-05-01" 64000 w1 = Some (r2, w2) /\
    userById 7 w2 = Some user2 /\
    platformXp user2 = 90.
Proof.
  intros habit user w.
  destruct (toggle_twice_within_undo_window w 1 "2024-05-01" 5000 64000
              (habit := habit) (user := user))
    as (r1 & w1 & r2 & w2 & h1 & h2 & u1 & u2 & A & B & _ & _ & _ & _ & _ & _ & C & D & _).
  - reflexivity.
  - reflexivity.
  - reflexivity.
  - simpl. lia.
  - simpl. intros [H|[]]. discriminate H.
  - reflexivity.
  - unfold UNDO_WINDOW_MS. lia.
  - exists r1, w1, r2, w2, u2. repeat split; assumption.
Defined.

(* ------------------------------------------------------------------ *)
(** ** XP never goes below zero *)

Tactic Notation "run" "in" hyp(H) :=
  cbv beta iota zeta delta
    [tryCatch bind ret throw hang getWorld setUsers setHabits setRandom
     logWrite newObjectId Habit_findById User_findById User_findOne_friendCode
     Habit_findOne_counterpart Habit_save Habit_new Habit_saveNew] in H;
  cbn [users habits nextOid random writes fst snd] in H.

Lemma xpSafe_same (w w' : World) : users w' = users w -> xpSafe w w'.
Proof. intros E u' H. left. now rewrite <- E. Qed.

Lemma User_save_xpSafe (w w0 w1 : World) (u u1 : User.t) :
  users w0 = users w ->
  User_save u w0 = Ret u1 w1 ->
  0 <= platformXp u ->
  xpSafe w w1.
Proof.
  intros E S Hxp u' Hin.
  pose proof (User_save_inv u w0) as Inv. rewrite S in Inv.
  destruct Inv as (Eu & Eus & _). rewrite Eus, E in Hin.
  apply (In_replace User._id) in Hin. destruct Hin as [Hin| ->]; [now left|].
  right. rewrite Eu. exact Hxp.
Qed.

Lemma awardXp_nonneg (user : User.t) (xpChange : Z) :
  0 <= platformXp (awardXp user xpChange).
Proof. rewrite platformXp_awardXp. apply Z.le_max_l. Qed.

Lemma post_habits_toggle_xpSafe (id : ObjectId) (date : string) (now : Z)
    (w w' : World) (r : Response) :
  post_habits_toggle id date now w = Some (r, w') -> xpSafe w w'.
Proof.
  unfold post_habits_toggle. intros H. run in H.
  destruct (find _ (habits w)) as [habit|]; run in H.
  2: { inversion H; subst. now apply xpSafe_same. }
  destruct (toggleLedger habit date now) as [habit1 xpChange]. run in H.
  destruct (find _ (users w)) as [user|]; run in H.
  2: { inversion H; subst. now apply xpSafe_same. }
  destruct (negb (xpChange =? 0)).
  2: { inversion H; subst. now apply xpSafe_same. }
  destruct (User_save _ _) as [u1 w1| |] eqn:S; inversion H; subst.
  - eapply User_save_xpSafe; [| exact S | apply awardXp_nonneg]. reflexivity.
  - pose proof (User_save_inv (awardXp user xpChange)
      (mkWorld (users w) (replaceHabit habit1 (habits w)) (nextOid w) (random w)
         (writes w ++ [HabitSaved (Habit._id habit1)]))) as Inv.
    rewrite S in Inv. contradiction.
Qed.

Lemma User_save_never_throws (u : User.t) (w w' : World) (e : string) :
  User_save u w <> Throw User.t e w'.
Proof.
  intros S. pose proof (User_save_inv u w) as Inv. now rewrite S in Inv.
Qed.

Lemma post_user_hell_week_penalty_xpSafe (userId : ObjectId) (action : string)
    (tStart tNow : Z) (w w' : World) (r : Response) :
  action = "surrender" \/ action = "fail" ->
  post_user_hell_week userId action tStart tNow w = Some (r, w') -> xpSafe w w'.
Proof.
  unfold post_user_hell_week. intros Ha H. run in H.
  destruct (find _ (users w)) as [user|]; run in H.
  2: { inversion H; subst. now apply xpSafe_same. }
  destruct Ha as [-> | ->]; cbn [String.eqb Ascii.eqb Bool.eqb] in H; run in H;
    destruct (User_save _ _) as [u1 w1| |] eqn:S; inversion H; subst;
    try (now apply User_save_never_throws in S);
    (eapply User_save_xpSafe; [| exact S | apply Z.le_max_l]; reflexivity).
Qed.

Lemma post_battles_surrender_xpSafe (habitId : ObjectId)
    (w w' : World) (r : Response) :
  post_battles_surrender habitId w = Some (r, w') -> xpSafe w w'.
Proof.
  unfold post_battles_surrender. intros H. run in H.
  destruct (find _ (habits w)) as [myHabit|]; run in H.
  2: { inversion H; subst. now apply xpSafe_same. }
  destruct (find _ (habits w)) as [opponent|]; run in H;
    (destruct (find _ (users w)) as [user|]; run in H;
     [ destruct (User_save _ _) as [u1 w1| |] eqn:S; inversion H; subst;
       try (now apply User_save_never_throws in S);
       (eapply User_save_xpSafe; [| exact S | apply Z.le_max_l]; reflexivity)
     | inversion H; subst; now apply xpSafe_same ]).
Qed.

(** C5. For every operation of [server.js] that changes XP through a
    habit toggle (boosted by Hell Week or not), a Hell Week surrender or
    fail penalty, or a battle surrender penalty: every user document of the
    resulting store is either a document the operation did not touch, or
    has [platformXp >= 0], whatever the XP was before and whatever the
    size of the change. *)
Theorem platformXp_never_below_zero
    (toUpperCase : string -> string) (req : Server.Request)
    (w w' : World) (r : Response) (u' : User.t) :
  changesXp req = true ->
  Server.app toUpperCase req w = Some (r, w') ->
  In u' (users w') ->
  In u' (users w) \/ 0 <= platformXp u'.
Proof.
  intros Hc H. revert u'. change (xpSafe w w').
  destruct req; simpl in Hc; try discriminate; simpl in H.
  - eapply post_habits_toggle_xpSafe; eassumption.
  - eapply post_user_hell_week_penalty_xpSafe; [|eassumption].
    apply orb_true_iff in Hc. destruct Hc as [E|E]; apply String.eqb_eq in E; auto.
  - eapply post_battles_surrender_xpSafe; eassumption.
Qed.

(** C5 at work: a battle surrender by a user with 40 XP leaves 0. *)
Lemma platformXp_never_below_zero_witness :
  let mine := Habit.mk 1 7 "run" [] [] 0 0 (Some 9%nat) (Some 3%nat) battle active
                7 (Some 0) None true in
  let theirs := Habit.mk 2 9 "run" [] [] 0 0 (Some 7%nat) (Some 3%nat) battle active
                  7 (Some 0) None true in
  let loser := User.mk 7 40 1 (mkHellWeek false None None) (Some "AB12C") [] [] in
  let w := mkWorld [loser] [mine; theirs] 10 [] [] in
  let loser' := User.with_platformXp 0 loser in
  In loser' (users w) \/ 0 <= platformXp loser'.
Proof.
  intros mine theirs loser w loser'.
  eapply (platformXp_never_below_zero (fun s => s) (Server.POST_battles_surrender 1)
            w loser').
  - reflexivity.
  - reflexivity.
  - simpl. left. reflexivity.
Defined.

(* ------------------------------------------------------------------ *)
(** ** Battle surrender *)

Lemma find_first_agree (A : Type) (P Q : A -> bool) (l : list A) (x y : A) :
  find P l = Some x -> find Q l = Some y ->
  P y = true -> Q x = true -> x = y.
Proof.
  induction l as [|a l IH]; simpl; [discriminate|].
  destruct (P a) eqn:Pa, (Q a) eqn:Qa; intros Hx Hy Py Qx.
  - congruence.
  - inversion Hx; subst. congruence.
  - inversion Hy; subst. congruence.
  - now apply IH.
Qed.

Lemma BattlePair_counterpart (w : World) (g : ObjectId) (mine theirs : Habit.t) :
  BattlePair w g mine theirs ->
  find (fun h => sameGroup (Habit.sharedGroupId mine) h
                 && negb (Nat.eqb (Habit._id h) (Habit._id mine)))
       (habits w) = Some theirs.
Proof.
  intros [Hm Ht Hd Gm Gt Only Hp]. unfold habitById in *.
  pose proof (find_key Habit._id _ _ Ht) as [_ Hin].
  set (P := fun h => sameGroup (Habit.sharedGroupId mine) h
                     && negb (Nat.eqb (Habit._id h) (Habit._id mine))).
  assert (Pt : P theirs = true).
  { unfold P, sameGroup. rewrite Gm, Gt, Nat.eqb_refl. simpl.
    apply negb_true_iff, Nat.eqb_neq. congruence. }
  destruct (find P (habits w)) as [x|] eqn:F.
  - f_equal. eapply find_first_agree; [exact F | exact Ht | exact Pt |].
    apply find_some in F. destruct F as [Hx Px].
    unfold P, sameGroup in Px. rewrite Gm in Px.
    apply andb_true_iff in Px. destruct Px as [Gx Nx].
    destruct (Habit.sharedGroupId x) as [gx|] eqn:Ex; [|discriminate].
    apply Nat.eqb_eq in Gx. subst gx.
    apply negb_true_iff, Nat.eqb_neq in Nx.
    destruct (Only x Hx Ex) as [E|E]; [contradiction|].
    apply Nat.eqb_eq. exact E.
  - exfalso. pose proof (find_none _ _ F _ Hin) as N. congruence.
Qed.

(** C7. For the two records of a battle (in whatever status, active in
    particular), a surrender through the record [mine] answers 200, leaves
    both records [completed] with [battleWinner] the owner of the other
    record, and leaves the surrendering user with [max 0 (xp - 100)]. *)
Theorem surrender_completes_both_and_fines
    (w : World) (g : ObjectId) (mine theirs : Habit.t) (loser : User.t) :
  BattlePair w g mine theirs ->
  userById (Habit.userId mine) w = Some loser ->
  lacksFriendCode loser = false ->
  exists r w' mine' theirs' loser',
    post_battles_surrender (Habit._id mine) w = Some (r, w') /\
    statusCode r = 200%nat /\
    habitById (Habit._id mine) w' = Some mine' /\
    habitById (Habit._id theirs) w' = Some theirs' /\
    mine' = Habit.with_battleWinner (Some (Habit.userId theirs))
              (Habit.with_battleStatus completed mine) /\
    theirs' = Habit.with_battleWinner (Some (Habit.userId theirs))
                (Habit.with_battleStatus completed theirs) /\
    userById (Habit.userId mine) w' = Some loser' /\
    platformXp loser' = Z.max 0 (platformXp loser - 100) /\
    level loser' = level loser.
Proof.
  intros BP Hu Hc.
  pose proof (BattlePair_counterpart BP) as Hopp.
  destruct BP as [Hm Ht Hd Gm Gt Only Hp]. unfold habitById, userById in *.
  pose proof (find_key User._id _ _ Hu) as [Huid _].
  set (mine' := Habit.with_battleWinner (Some (Habit.userId theirs))
                  (Habit.with_battleStatus completed mine)).
  set (theirs' := Habit.with_battleWinner (Some (Habit.userId theirs))
                    (Habit.with_battleStatus completed theirs)).
  set (loser' := User.with_platformXp (Z.max 0 (platformXp loser - 100)) loser).
  unfold post_battles_surrender. run. rewrite Hm. run. rewrite Hopp. run.
  cbn [Habit.userId Habit.partnerId Habit._id Habit.with_battleWinner
       Habit.with_battleStatus].
  rewrite Hp, Hu. run. rewrite or_else_zero.
  rewrite User_save_coded by exact Hc.
  fold mine' theirs' loser'.
  do 2 eexists. exists mine', theirs', loser'.
  split; [reflexivity|]. cbn [statusCode users habits].
  repeat match goal with |- _ /\ _ => split end; try reflexivity.
  - apply (find_replace_same Habit._id mine' (a0 := mine)).
    unfold replaceHabit.
    rewrite (find_replace_other Habit._id theirs') by (simpl; congruence).
    exact Hm.
  - unfold replaceHabit at 1.
    rewrite (find_replace_other Habit._id mine') by (simpl; congruence).
    apply (find_replace_same Habit._id theirs' (a0 := theirs)). exact Ht.
  - rewrite <- Huid. apply (find_replace_same User._id loser' (a0 := loser)).
    cbn [User._id loser' User.with_platformXp]. rewrite Huid. exact Hu.
Qed.

Lemma surrender_completes_both_and_fines_witness :
  let mine := Habit.mk 1 7 "run" [] [] 0 0 (Some 9%nat) (Some 3%nat) battle active
                7 (Some 0) None true in
  let theirs := Habit.mk 2 9 "run" [] [] 0 0 (Some 7%nat) (Some 3%nat) battle active
                  7 (Some 0) None true in
  let loser := User.mk 7 40 1 (mkHellWeek false None None) (Some "AB12C") [] [] in
  let winner := User.mk 9 10 1 (mkHellWeek false None None) (Some "ZZ999") [] [] in
  let w := mkWorld [loser; winner] [mine; theirs] 10 [] [] in
  exists r w' mine' theirs' loser',
    post_battles_surrender 1 w = Some (r, w') /\
    habitById 1 w' = Some mine' /\ Habit.battleStatus mine' = completed /\
    Habit.battleWinner mine' = Some 9%nat /\
    habitById 2 w' = Some theirs' /\ Habit.battleStatus theirs' = completed /\
    Habit.battleWinner theirs' = Some 9%nat /\
    userById 7 w' = Some loser' /\ platformXp loser' = 0.
Proof.
  intros mine theirs loser winner w.
  assert (BP : BattlePair w 3 mine theirs).
  { constructor; try reflexivity.
    - simpl. discriminate.
    - simpl. intros h [<-|[<-|[]]] _; auto. }
  destruct (surrender_completes_both_and_fines BP (loser := loser))
    as (r & w' & m' & t' & l' & A & _ & B & C & -> & -> & D & E & _);
    [reflexivity | reflexivity |].
  do 5 eexists.
  split; [exact A|]. split; [exact B|]. split; [reflexivity|].
  split; [reflexivity|]. split; [exact C|]. split; [reflexivity|].
  split; [reflexivity|]. split; [exact D | exact E].
Defined.

(* ------------------------------------------------------------------ *)
(** ** Creating a battle habit *)


Ltac validated :=
  unfold Habit.validate;
  cbn [f_userId f_name f_completedDates f_xpGrantedDates f_currentStreak
       f_longestStreak f_partnerId f_sharedGroupId f_type f_battleStatus
       f_battleDuration f_battleStartDate f_battleWinner f_isVisible].



(** For the request [{ userId: 7, name: "run", partnerId: 9 }] on an
    empty store, no outcome of [server.js] has the creator's record
    visible: it is stored with [isVisible = false]. *)
Lemma creator_record_visible_counterexample :
  let habitData :=
    mkFields (Some 7%nat) (Some "run") None None None None None None None None
      None None None None in
  let w := mkWorld [] [] 10 [] [] in
  ~ battlePairCreated w (Server.post_habits (Some 9%nat) None habitData w) 7 9 true.
Proof.
  intros habitData w (w' & mine & theirs & E & _ & _ & _ & _ & _ & _ & _ & _ & _ & _ & V & _).
  vm_compute in E. inversion E; subst. discriminate V.
Qed.

(** C1 fails on [server.js]. For the request
    [{ userId: 7, name: "run", partnerId: 9 }] on an empty store both
    copies answer 201 and store two records that share one group token,
    the creator's [battle] and [waiting], the invitee's [battle],
    [pending], hidden and with the creator as partner, as the claim says;
    but [server.js] stores the creator's record with [isVisible = false],
    so that the creator's [GET /habits] is empty, where the claim, the
    comment of [GET /habits] ("Waiting battles are isVisible: true (for
    creator)") and [api/index.js] on the same request have it visible. *)
Theorem server_post_habits_hides_creator_record :
  let habitData :=
    mkFields (Some 7%nat) (Some "run") None None None None None None None None
      None None None None in
  let w := mkWorld [] [] 10 [] [] in
  exists mine theirs ws mineApi theirsApi wa,
    Server.post_habits (Some 9%nat) None habitData w
      = Some (mkResponse 201 (JHabit mine), ws) /\
    habits ws = [mine; theirs] /\
    Habit.sharedGroupId mine = Some 10%nat /\
    Habit.sharedGroupId theirs = Some 10%nat /\
    Habit.type mine = battle /\ Habit.battleStatus mine = waiting /\
    Habit.type theirs = battle /\ Habit.battleStatus theirs = Habit.pending /\
    Habit.isVisible theirs = false /\ Habit.partnerId theirs = Some 7%nat /\
    Habit.isVisible mine = false /\
    Server.get_habits 7 ws = Some (Server.Sent 200%nat [], ws) /\
    Api.post_habits (Some 9%nat) None habitData w
      = Some (mkResponse 201 (JHabit mineApi), wa) /\
    habits wa = [mineApi; theirsApi] /\
    Habit.isVisible mineApi = true /\
    Habit.isVisible theirsApi = false.
Proof.
  intros habitData w. do 6 eexists.
  repeat match goal with |- _ /\ _ => split end; vm_compute; reflexivity.
Qed.

(* ------------------------------------------------------------------ *)
(** ** Level recomputation in the serverless copy *)

(** C2 fails on [api/index.js]. A user at level 4 with 600 XP surrenders
    Hell Week (XP 100, level untouched); the next [GET /user/:id] of the
    serverless copy stores level 2, the level derived from 100 XP, while
    the same request on [server.js] leaves level 4. *)
Theorem api_get_user_lowers_level :
  let user := User.mk 7 600 4 (mkHellWeek true (Some 0) (Some 604800000))
                (Some "AB12C") [] [] in
  let w := mkWorld [user] [] 8 [] [] in
  exists r1 w1 r2 w2 r3 w3 stored kept,
    Api.post_user_hell_week 7 "surrender" 1000 1000 w = Some (r1, w1) /\
    Api.get_user 7 w1 = Some (r2, w2) /\
    userById 7 w2 = Some stored /\
    platformXp stored = 100 /\ level stored = 2 /\
    Server.get_user 7 w1 = Some (r3, w3) /\
    userById 7 w3 = Some kept /\ level kept = 4.
Proof.
  intros user w. do 8 eexists.
  repeat match goal with |- _ /\ _ => split end; vm_compute; reflexivity.
Qed.

(** The toggle of the serverless copy lowers a level in the same way:
    unchecking a date at 105 XP and level 2 stores 90 XP and level 1. *)
Lemma api_toggle_lowers_level :
  let habit := Habit.mk 1 7 "run" ["2024-05-01"] [] 1 0 None None solo active 7
                 None None true in
  let user := User.mk 7 105 2 (mkHellWeek false None None) (Some "AB12C") [] [] in
  let w := mkWorld [user] [habit] 8 [] [] in
  exists r w' stored,
    Api.post_habits_toggle 1 "2024-05-01" w = Some (r, w') /\
    userById 7 w' = Some stored /\
    platformXp stored = 90 /\ level stored = 1.
Proof.
  intros habit user w. do 3 eexists.
  repeat match goal with |- _ /\ _ => split end; vm_compute; reflexivity.
Qed.

(* ------------------------------------------------------------------ *)
(** ** Hell Week start *)

(** X13. [server.js]: what [start] answers and stores for a stored user
    who has a friend code: 400 and nothing written when the user is in Hell
    Week already, or is not and has a level below 4 (0 counting as 1);
    otherwise 200 with Hell Week on, from [tStart] to seven days after
    [tNow], in the answer and in the store. *)
Lemma server_hell_week_start
    (w : World) (userId : ObjectId) (tStart tNow : Z) (user : User.t) :
  userById userId w = Some user ->
  lacksFriendCode user = false ->
  (isActive (hellWeek user) = true ->
     Server.post_user_hell_week userId "start" tStart tNow w
       = Some (mkResponse 400 (JError "Already in hell"), w)) /\
  (isActive (hellWeek user) = false -> or_else (level user) 1 < 4 ->
     Server.post_user_hell_week userId "start" tStart tNow w
       = Some (mkResponse 400 (JError "Hell Week requires Level 4"), w)) /\
  (isActive (hellWeek user) = false -> 4 <= or_else (level user) 1 ->
     exists w',
       Server.post_user_hell_week userId "start" tStart tNow w
         = Some (mkResponse 200
                   (JHellWeek "Welcome to Hell."
                      (mkHellWeek true (Some tStart) (Some (tNow + 604800000)))),
                 w') /\
       userById userId w' =
         Some (User.with_hellWeek
                 (mkHellWeek true (Some tStart) (Some (tNow + 604800000))) user)).
Proof.
  unfold userById. intros Hu Hc.
  pose proof (find_key User._id _ _ Hu) as [Huid _].
  unfold Server.post_user_hell_week. run. rewrite Hu. run.
  cbn [String.eqb Ascii.eqb Bool.eqb].
  split; [|split].
  - intros ->. reflexivity.
  - intros -> Hl. destruct (Z.ltb_spec (or_else (level user) 1) 4); [reflexivity | lia].
  - intros -> Hl. destruct (Z.ltb_spec (or_else (level user) 1) 4); [lia|].
    rewrite User_save_coded by exact Hc.
    eexists. split; [reflexivity|]. cbn [users].
    rewrite <- Huid.
    apply (find_replace_same User._id
             (User.with_hellWeek
                (mkHellWeek true (Some tStart) (Some (tNow + 7 * 24 * 60 * 60 * 1000)))
                user)
             (a0 := user)).
    cbn [User._id User.with_hellWeek]. rewrite Huid. exact Hu.
Qed.

(** C6 fails on [api/index.js]: the serverless copy has no level gate.
    A level-1 user who is not in Hell Week starts it and is stored active,
    with the target date seven days after the [Date.now()] reading; the
    same request on [server.js] is refused with 400. *)
Theorem api_hell_week_start_ignores_level :
  let user := User.mk 7 0 1 (mkHellWeek false None None) (Some "AB12C") [] [] in
  let w := mkWorld [user] [] 8 [] [] in
  exists w' stored,
    Api.post_user_hell_week 7 "start" 5000 5000 w
      = Some (mkResponse 200
                (JHellWeek "Welcome to Hell."
                   (mkHellWeek true (Some 5000) (Some 604805000))), w') /\
    userById 7 w' = Some stored /\
    isActive (hellWeek stored) = true /\
    level stored = 1 /\
    Server.post_user_hell_week 7 "start" 5000 5000 w
      = Some (mkResponse 400 (JError "Hell Week requires Level 4"), w).
Proof.
  intros user w. do 2 eexists.
  repeat match goal with |- _ /\ _ => split end; vm_compute; reflexivity.
Qed.

(* ------------------------------------------------------------------ *)
(** ** Friend requests *)

Lemma includes_In (id : ObjectId) (ids : list ObjectId) :
  includes id ids = true <-> In id ids.
Proof.
  unfold includes. rewrite existsb_exists. split.
  - intros (x & Hin & E). apply Nat.eqb_eq in E. now subst.
  - intros Hin. exists id. split; [exact Hin | apply Nat.eqb_refl].
Qed.

Lemma includes_push (id : ObjectId) (ids : list ObjectId) :
  includes id (ids ++ [id]) = true.
Proof. apply includes_In, in_app_iff. right. now left. Qed.

Lemma filter_idem (A : Type) (f : A -> bool) (l : list A) :
  filter f (filter f l) = filter f l.
Proof.
  induction l as [|a l IH]; simpl; [reflexivity|].
  destruct (f a) eqn:E; simpl; [rewrite E, IH|]; auto.
Qed.

(** On a friends list without duplicates, the push guarded by [includes]
    leaves exactly one occurrence. *)
Lemma guarded_push_once (id : ObjectId) (ids : list ObjectId) :
  NoDup ids ->
  count_occ Nat.eq_dec (if includes id ids then ids else ids ++ [id]) id = 1%nat.
Proof.
  intros Hnd. destruct (includes id ids) eqn:E.
  - apply includes_In in E. now apply NoDup_count_occ'.
  - assert (Hn : ~ In id ids) by (rewrite <- includes_In; congruence).
    apply (count_occ_not_In Nat.eq_dec) in Hn.
    rewrite count_occ_app. simpl.
    destruct (Nat.eq_dec id id); [|contradiction].
    unfold ObjectId in *. lia.
Qed.

Lemma friends_acceptedUser (requesterId : ObjectId) (user : User.t) :
  friends (acceptedUser requesterId user)
    = if includes requesterId (friends user) then friends user
      else friends user ++ [requesterId].
Proof.
  unfold acceptedUser. cbn [friends User.with_friendRequests].
  destruct (includes requesterId (friends user)); reflexivity.
Qed.

Lemma friends_acceptedRequester (userId : ObjectId) (requester : User.t) :
  friends (acceptedRequester userId requester)
    = if includes userId (friends requester) then friends requester
      else friends requester ++ [userId].
Proof.
  unfold acceptedRequester.
  destruct (includes userId (friends requester)); reflexivity.
Qed.

Lemma includes_acceptedUser (requesterId : ObjectId) (user : User.t) :
  includes requesterId (friends (acceptedUser requesterId user)) = true.
Proof.
  rewrite friends_acceptedUser.
  destruct (includes requesterId (friends user)) eqn:E;
    [exact E | apply includes_push].
Qed.

Lemma acceptedUser_idem (requesterId : ObjectId) (user : User.t) :
  acceptedUser requesterId (acceptedUser requesterId user)
    = acceptedUser requesterId user.
Proof.
  pose proof (includes_acceptedUser requesterId user) as Hi.
  unfold acceptedUser at 1.
  cbn [friends User.with_friendRequests]. rewrite Hi.
  unfold acceptedUser. cbn [friends friendRequests User.with_friendRequests].
  destruct (includes requesterId (friends user));
    cbn [friendRequests User.with_friendRequests User.with_friends
         User._id platformXp level hellWeek friendCode friends];
    rewrite filter_idem; reflexivity.
Qed.

Lemma acceptedRequester_idem (userId : ObjectId) (requester : User.t) :
  acceptedRequester userId (acceptedRequester userId requester)
    = acceptedRequester userId requester.
Proof.
  unfold acceptedRequester at 1.
  destruct (includes userId (friends (acceptedRequester userId requester))) eqn:E;
    [reflexivity|].
  exfalso. rewrite friends_acceptedRequester in E.
  destruct (includes userId (friends requester)) eqn:E'; [congruence|].
  rewrite includes_push in E. discriminate.
Qed.

Lemma accepted_frames (id : ObjectId) (u : User.t) :
  User._id (acceptedUser id u) = User._id u /\
  lacksFriendCode (acceptedUser id u) = lacksFriendCode u /\
  User._id (acceptedRequester id u) = User._id u /\
  lacksFriendCode (acceptedRequester id u) = lacksFriendCode u.
Proof.
  unfold acceptedUser, acceptedRequester.
  cbn [friends User.with_friendRequests].
  destruct (includes id (friends u)); repeat split.
Qed.

Lemma find_replace_pred (A : Type) (key : A -> ObjectId) (P : A -> bool)
    (a a0 : A) (l : list A) :
  find P l = Some a0 -> key a = key a0 -> P a = true ->
  find P (replaceById key a l) = Some a.
Proof.
  intros Hf Hk Pa. unfold replaceById.
  induction l as [|v l IH]; simpl in *; [discriminate|].
  destruct (Nat.eqb_spec (key v) (key a)) as [E|E].
  - now rewrite Pa.
  - destruct (P v) eqn:Pv; [|now apply IH].
    inversion Hf; subst. congruence.
Qed.

Section FriendRequests.

Variable toUpperCase : string -> string.

(** The request goes through: [target] gets the pending request. *)
Lemma add_friend_sent (w : World) (senderId : ObjectId) (code : string) (now : Z)
    (sender target : User.t) :
  userById senderId w = Some sender ->
  find (hasFriendCode (toUpperCase code)) (users w) = Some target ->
  User._id sender <> User._id target ->
  includes (User._id target) (friends sender) = false ->
  find (fun r => Nat.eqb (from r) senderId) (friendRequests target) = None ->
  lacksFriendCode target = false ->
  post_social_add_friend toUpperCase senderId code now w =
    Some (mkResponse 200 (JMessage "Friend request sent!"),
          mkWorld (replaceUser (requestedTarget senderId now target) (users w))
            (habits w) (nextOid w) (random w)
            (writes w ++ [UserSaved (User._id target)])).
Proof.
  unfold userById. intros Hs Ht Hne Hnf Hnr Hc.
  unfold post_social_add_friend. run. rewrite Hs, Ht. run.
  destruct (Nat.eqb_spec (User._id sender) (User._id target)) as [|_];
    [contradiction|].
  rewrite Hnf, Hnr. run.
  fold (requestedTarget senderId now target).
  rewrite User_save_coded by exact Hc. reflexivity.
Qed.

(** A request of the sender is already in the queue of [target]. *)
Lemma add_friend_duplicate (w : World) (senderId : ObjectId) (code : string) (now : Z)
    (sender target : User.t) (queued : User.FriendRequest) :
  userById senderId w = Some sender ->
  find (hasFriendCode (toUpperCase code)) (users w) = Some target ->
  User._id sender <> User._id target ->
  includes (User._id target) (friends sender) = false ->
  find (fun r => Nat.eqb (from r) senderId) (friendRequests target) = Some queued ->
  post_social_add_friend toUpperCase senderId code now w =
    Some (mkResponse 400 (JError "Request already sent."), w).
Proof.
  unfold userById. intros Hs Ht Hne Hnf Hq.
  unfold post_social_add_friend. run. rewrite Hs, Ht. run.
  destruct (Nat.eqb_spec (User._id sender) (User._id target)) as [|_];
    [contradiction|].
  rewrite Hnf, Hq. reflexivity.
Qed.

End FriendRequests.

(** An accept between two stored users with friend codes. *)
Lemma handle_request_accept (w : World) (userId requesterId : ObjectId)
    (user requester : User.t) :
  userById userId w = Some user ->
  userById requesterId w = Some requester ->
  userId <> requesterId ->
  lacksFriendCode user = false ->
  lacksFriendCode requester = false ->
  post_social_handle_request userId requesterId "accept" w =
    Some (mkResponse 200
            (JFriends "Request accepted" (friends (acceptedUser requesterId user))),
          mkWorld
            (replaceUser (acceptedUser requesterId user)
               (replaceUser (acceptedRequester userId requester) (users w)))
            (habits w) (nextOid w) (random w)
            ((writes w ++ [UserSaved requesterId]) ++ [UserSaved userId])).
Proof.
  unfold userById. intros Hu Hr Hne Hcu Hcr.
  pose proof (find_key User._id _ _ Hu) as [Huid _].
  pose proof (find_key User._id _ _ Hr) as [Hrid _].
  pose proof (accepted_frames requesterId user) as (Iu & Cu & _).
  pose proof (accepted_frames userId requester) as (_ & _ & Ir & Cr).
  unfold post_social_handle_request. run. rewrite Hu, Hr. run.
  cbn [String.eqb Ascii.eqb Bool.eqb].
  rewrite (proj2 (Nat.eqb_neq userId requesterId) Hne). cbn [andb]. run.
  fold (acceptedRequester userId requester).
  change (if includes requesterId
               (friends (User.with_friendRequests
                  (filter (fun r => negb (Nat.eqb (from r) requesterId))
                     (friendRequests user)) user))
          then _ else _) with (acceptedUser requesterId user).
  rewrite User_save_coded by (rewrite Cr; exact Hcr). run.
  rewrite User_save_coded by (rewrite Cu; exact Hcu).
  cbn [users habits nextOid random writes]. rewrite Iu, Ir, Huid, Hrid.
  reflexivity.
Qed.

Lemma handle_request_accept_stored (w : World) (userId requesterId : ObjectId)
    (user requester : User.t) :
  userById userId w = Some user ->
  userById requesterId w = Some requester ->
  userId <> requesterId ->
  lacksFriendCode user = false ->
  lacksFriendCode requester = false ->
  exists r w',
    post_social_handle_request userId requesterId "accept" w = Some (r, w') /\
    statusCode r = 200%nat /\
    userById userId w' = Some (acceptedUser requesterId user) /\
    userById requesterId w' = Some (acceptedRequester userId requester).
Proof.
  intros Hu Hr Hne Hcu Hcr.
  rewrite (@handle_request_accept w userId requesterId user requester Hu Hr Hne Hcu Hcr).
  unfold userById in *.
  pose proof (find_key User._id _ _ Hu) as [Huid _].
  pose proof (find_key User._id _ _ Hr) as [Hrid _].
  pose proof (accepted_frames requesterId user) as (Iu & _).
  pose proof (accepted_frames userId requester) as (_ & _ & Ir & _).
  do 2 eexists. split; [reflexivity|]. split; [reflexivity|]. cbn [users]. split.
  - rewrite <- Huid, <- Iu.
    apply (find_replace_same User._id (acceptedUser requesterId user) (a0 := user)).
    unfold replaceUser. rewrite find_replace_other by congruence.
    rewrite Iu, Huid. exact Hu.
  - unfold replaceUser at 1. rewrite find_replace_other by congruence.
    rewrite <- Hrid, <- Ir.
    apply (find_replace_same User._id (acceptedRequester userId requester)
             (a0 := requester)).
    rewrite Ir, Hrid. exact Hr.
Qed.

Lemma find_filtered_out (A : Type) (f : A -> bool) (l : list A) :
  find f (filter (fun a => negb (f a)) l) = None.
Proof.
  induction l as [|a l IH]; simpl; [reflexivity|].
  destruct (f a) eqn:E; simpl; [exact IH | now rewrite E].
Qed.

Lemma find_by_id_of_member (u : User.t) (us : list User.t) :
  In u us -> exists u0, find (fun v => Nat.eqb (User._id v) (User._id u)) us = Some u0.
Proof.
  intros Hin. destruct (find _ us) as [u0|] eqn:F; [eauto|].
  pose proof (find_none _ _ F _ Hin) as N. simpl in N.
  rewrite Nat.eqb_refl in N. discriminate.
Qed.

(** C9. A sender and the target found under a friend code, not yet
    friends and with no request of the sender queued: the request is
    accepted into the target's queue; sent again before it is resolved it
    is answered 400 "Request already sent." and changes nothing; when the
    target accepts, the sender is in the target's friends exactly once and
    the target in the sender's exactly once, and the request is gone from
    the queue; a second accept answers too and leaves both stored
    documents as they were. *)
Theorem friend_request_duplicate_and_accept
    (toUpperCase : string -> string) (w : World) (senderId : ObjectId)
    (code : string) (t1 : Z) (sender target : User.t) :
  userById senderId w = Some sender ->
  find (hasFriendCode (toUpperCase code)) (users w) = Some target ->
  User._id sender <> User._id target ->
  includes (User._id target) (friends sender) = false ->
  find (fun r => Nat.eqb (from r) senderId) (friendRequests target) = None ->
  lacksFriendCode sender = false ->
  lacksFriendCode target = false ->
  NoDup (friends sender) ->
  NoDup (friends target) ->
  exists w1,
    post_social_add_friend toUpperCase senderId code t1 w
      = Some (mkResponse 200 (JMessage "Friend request sent!"), w1) /\
    (forall t2,
       post_social_add_friend toUpperCase senderId code t2 w1
         = Some (mkResponse 400 (JError "Request already sent."), w1)) /\
    exists r2 w2 target2 sender2,
      post_social_handle_request (User._id target) senderId "accept" w1
        = Some (r2, w2) /\
      statusCode r2 = 200%nat /\
      userById (User._id target) w2 = Some target2 /\
      userById senderId w2 = Some sender2 /\
      count_occ Nat.eq_dec (friends target2) senderId = 1%nat /\
      count_occ Nat.eq_dec (friends sender2) (User._id target) = 1%nat /\
      find (fun r => Nat.eqb (from r) senderId) (friendRequests target2) = None /\
      exists r3 w3,
        post_social_handle_request (User._id target) senderId "accept" w2
          = Some (r3, w3) /\
        statusCode r3 = 200%nat /\
        userById (User._id target) w3 = Some target2 /\
        userById senderId w3 = Some sender2.
Proof.
  intros Hs Ht Hne Hnf Hnr Hcs Hct NDs NDt.
  pose proof (find_key User._id _ _ Hs) as [Hsid _].
  assert (Hne' : User._id target <> senderId) by congruence.
  set (target1 := requestedTarget senderId t1 target).
  eexists. split;
    [apply (@add_friend_sent toUpperCase w senderId code t1 sender target
              Hs Ht Hne Hnf Hnr Hct)|].
  match goal with |- (forall t2, _ ?x = _) /\ _ => set (w1 := x) in * end.
  (* the store after the request *)
  assert (Hs1 : userById senderId w1 = Some sender).
  { unfold userById, w1. cbn [users]. unfold replaceUser.
    rewrite find_replace_other by exact Hne'. exact Hs. }
  assert (Ht1 : find (hasFriendCode (toUpperCase code)) (users w1) = Some target1).
  { unfold w1. cbn [users]. unfold replaceUser.
    apply (@find_replace_pred _ User._id _ target1 target _ Ht); [reflexivity|].
    apply find_some in Ht. exact (proj2 Ht). }
  assert (Hu1 : userById (User._id target) w1 = Some target1).
  { apply find_some in Ht. destruct Ht as [Hin _].
    destruct (find_by_id_of_member target (users w) Hin) as (u0 & F).
    unfold userById, w1. cbn [users].
    apply (find_replace_same User._id target1 (a0 := u0)). exact F. }
  split.
  { intros t2.
    apply (@add_friend_duplicate toUpperCase w1 senderId code t2 sender target1
             (User.mkFriendRequest senderId User.pending t1));
      try assumption.
    cbn [friendRequests target1 requestedTarget User.with_friendRequests].
    rewrite find_app_none by exact Hnr. simpl. now rewrite Nat.eqb_refl. }
  destruct (@handle_request_accept_stored w1 (User._id target) senderId target1 sender
              Hu1 Hs1 Hne' Hct Hcs)
    as (r2 & w2 & R2 & S2 & Ut2 & Us2).
  set (target2 := acceptedUser senderId target1) in *.
  set (sender2 := acceptedRequester (User._id target) sender) in *.
  exists r2, w2, target2, sender2.
  repeat match goal with |- _ /\ _ => split end; try assumption.
  - unfold target2. rewrite friends_acceptedUser.
    apply guarded_push_once. exact NDt.
  - unfold sender2. rewrite friends_acceptedRequester.
    apply guarded_push_once. exact NDs.
  - unfold target2, acceptedUser. cbn [friends User.with_friendRequests].
    destruct (includes senderId (friends target1));
      cbn [friendRequests User.with_friendRequests User.with_friends];
      apply (find_filtered_out (fun r => Nat.eqb (from r) senderId)).
  - pose proof (accepted_frames senderId target1) as (_ & Ct & _).
    pose proof (accepted_frames (User._id target) sender) as (_ & _ & _ & Cs).
    destruct (@handle_request_accept_stored w2 (User._id target) senderId
                target2 sender2 Ut2 Us2 Hne')
      as (r3 & w3 & R3 & S3 & Ut3 & Us3).
    + fold target2 in Ct. rewrite Ct. exact Hct.
    + fold sender2 in Cs. rewrite Cs. exact Hcs.
    + exists r3, w3. unfold target2 in Ut3. rewrite acceptedUser_idem in Ut3.
      unfold sender2 in Us3. rewrite acceptedRequester_idem in Us3.
      repeat split; assumption.
Qed.

Lemma friend_request_duplicate_and_accept_witness :
  let sender := User.mk 7 0 1 (mkHellWeek false None None) (Some "AB12C") [] [] in
  let target := User.mk 9 0 1 (mkHellWeek false None None) (Some "ZZ999") [] [] in
  let w := mkWorld [sender; target] [] 10 [] [] in
  exists w1 r2 w2 target2,
    post_social_add_friend (fun s => s) 7 "ZZ999" 1000 w
      = Some (mkResponse 200 (JMessage "Friend request sent!"), w1) /\
    post_social_add_friend (fun s => s) 7 "ZZ999" 2000 w1
      = Some (mkResponse 400 (JError "Request already sent."), w1) /\
    post_social_handle_request 9 7 "accept" w1 = Some (r2, w2) /\
    userById 9 w2 = Some target2 /\
    count_occ Nat.eq_dec (friends target2) 7%nat = 1%nat.
Proof.
  intros sender target w.
  destruct (@friend_request_duplicate_and_accept (fun s => s) w 7 "ZZ999" 1000
              sender target)
    as (w1 & A & B & r2 & w2 & target2 & sender2 & C & _ & D & _ & E & _).
  - reflexivity.
  - reflexivity.
  - simpl. intros H. discriminate H.
  - reflexivity.
  - reflexivity.
  - reflexivity.
  - reflexivity.
  - constructor.
  - constructor.
  - exists w1, r2, w2, target2.
    split; [exact A|]. split; [exact (B 2000)|]. split; [exact C|].
    split; [exact D | exact E].
Defined.

(* ------------------------------------------------------------------ *)
(** ** [server.js] never lowers a level *)

Lemma levelSame_refl (w w' : World) : users w' = users w -> levelSame w w'.
Proof.
  intros E id u Hu. exists u. unfold userById in *. rewrite E. auto.
Qed.

Lemma levelSame_trans (w w1 w2 : World) :
  levelSame w w1 -> levelSame w1 w2 -> levelSame w w2.
Proof.
  intros A B id u Hu. destruct (A id u Hu) as (u1 & Hu1 & E1).
  destruct (B id u1 Hu1) as (u2 & Hu2 & E2). exists u2. split; [assumption | congruence].
Qed.

Lemma levelSame_kept (w w' : World) : levelSame w w' -> levelKept w w'.
Proof.
  intros A id u u' Hu Hu'. destruct (A id u Hu) as (u1 & Hu1 & E).
  assert (u1 = u') by congruence. subst u1. rewrite E. split; [lia | now left].
Qed.

Lemma levelSame_then_kept (w w1 w2 : World) :
  levelSame w w1 -> levelKept w1 w2 -> levelKept w w2.
Proof.
  intros A B id u u2 Hu Hu2. destruct (A id u Hu) as (u1 & Hu1 & E).
  destruct (B id u1 u2 Hu1 Hu2) as [L D]. rewrite <- E. auto.
Qed.

(** A save of [u] where the store holds [a] under the id of [u]. *)
Lemma User_save_levels (w w0 w1 : World) (u a u1 : User.t) :
  users w0 = users w ->
  userById (User._id u) w = Some a ->
  User_save u w0 = Ret u1 w1 ->
  User._id u1 = User._id u /\ level u1 = level u /\ platformXp u1 = platformXp u /\
  users w1 = replaceUser u1 (users w) /\
  userById (User._id u) w1 = Some u1 /\
  (level u = level a -> levelSame w w1) /\
  (level a <= level u ->
   level u = level a \/ level u = calculateLevel (platformXp u) ->
   levelKept w w1).
Proof.
  intros E Ha Sv.
  pose proof (User_save_inv u w0) as Inv. rewrite Sv in Inv.
  destruct Inv as (Eu & Eus & _). rewrite E in Eus.
  assert (Hid : User._id u1 = User._id u) by (rewrite Eu; reflexivity).
  assert (Hl : level u1 = level u) by (rewrite Eu; reflexivity).
  assert (Hx : platformXp u1 = platformXp u) by (rewrite Eu; reflexivity).
  assert (Hfind : userById (User._id u) w1 = Some u1).
  { unfold userById in *. rewrite Eus, <- Hid.
    apply (find_replace_same User._id u1 (a0 := a)). rewrite Hid. exact Ha. }
  assert (Other : forall id, id <> User._id u -> userById id w1 = userById id w).
  { intros id Hne. unfold userById. rewrite Eus. unfold replaceUser.
    apply find_replace_other. congruence. }
  repeat match goal with |- _ /\ _ => split end; try assumption.
  - intros El id v Hv. destruct (Nat.eq_dec id (User._id u)) as [->|Hne].
    + exists u1. split; [exact Hfind | congruence].
    + exists v. rewrite Other by exact Hne. auto.
  - intros Hle Hd id v v' Hv Hv'. destruct (Nat.eq_dec id (User._id u)) as [->|Hne].
    + assert (v = a) by congruence. assert (v' = u1) by congruence. subst.
      rewrite Hl, Hx. auto.
    + rewrite Other in Hv' by exact Hne. assert (v' = v) by congruence. subst.
      split; [lia | now left].
Qed.

Ltac saved H Sv :=
  match type of H with
  | context [User_save ?u ?w0] =>
      destruct (User_save u w0) as [? ?| |] eqn:Sv;
      [ | exfalso; eapply User_save_never_throws; exact Sv | discriminate H ]
  end.

Ltac levels w Hl Sv :=
  match type of Sv with
  | User_save ?u ?w0 = Ret ?u1 ?w1 =>
      generalize (@User_save_levels w w0 w1 u _ u1 eq_refl Hl Sv)
  end.

Lemma calculateLevel_positive (xp : Z) : 1 <= calculateLevel xp.
Proof. unfold calculateLevel. apply levelLoop_lower. lia. Qed.

(** [Math.max(level || 1, calculateLevel(xp))] keeps the level or takes
    the derived one, and is never below the level. *)
Lemma raise_only (l xp : Z) :
  l <= Z.max (or_else l 1) (calculateLevel xp) /\
  (Z.max (or_else l 1) (calculateLevel xp) = l \/
   Z.max (or_else l 1) (calculateLevel xp) = calculateLevel xp).
Proof.
  pose proof (calculateLevel_positive xp). unfold or_else.
  destruct (Z.eqb_spec l 0); lia.
Qed.

Lemma userById_loaded (id : ObjectId) (w : World) (u : User.t) :
  find (fun v => Nat.eqb (User._id v) id) (users w) = Some u ->
  userById (User._id u) w = Some u.
Proof.
  intros H. pose proof (find_key User._id _ _ H) as [E _].
  unfold userById. rewrite E. exact H.
Qed.

Lemma post_habits_toggle_levelKept (id : ObjectId) (date : string) (now : Z)
    (w w' : World) (r : Response) :
  post_habits_toggle id date now w = Some (r, w') -> levelKept w w'.
Proof.
  unfold post_habits_toggle. intros H. run in H.
  destruct (find _ (habits w)) as [habit|]; run in H.
  2: { inversion H; subst. now apply levelSame_kept, levelSame_refl. }
  destruct (toggleLedger habit date now) as [habit1 xpChange]. run in H.
  destruct (find _ (users w)) as [user|] eqn:Hu; run in H.
  2: { inversion H; subst. now apply levelSame_kept, levelSame_refl. }
  destruct (negb (xpChange =? 0)).
  2: { inversion H; subst. now apply levelSame_kept, levelSame_refl. }
  saved H Sv. inversion H; subst.
  levels w (userById_loaded _ _ Hu) Sv ;
    intros (_ & _ & _ & _ & _ & _ & K).
  apply K; apply raise_only.
Qed.

Lemma post_user_hell_week_levelKept (userId : ObjectId) (action : string)
    (tStart tNow : Z) (w w' : World) (r : Response) :
  post_user_hell_week userId action tStart tNow w = Some (r, w') -> levelKept w w'.
Proof.
  unfold post_user_hell_week. intros H. run in H.
  destruct (find _ (users w)) as [user|] eqn:Hu; run in H.
  2: { inversion H; subst. now apply levelSame_kept, levelSame_refl. }
  pose proof (userById_loaded _ _ Hu) as Hl.
  destruct (action =? "start")%string.
  { destruct (isActive (hellWeek user)).
    { inversion H; subst. now apply levelSame_kept, levelSame_refl. }
    destruct (or_else (level user) 1 <? 4).
    { inversion H; subst. now apply levelSame_kept, levelSame_refl. }
    saved H Sv. inversion H; subst.
    levels w Hl Sv ;
    intros (_ & _ & _ & _ & _ & K & _).
    apply levelSame_kept, K. reflexivity. }
  destruct (action =? "surrender")%string.
  { saved H Sv. inversion H; subst.
    levels w Hl Sv ;
    intros (_ & _ & _ & _ & _ & K & _).
    apply levelSame_kept, K. reflexivity. }
  destruct (action =? "fail")%string.
  { saved H Sv. inversion H; subst.
    levels w Hl Sv ;
    intros (_ & _ & _ & _ & _ & K & _).
    apply levelSame_kept, K. reflexivity. }
  destruct (action =? "complete")%string.
  { saved H Sv. inversion H; subst.
    levels w Hl Sv ;
    intros (_ & _ & _ & _ & _ & _ & K).
    apply K; apply raise_only. }
  inversion H; subst. now apply levelSame_kept, levelSame_refl.
Qed.

Lemma get_user_levelKept (id : ObjectId) (w w' : World) (r : Response) :
  get_user id w = Some (r, w') -> levelKept w w'.
Proof.
  unfold get_user. intros H. run in H.
  destruct (find _ (users w)) as [user|] eqn:Hu; run in H.
  2: { inversion H; subst. now apply levelSame_kept, levelSame_refl. }
  pose proof (userById_loaded _ _ Hu) as Hl.
  assert (Step : forall (w1 : World) (user1 : User.t),
            levelSame w w1 -> userById (User._id user1) w1 = Some user1 ->
            match
              (if calculateLevel (or_else (platformXp user1) 0) >? or_else (level user1) 1
               then
                 fun w0 : World =>
                 match User_save (User.with_level
                          (calculateLevel (or_else (platformXp user1) 0)) user1) w0 with
                 | Ret a w'0 => Ret (mkResponse 200 (JUser a)) w'0
                 | Throw _ e w'0 => Throw Response e w'0
                 | Hang => Hang
                 end
               else fun w0 : World => Ret (mkResponse 200 (JUser user1)) w0) w1
            with
            | Ret r0 w'0 => Some (r0, w'0)
            | Throw _ e w'0 => Some (mkResponse 500 (JError e), w'0)
            | Hang => None
            end = Some (r, w') -> levelKept w w').
  { intros w1 user1 A L1 H1.
    destruct (Z.gtb_spec (calculateLevel (or_else (platformXp user1) 0))
                (or_else (level user1) 1)) as [Hgt|Hle].
    - saved H1 Sv. inversion H1; subst.
      levels w1 L1 Sv ;
    intros (_ & _ & _ & _ & _ & _ & K).
      apply (levelSame_then_kept A). cbn [level platformXp User.with_level] in K.
      rewrite or_else_zero in *.
      apply K; [|now right].
      unfold or_else in Hgt. destruct (Z.eqb_spec (level user1) 0); lia.
    - inversion H1; subst. now apply levelSame_kept. }
  destruct (lacksFriendCode user).
  - saved H Sv.
    levels w Hl Sv ;
    intros (Hid & _ & _ & _ & F & S1 & _).
    eapply Step; [ apply S1; reflexivity | | exact H ].
    rewrite Hid. exact F.
  - eapply Step; [ apply levelSame_refl; reflexivity | exact Hl | exact H ].
Qed.

(** X15. On [server.js] the claim of C2 holds: after a habit toggle, a Hell
    Week action or a get-user, every stored level is at least what it was,
    and is either what it was or the level derived from the stored XP. *)
Lemma server_level_never_decreases
    (toUpperCase : string -> string) (req : Server.Request)
    (w w' : World) (r : Response) :
  recomputesLevel req = true ->
  Server.app toUpperCase req w = Some (r, w') ->
  levelKept w w'.
Proof.
  intros Hc H. destruct req; simpl in Hc; try discriminate; simpl in H.
  - eapply post_habits_toggle_levelKept; eassumption.
  - eapply post_user_hell_week_levelKept; eassumption.
  - eapply get_user_levelKept; eassumption.
Qed.

(* ------------------------------------------------------------------ *)
(** ** Accepting a battle *)

(** [server.js]: an accept through the record [mine] makes both records of
    the battle [active] and visible, with the one start date; this is what
    brings the creator's record, hidden at creation, back to the habit list. *)
Lemma respond_accept_shows_both
    (w : World) (g : ObjectId) (mine theirs : Habit.t) (now : Z) :
  BattlePair w g mine theirs ->
  exists r w',
    post_battles_respond (Habit._id mine) "accept" now w = Some (r, w') /\
    habitById (Habit._id mine) w' = Some (Habit.with_accept now mine) /\
    habitById (Habit._id theirs) w' = Some (Habit.with_accept now theirs) /\
    users w' = users w.
Proof.
  intros BP. pose proof (BattlePair_counterpart BP) as Hopp.
  destruct BP as [Hm Ht Hd Gm Gt Only Hp]. unfold habitById in *.
  unfold post_battles_respond. run. rewrite Hm. run. rewrite Hopp. run.
  cbn [String.eqb Ascii.eqb Bool.eqb]. run.
  do 2 eexists. split; [reflexivity|]. cbn [habits users]. repeat split.
  - apply (find_replace_same Habit._id (Habit.with_accept now mine) (a0 := mine)).
    unfold replaceHabit.
    rewrite (find_replace_other Habit._id (Habit.with_accept now theirs))
      by (simpl; congruence).
    exact Hm.
  - unfold replaceHabit at 1.
    rewrite (find_replace_other Habit._id (Habit.with_accept now mine))
      by (simpl; congruence).
    apply (find_replace_same Habit._id (Habit.with_accept now theirs) (a0 := theirs)).
    exact Ht.
Qed.

(* ------------------------------------------------------------------ *)
(** ** Leveling policy: the level read off the table *)

(** X1. [calculateLevel] answers a level between 1 and 12, and the level
    is above [k] exactly when the XP has reached the threshold of index
    [k] of the table (100 for level 2, ..., 20000 for level 12); below 100,
    negative XP included, the level is 1. *)
Theorem calculateLevel_reads_table (xp : Z) :
  1 <= calculateLevel xp <= 12 /\
  (forall k, (1 <= k <= 11)%nat ->
     (Z.of_nat k + 1 <= calculateLevel xp <-> nth k LEVEL_THRESHOLDS 0 <= xp)) /\
  (calculateLevel xp = 1 <-> xp < 100).
Proof.
  unfold calculateLevel, LEVEL_THRESHOLDS. cbn [tl levelLoop].
  repeat match goal with
         | |- context [?a >=? ?b] => destruct (Z.geb_spec a b)
         end;
    cbn [Z.add Pos.add Pos.succ];
    (split; [lia | split; [| lia]]);
    intros k Hk;
    do 12 (destruct k as [|k]; [cbn [nth Z.of_nat]; try lia|]);
    lia.
Qed.

(* ------------------------------------------------------------------ *)
(** ** The completion ledger: what a toggle does to [completedDates] *)

Lemma toggleLedger_dates (habit : Habit.t) (date : string) (now : Z) :
  completedDates (fst (toggleLedger habit date now))
    = sort (if indexOf date (completedDates habit) >? -1
            then splice1 (indexOf date (completedDates habit)) (completedDates habit)
            else completedDates habit ++ [date]) /\
  currentStreak (fst (toggleLedger habit date now))
    = Z.of_nat (List.length (completedDates (fst (toggleLedger habit date now)))).
Proof.
  unfold toggleLedger.
  destruct (indexOf date (completedDates habit) >? -1);
    destruct (truthyEntry _); cbn [negb];
    try destruct (grantedAtOf _) as [grantedAt|];
    try destruct (now - grantedAt <? UNDO_WINDOW_MS);
    split; reflexivity.
Qed.

Lemma insertSorted_HdRel (a x : string) (l : list string) :
  String.leb a x = true ->
  HdRel (fun s t => String.leb s t = true) a l ->
  HdRel (fun s t => String.leb s t = true) a (insertSorted x l).
Proof.
  intros Hax Hal. destruct l as [|y l]; simpl.
  - now constructor.
  - destruct (String.leb x y); constructor; [assumption|].
    now inversion Hal.
Qed.

Lemma insertSorted_sorted (x : string) (l : list string) :
  Sorted (fun s t => String.leb s t = true) l ->
  Sorted (fun s t => String.leb s t = true) (insertSorted x l).
Proof.
  induction l as [|y l IH]; intros Hs; simpl.
  - repeat constructor.
  - destruct (String.leb x y) eqn:E.
    + constructor; [assumption | now constructor].
    + inversion Hs; subst. constructor; [now apply IH|].
      apply insertSorted_HdRel; [|assumption].
      destruct (String.leb_total x y) as [H|H]; congruence.
Qed.

Lemma sort_sorted (l : list string) :
  Sorted (fun s t => String.leb s t = true) (sort l).
Proof.
  induction l as [|x l IH]; simpl; [constructor|].
  now apply insertSorted_sorted.
Qed.

Lemma NoDup_push (x : string) (l : list string) :
  NoDup l -> ~ In x l -> NoDup (l ++ [x]).
Proof.
  intros Hnd Hn. apply (Permutation_NoDup (l := x :: l)).
  - apply Permutation_cons_append.
  - now constructor.
Qed.

(** X2. Whatever the habit, the date and the clock, the habit saved by a
    toggle has its [completedDates] in ascending order and its
    [currentStreak] equal to their number; and if the dates were without
    duplicates before, they are without duplicates after. *)
Theorem toggle_keeps_dates_sorted_and_distinct
    (habit : Habit.t) (date : string) (now : Z) :
  let saved := fst (toggleLedger habit date now) in
  Sorted (fun s t => String.leb s t = true) (completedDates saved) /\
  currentStreak saved = Z.of_nat (List.length (completedDates saved)) /\
  (NoDup (completedDates habit) -> NoDup (completedDates saved)).
Proof.
  intros saved. subst saved.
  destruct (toggleLedger_dates habit date now) as [Ed Es].
  split; [rewrite Ed; apply sort_sorted|]. split; [exact Es|].
  intros Hnd. rewrite Ed.
  destruct (in_dec string_dec date (completedDates habit)) as [Hin|Hn].
  - destruct (indexOf_present _ _ Hin) as (l1 & l2 & E & _ & Hi & Hs).
    rewrite Hi, Hs. rewrite E in Hnd. apply NoDup_remove_1 in Hnd.
    apply (Permutation_NoDup (l := l1 ++ l2)); [symmetry; apply sort_perm | exact Hnd].
  - rewrite (indexOf_absent _ _ Hn).
    apply (Permutation_NoDup (l := completedDates habit ++ [date]));
      [symmetry; apply sort_perm | now apply NoDup_push].
Qed.

(** X3. On a habit whose dates are without duplicates, a toggle flips the
    date it is given (completed after exactly when it was not before) and
    leaves every other date as it was. *)
Theorem toggle_flips_the_date_only
    (habit : Habit.t) (date : string) (now : Z) :
  NoDup (completedDates habit) ->
  let saved := fst (toggleLedger habit date now) in
  (In date (completedDates saved) <-> ~ In date (completedDates habit)) /\
  (forall other, other <> date ->
     (In other (completedDates saved) <-> In other (completedDates habit))).
Proof.
  intros Hnd saved. subst saved.
  destruct (toggleLedger_dates habit date now) as [Ed _]. rewrite Ed.
  destruct (in_dec string_dec date (completedDates habit)) as [Hin|Hn].
  - destruct (indexOf_present _ _ Hin) as (l1 & l2 & E & Hn1 & Hi & Hs).
    rewrite Hi, Hs. rewrite E in Hnd.
    pose proof (NoDup_split_absent _ _ _ Hnd) as Hout.
    split.
    + rewrite sort_In. tauto.
    + intros other Hne. rewrite sort_In, E, !in_app_iff. simpl.
      intuition congruence.
  - rewrite (indexOf_absent _ _ Hn). split.
    + rewrite sort_In, in_app_iff. simpl. tauto.
    + intros other Hne. rewrite sort_In, in_app_iff. simpl.
      intuition congruence.
Qed.

Lemma toggle_flips_the_date_only_witness :
  let habit :=
    Habit.mk 1 7 "run" ["2024-04-30"; "2024-05-01"] [] 2 0 None None solo active 7
      None None true in
  ~ In "2024-05-01" (completedDates (fst (toggleLedger habit "2024-05-01" 0))) /\
  In "2024-04-30" (completedDates (fst (toggleLedger habit "2024-05-01" 0))).
Proof.
  intros habit.
  assert (Hnd : NoDup (completedDates habit)).
  { simpl. repeat constructor; simpl; intuition discriminate. }
  destruct (toggle_flips_the_date_only habit "2024-05-01" 0 Hnd) as [A B].
  split.
  - intros H. apply A in H. apply H. simpl. tauto.
  - apply B; [discriminate | simpl; tauto].
Defined.

(* ------------------------------------------------------------------ *)
(** ** The completion ledger: when XP is paid and when it is refunded *)

Lemma toggleLedger_effect (habit : Habit.t) (date : string) (now : Z) :
  (xpGrantedDates (fst (toggleLedger habit date now)), snd (toggleLedger habit date now))
  = if indexOf date (completedDates habit) >? -1 then
      match find (grantMatches date) (xpGrantedDates habit) with
      | Some (GrantObj _ (Some grantedAt)) =>
          if now - grantedAt <? UNDO_WINDOW_MS
          then (filter (fun e => negb (grantMatches date e)) (xpGrantedDates habit), -15)
          else (xpGrantedDates habit, 0)
      | _ => (xpGrantedDates habit, 0)
      end
    else if truthyEntry (find (grantMatches date) (xpGrantedDates habit))
         then (xpGrantedDates habit, 0)
         else (xpGrantedDates habit ++ [GrantObj date (Some now)], 15).
Proof.
  unfold toggleLedger.
  destruct (indexOf date (completedDates habit) >? -1);
    destruct (find (grantMatches date) (xpGrantedDates habit)) as [[s|d [t|]]|];
    cbn [truthyEntry grantedAtOf negb];
    try destruct (negb (String.eqb s "")); cbn [negb];
    try destruct (now - t <? UNDO_WINDOW_MS);
    reflexivity.
Qed.

Lemma stamped_found (habit : Habit.t) (date : string) (e : Grant) :
  stampedGrants habit = true ->
  find (grantMatches date) (xpGrantedDates habit) = Some e ->
  exists grantedAt, e = GrantObj date (Some grantedAt).
Proof.
  unfold stampedGrants. intros Hs Hf. apply find_some in Hf. destruct Hf as [Hin M].
  pose proof (proj1 (forallb_forall _ _) Hs e Hin) as St.
  destruct e as [s|d [t|]]; try discriminate St.
  cbn in M. apply String.eqb_eq in M. subst d. eauto.
Qed.

(** A toggle hands on what the schema stores: records with a date and a
    [grantedAt]. *)
Lemma toggleLedger_stamped (habit : Habit.t) (date : string) (now : Z) :
  stampedGrants habit = true ->
  stampedGrants (fst (toggleLedger habit date now)) = true.
Proof.
  unfold stampedGrants. intros Hs.
  pose proof (toggleLedger_effect habit date now) as E.
  destruct (toggleLedger habit date now) as [habit1 x]. cbn [fst snd] in *.
  assert (F : forallb stamped
                (filter (fun e => negb (grantMatches date e)) (xpGrantedDates habit)) = true).
  { apply forallb_forall. intros e He. apply filter_In in He. destruct He as [He _].
    exact (proj1 (forallb_forall _ _) Hs e He). }
  assert (P : forallb stamped (xpGrantedDates habit ++ [GrantObj date (Some now)]) = true).
  { rewrite forallb_app, Hs. reflexivity. }
  destruct (indexOf date (completedDates habit) >? -1).
  - destruct (find (grantMatches date) (xpGrantedDates habit)) as [[s|d [t|]]|];
      try destruct (now - t <? UNDO_WINDOW_MS);
      injection E as Eg _; rewrite Eg; assumption.
  - destruct (truthyEntry _); injection E as Eg _; rewrite Eg; assumption.
Qed.

(** X4. On a habit whose grant records are as the schema stores them
    (each with its date and [grantedAt]), the XP change a toggle signals is
    -15, 0 or 15. It is -15 exactly when the date was completed and the
    grant record of the date is less than 60 s old (one of exactly 60 s is
    not refunded); it is 15 exactly when the date was not completed and has
    no grant record. The records of the habit that is saved are again as
    the schema stores them. *)
Theorem toggle_pays_and_refunds_exactly
    (habit : Habit.t) (date : string) (now : Z) :
  stampedGrants habit = true ->
  let xpChange := snd (toggleLedger habit date now) in
  (xpChange = -15 \/ xpChange = 0 \/ xpChange = 15) /\
  (xpChange = -15 <->
     In date (completedDates habit) /\
     exists grantedAt,
       find (grantMatches date) (xpGrantedDates habit)
         = Some (GrantObj date (Some grantedAt)) /\
       now - grantedAt < UNDO_WINDOW_MS) /\
  (xpChange = 15 <->
     ~ In date (completedDates habit) /\
     find (grantMatches date) (xpGrantedDates habit) = None) /\
  stampedGrants (fst (toggleLedger habit date now)) = true.
Proof.
  intros Hs xpChange. subst xpChange.
  pose proof (@toggleLedger_stamped habit date now Hs) as St.
  pose proof (toggleLedger_effect habit date now) as E.
  destruct (toggleLedger habit date now) as [habit1 x]. cbn [fst snd] in *.
  assert (Cases :
    (In date (completedDates habit) /\
       exists t, find (grantMatches date) (xpGrantedDates habit)
                   = Some (GrantObj date (Some t)) /\
                 ((now - t < UNDO_WINDOW_MS /\ x = -15) \/
                  (UNDO_WINDOW_MS <= now - t /\ x = 0))) \/
    (In date (completedDates habit) /\
       find (grantMatches date) (xpGrantedDates habit) = None /\ x = 0) \/
    (~ In date (completedDates habit) /\
       (exists t, find (grantMatches date) (xpGrantedDates habit)
                    = Some (GrantObj date (Some t))) /\ x = 0) \/
    (~ In date (completedDates habit) /\
       find (grantMatches date) (xpGrantedDates habit) = None /\ x = 15)).
  { destruct (find (grantMatches date) (xpGrantedDates habit)) as [e|] eqn:F.
    - destruct (@stamped_found habit date e Hs F) as (t & ->).
      cbn [truthyEntry] in E.
      destruct (in_dec string_dec date (completedDates habit)) as [Hin|Hn].
      + destruct (indexOf_present _ _ Hin) as (_ & _ & _ & _ & Hi & _).
        rewrite Hi in E. left. split; [exact Hin|]. exists t. split; [reflexivity|].
        destruct (Z.ltb_spec (now - t) UNDO_WINDOW_MS) as [Hlt|Hge];
          inversion E; subst; [left | right]; split; auto.
      + rewrite (indexOf_absent _ _ Hn) in E. inversion E; subst.
        right. right. left. split; [exact Hn|]. split; [eauto | reflexivity].
    - cbn [truthyEntry] in E.
      destruct (in_dec string_dec date (completedDates habit)) as [Hin|Hn].
      + destruct (indexOf_present _ _ Hin) as (_ & _ & _ & _ & Hi & _).
        rewrite Hi in E. inversion E; subst. right. left. auto.
      + rewrite (indexOf_absent _ _ Hn) in E. inversion E; subst.
        right. right. right. auto. }
  split; [|split; [|split; [|exact St]]].
  - destruct Cases as [(_ & t & _ & [[_ ->]|[_ ->]])|[(_ & _ & ->)|[(_ & _ & ->)|(_ & _ & ->)]]];
      lia.
  - split.
    + intros X.
      destruct Cases as [(Hin & t & Hq & [[Hlt _]|[_ X0]])
                        |[(_ & _ & X0)|[(_ & _ & X0)|(_ & _ & X0)]]];
        try lia.
      split; [exact Hin|]. exists t. auto.
    + intros (Hin & t & Hq & Hlt).
      destruct Cases as [(_ & t' & Hq' & [[_ X0]|[Hge _]])
                        |[(_ & Hn & _)|[(Hn & _)|(Hn & _)]]];
        try assumption; try contradiction; try congruence.
      rewrite Hq in Hq'. inversion Hq'; subst. lia.
  - split.
    + intros X.
      destruct Cases as [(Hin & t & Hq & [[_ X0]|[_ X0]])
                        |[(_ & _ & X0)|[(_ & _ & X0)|(Hn & Hf & _)]]];
        try lia.
      split; assumption.
    + intros (Hn & Hf).
      destruct Cases as [(Hin & _)|[(Hin & _)|[(_ & (t & Hq) & _)|(_ & _ & X0)]]];
        try assumption; try contradiction; congruence.
Qed.

Lemma toggle_pays_and_refunds_exactly_witness :
  let habit :=
    Habit.mk 1 7 "run" ["2024-05-01"] [GrantObj "2024-05-01" (Some 5000)]
      1 0 None None solo active 7 None None true in
  snd (toggleLedger habit "2024-05-01" 64999) = -15 /\
  snd (toggleLedger habit "2024-05-01" 65000) <> -15.
Proof.
  intros habit.
  destruct (@toggle_pays_and_refunds_exactly habit "2024-05-01" 64999 eq_refl)
    as (_ & [_ Refund] & _).
  destruct (@toggle_pays_and_refunds_exactly habit "2024-05-01" 65000 eq_refl)
    as (_ & [Late _] & _).
  split.
  - apply Refund. split; [simpl; tauto|]. exists 5000. split; [reflexivity|].
    unfold UNDO_WINDOW_MS. lia.
  - intros X. destruct (Late X) as (_ & t & Hq & Ht).
    vm_compute in Hq. injection Hq as <-. unfold UNDO_WINDOW_MS in Ht. lia.
Defined.

Lemma find_none_filter (A : Type) (f : A -> bool) (l : list A) :
  find f l = None -> filter f l = [].
Proof.
  induction l as [|a l IH]; simpl; [reflexivity|].
  destruct (f a); [discriminate | exact IH].
Qed.

Lemma find_some_filter (A : Type) (f : A -> bool) (l : list A) (a : A) :
  find f l = Some a -> (1 <= List.length (filter f l))%nat.
Proof.
  induction l as [|b l IH]; simpl; [discriminate|].
  destruct (f b); simpl; [lia | exact IH].
Qed.

Lemma filter_filtered_out (A : Type) (f : A -> bool) (l : list A) :
  filter f (filter (fun a => negb (f a)) l) = [].
Proof.
  induction l as [|a l IH]; simpl; [reflexivity|].
  destruct (f a) eqn:E; simpl; [exact IH | now rewrite E].
Qed.

(** One toggle: the XP signalled is 15 times the change in the number of
    grant records of the date, which stays at most one. *)
Lemma toggle_xp_is_grant_change (habit : Habit.t) (date : string) (now : Z) :
  stampedGrants habit = true ->
  grantCount date habit <= 1 ->
  snd (toggleLedger habit date now)
    = 15 * (grantCount date (fst (toggleLedger habit date now)) - grantCount date habit) /\
  grantCount date (fst (toggleLedger habit date now)) <= 1.
Proof.
  unfold grantCount. intros Hs Hc.
  pose proof (toggleLedger_effect habit date now) as E.
  assert (Found : forall e, find (grantMatches date) (xpGrantedDates habit) = Some e ->
                            exists t, e = GrantObj date (Some t)).
  { intros e. apply stamped_found. exact Hs. }
  destruct (toggleLedger habit date now) as [habit1 x]. cbn [fst snd] in *.
  set (grants := xpGrantedDates habit) in *.
  destruct (indexOf date (completedDates habit) >? -1).
  - destruct (find (grantMatches date) grants) as [e|] eqn:F.
    + pose proof (find_some_filter _ _ F) as G.
      destruct (Found e eq_refl) as (t & ->).
      destruct (now - t <? UNDO_WINDOW_MS);
        injection E as Eg Ex; rewrite Eg, Ex; try lia.
      rewrite filter_filtered_out. cbn [List.length Z.of_nat]. lia.
    + injection E as Eg Ex. rewrite Eg, Ex. lia.
  - destruct (find (grantMatches date) grants) as [e|] eqn:F.
    + destruct (Found e eq_refl) as (t & ->). cbn [truthyEntry] in E.
      injection E as Eg Ex. rewrite Eg, Ex. lia.
    + cbn [truthyEntry] in E. injection E as Eg Ex. rewrite Eg, Ex.
      rewrite filter_app, (find_none_filter _ _ F) in *.
      cbn [filter grantMatches]. rewrite String.eqb_refl.
      cbn [List.length List.app]. lia.
Qed.

(** X5. XP is paid at most once per date, however often the date is
    toggled: on a habit whose grant records are as the schema stores them,
    with at most one record for the date, any run of toggles at any clock
    readings signals in total 15 times the change in the number of grant
    records of the date, and ends with at most one record; so the total
    lies between -15 and 15, and between 0 and 15 when the date had no
    record to start with. *)
Theorem repeated_toggles_pay_once
    (habit : Habit.t) (date : string) (times : list Z) :
  stampedGrants habit = true ->
  grantCount date habit <= 1 ->
  let final := fst (toggleMany habit date times) in
  let total := snd (toggleMany habit date times) in
  total = 15 * (grantCount date final - grantCount date habit) /\
  0 <= grantCount date final <= 1 /\
  -15 <= total <= 15 /\
  (grantCount date habit = 0 -> 0 <= total) /\
  stampedGrants final = true.
Proof.
  intros Hs Hc final total. subst final total.
  assert (Main : snd (toggleMany habit date times)
                 = 15 * (grantCount date (fst (toggleMany habit date times))
                         - grantCount date habit) /\
                 grantCount date (fst (toggleMany habit date times)) <= 1 /\
                 stampedGrants (fst (toggleMany habit date times)) = true).
  { revert habit Hs Hc. induction times as [|now rest IH]; intros habit Hs Hc.
    - cbn [toggleMany fst snd]. split; [lia|]. split; assumption.
    - cbn [toggleMany].
      destruct (@toggle_xp_is_grant_change habit date now Hs Hc) as [S1 C1].
      pose proof (@toggleLedger_stamped habit date now Hs) as St1.
      destruct (toggleLedger habit date now) as [habit1 x]. cbn [fst snd] in *.
      specialize (IH habit1 St1 C1).
      destruct (toggleMany habit1 date rest) as [habit2 total]. cbn [fst snd] in *.
      destruct IH as (I1 & I2 & I3). split; [lia|]. split; assumption. }
  assert (0 <= grantCount date (fst (toggleMany habit date times)))
    by (unfold grantCount; lia).
  assert (0 <= grantCount date habit) by (unfold grantCount; lia).
  destruct Main as (M1 & M2 & M3).
  repeat split; try assumption; lia.
Qed.

Lemma repeated_toggles_pay_once_witness :
  let habit := Habit.mk 1 7 "run" [] [] 0 0 None None solo active 7 None None true in
  snd (toggleMany habit "2024-05-01" [0; 100000; 200000; 300000; 300001]) = 15 /\
  0 <= snd (toggleMany habit "2024-05-01" [0; 100000; 200000]) <= 15.
Proof.
  intros habit.
  assert (Hs : stampedGrants habit = true) by reflexivity.
  assert (Hc : grantCount "2024-05-01" habit <= 1) by (vm_compute; discriminate).
  split.
  - reflexivity.
  - pose proof (@repeated_toggles_pay_once habit "2024-05-01" [0; 100000; 200000] Hs Hc)
      as (_ & _ & B & Z0 & _).
    split; [apply Z0; reflexivity | apply B].
Defined.

(* ------------------------------------------------------------------ *)
(** ** The toggle route stores what its ledger computes *)



(* ------------------------------------------------------------------ *)
(** ** Creating a habit: the solo case and the refused request *)

(** X6. A create-habit request without a partner, with an owner and a
    name, is answered 201 and appends one record: a [solo] habit, [active],
    with no partner and no group token, whatever the body says of type or
    status; its duration is the request's, 7 when absent or 0. [server.js]
    stores it visible whatever the body says; [api/index.js] stores the
    body's [isVisible], [true] when the body has none. *)
Theorem create_solo_habit
    (w : World) (owner : ObjectId) (battleDuration : option Z)
    (habitData : Habit.Fields) (nm : string) :
  f_userId habitData = Some owner ->
  Habit.requiredString (f_name habitData) = Some nm ->
  exists ws wa hs ha,
    Server.post_habits None battleDuration habitData w
      = Some (mkResponse 201 (JHabit hs), ws) /\
    Api.post_habits None battleDuration habitData w
      = Some (mkResponse 201 (JHabit ha), wa) /\
    habits ws = habits w ++ [hs] /\ users ws = users w /\
    habits wa = habits w ++ [ha] /\ users wa = users w /\
    Habit._id hs = nextOid w /\ Habit.userId hs = owner /\ Habit.name hs = nm /\
    Habit.type hs = solo /\ Habit.battleStatus hs = active /\
    Habit.partnerId hs = None /\ Habit.sharedGroupId hs = None /\
    Habit.battleDuration hs = or_else (Habit.default battleDuration 0) 7 /\
    Habit.isVisible hs = true /\
    Habit.isVisible ha = Habit.default (f_isVisible habitData) true /\
    ha = Habit.mk (Habit._id hs) (Habit.userId hs) (Habit.name hs)
           (completedDates hs) (xpGrantedDates hs) (currentStreak hs)
           (longestStreak hs) (partnerId hs) (sharedGroupId hs) (type hs)
           (battleStatus hs) (Habit.battleDuration hs) (battleStartDate hs)
           (battleWinner hs) (Habit.isVisible ha).
Proof.
  intros Hu Hn.
  unfold Server.post_habits, Api.post_habits. run. validated. rewrite Hu, Hn. run.
  do 4 eexists.
  split; [reflexivity|]. split; [reflexivity|].
  cbn. repeat match goal with |- _ /\ _ => split end; reflexivity.
Qed.

Lemma create_solo_habit_witness :
  let habitData :=
    mkFields (Some 7%nat) (Some "run") None None None None None None (Some battle)
      (Some completed) None None None (Some false) in
  let w := mkWorld [] [] 10 [] [] in
  exists ws hs,
    Server.post_habits None (Some 0) habitData w
      = Some (mkResponse 201 (JHabit hs), ws) /\
    Habit.type hs = solo /\ Habit.battleStatus hs = active /\
    Habit.isVisible hs = true /\ Habit.battleDuration hs = 7.
Proof.
  intros habitData w.
  destruct (@create_solo_habit w 7 (Some 0) habitData "run" eq_refl eq_refl)
    as (ws & wa & hs & ha & A & _ & _ & _ & _ & _ & _ & _ & _ & T & S & _ & _ & D & V & _).
  exists ws, hs. repeat split; assumption.
Defined.

(** X7. A create-habit request whose body has no owner, or no name or
    an empty one, is refused by the validation of the first document: both
    copies answer 400 and store nothing, with or without a partner; the
    users, the habits and the write log are what they were. *)
Theorem create_habit_without_owner_or_name_is_refused
    (w : World) (partnerId : option ObjectId) (battleDuration : option Z)
    (habitData : Habit.Fields) :
  f_userId habitData = None \/ Habit.requiredString (f_name habitData) = None ->
  exists rs ws ra wa,
    Server.post_habits partnerId battleDuration habitData w = Some (rs, ws) /\
    Api.post_habits partnerId battleDuration habitData w = Some (ra, wa) /\
    statusCode rs = 400%nat /\ statusCode ra = 400%nat /\
    users ws = users w /\ habits ws = habits w /\ writes ws = writes w /\
    users wa = users w /\ habits wa = habits w /\ writes wa = writes w.
Proof.
  intros Missing.
  unfold Server.post_habits, Api.post_habits.
  destruct (f_userId habitData) as [owner|] eqn:Hu;
    destruct (Habit.requiredString (f_name habitData)) as [nm|] eqn:Hn;
    try (destruct Missing; discriminate);
    destruct partnerId as [partner|];
    run; validated; rewrite ?Hu, ?Hn; run;
    do 4 eexists; (split; [reflexivity|]); (split; [reflexivity|]);
    cbn [users habits writes statusCode]; repeat split.
Qed.

Lemma create_habit_without_owner_or_name_is_refused_witness :
  let habitData :=
    mkFields (Some 7%nat) (Some "") None None None None None None None None
      None None None None in
  let w := mkWorld [] [] 10 [] [] in
  exists rs ws,
    Server.post_habits (Some 9%nat) None habitData w = Some (rs, ws) /\
    statusCode rs = 400%nat /\ habits ws = [].
Proof.
  intros habitData w.
  destruct (@create_habit_without_owner_or_name_is_refused w (Some 9%nat) None habitData)
    as (rs & ws & _ & _ & A & _ & B & _ & _ & C & _).
  - right. reflexivity.
  - exists rs, ws. split; [exact A|]. split; [exact B|]. exact C.
Defined.

(* ------------------------------------------------------------------ *)
(** ** Battles: accept, reject, cancel *)

Lemma BattlePair_example :
  let mine := Habit.mk 1 7 "run" [] [] 0 0 (Some 9%nat) (Some 3%nat) battle
                Habit.pending 7 None None false in
  let theirs := Habit.mk 2 9 "run" [] [] 0 0 (Some 7%nat) (Some 3%nat) battle
                  waiting 7 None None false in
  BattlePair (mkWorld [] [theirs; mine] 10 [] []) 3 mine theirs.
Proof.
  intros mine theirs. constructor; try reflexivity.
  - simpl. discriminate.
  - simpl. intros h [<-|[<-|[]]] _; auto.
Qed.

Lemma respond_accept_shows_both_witness :
  let mine := Habit.mk 1 7 "run" [] [] 0 0 (Some 9%nat) (Some 3%nat) battle
                Habit.pending 7 None None false in
  let theirs := Habit.mk 2 9 "run" [] [] 0 0 (Some 7%nat) (Some 3%nat) battle
                  waiting 7 None None false in
  let w := mkWorld [] [theirs; mine] 10 [] [] in
  exists r w' creators,
    post_battles_respond 1 "accept" 5000 w = Some (r, w') /\
    habitById 2 w' = Some creators /\
    Habit.isVisible creators = true /\ Habit.battleStatus creators = active /\
    Habit.battleStartDate creators = Some 5000.
Proof.
  intros mine theirs w.
  destruct (@respond_accept_shows_both w 3 mine theirs 5000 BattlePair_example)
    as (r & w' & A & _ & B & _).
  exists r, w', (Habit.with_accept 5000 theirs).
  split; [exact A|]. split; [exact B|]. repeat split.
Defined.

Lemma find_filter_keeps (A : Type) (P Q : A -> bool) (l : list A) :
  (forall x, P x = true -> Q x = true) ->
  find P (filter Q l) = find P l.
Proof.
  intros PQ. induction l as [|a l IH]; simpl; [reflexivity|].
  destruct (Q a) eqn:Qa; simpl.
  - destruct (P a); [reflexivity | exact IH].
  - destruct (P a) eqn:Pa; [|exact IH].
    apply PQ in Pa. congruence.
Qed.

(** X9. [server.js]: a reject through the record [mine] of a battle
    answers 200, deletes that record and leaves the other record stored
    with status [rejected] (nothing else of it changes); the users are not
    touched. *)
Theorem respond_reject_deletes_mine_marks_theirs
    (w : World) (g : ObjectId) (mine theirs : Habit.t) (now : Z) :
  BattlePair w g mine theirs ->
  exists w',
    post_battles_respond (Habit._id mine) "reject" now w
      = Some (mkResponse 200 (JMessage "Battle Rejected"), w') /\
    habitById (Habit._id mine) w' = None /\
    habitById (Habit._id theirs) w'
      = Some (Habit.with_battleStatus Habit.rejected theirs) /\
    (forall h, In h (habits w') ->
       h = Habit.with_battleStatus Habit.rejected theirs \/ In h (habits w)) /\
    users w' = users w.
Proof.
  intros BP. pose proof (BattlePair_counterpart BP) as Hopp.
  destruct BP as [Hm Ht Hd Gm Gt Only Hp]. unfold habitById in *.
  unfold post_battles_respond. run. rewrite Hm. run. rewrite Hopp. run.
  cbn [String.eqb Ascii.eqb Bool.eqb]. run.
  eexists. split; [reflexivity|]. cbn [habits users].
  pose proof (find_key Habit._id _ _ Hm) as [_ Hin].
  repeat match goal with |- _ /\ _ => split end; try reflexivity.
  - unfold replaceHabit.
    rewrite (find_replace_other Habit._id (Habit.with_battleStatus Habit.rejected theirs))
      by (simpl; congruence).
    apply find_filtered_out.
  - apply (find_replace_same Habit._id (Habit.with_battleStatus Habit.rejected theirs)
             (a0 := theirs)).
    cbn [Habit._id Habit.with_battleStatus].
    rewrite find_filter_keeps; [exact Ht|].
    intros x Hx. apply Nat.eqb_eq in Hx. apply negb_true_iff, Nat.eqb_neq. congruence.
  - intros h Hh. apply (In_replace Habit._id) in Hh.
    destruct Hh as [Hh|Hh]; [right | now left].
    apply filter_In in Hh. tauto.
Qed.

Lemma respond_reject_deletes_mine_marks_theirs_witness :
  let mine := Habit.mk 1 7 "run" [] [] 0 0 (Some 9%nat) (Some 3%nat) battle
                Habit.pending 7 None None false in
  let theirs := Habit.mk 2 9 "run" [] [] 0 0 (Some 7%nat) (Some 3%nat) battle
                  waiting 7 None None false in
  let w := mkWorld [] [theirs; mine] 10 [] [] in
  exists w',
    post_battles_respond 1 "reject" 5000 w
      = Some (mkResponse 200 (JMessage "Battle Rejected"), w') /\
    habitById 1 w' = None /\
    habitById 2 w' = Some (Habit.with_battleStatus Habit.rejected theirs).
Proof.
  intros mine theirs w.
  destruct (@respond_reject_deletes_mine_marks_theirs w 3 mine theirs 5000
              BattlePair_example) as (w' & A & B & C & _).
  exists w'. repeat split; assumption.
Defined.

Lemma find_all_false (A : Type) (P : A -> bool) (l : list A) :
  (forall x, In x l -> P x = false) -> find P l = None.
Proof.
  intros H. induction l as [|a l IH]; simpl; [reflexivity|].
  rewrite (H a) by now left. apply IH. intros x Hx. apply H. now right.
Qed.

Lemma filter_all_true (A : Type) (P : A -> bool) (l : list A) :
  (forall x, In x l -> P x = true) -> filter P l = l.
Proof.
  intros H. induction l as [|a l IH]; simpl; [reflexivity|].
  rewrite (H a) by now left. f_equal. apply IH. intros x Hx. apply H. now right.
Qed.

Lemma removeFirst_app_none (A : Type) (P : A -> bool) (l l' : list A) :
  find P l = None -> removeFirst P (l ++ l') = l ++ removeFirst P l'.
Proof.
  induction l as [|a l IH]; simpl; [reflexivity|].
  destruct (P a); [discriminate|]. intros H. now rewrite IH.
Qed.

(** In a store where ids and group tokens were handed out by the
    allocator, no stored habit has an id or a token that is still to come. *)
Lemma allocated_fresh (w : World) (n : nat) :
  idsAllocated w -> groupsAllocated w -> (nextOid w <= n)%nat ->
  (forall h, In h (habits w) -> Nat.eqb (Habit._id h) n = false) /\
  (forall h, In h (habits w) -> sameGroup (Some n) h = false).
Proof.
  intros Ids Grs Hn. split; intros h Hin.
  - apply Nat.eqb_neq. specialize (Ids h Hin). lia.
  - unfold sameGroup. destruct (Habit.sharedGroupId h) as [g|] eqn:E; [|reflexivity].
    apply Nat.eqb_neq. specialize (Grs h g Hin E). lia.
Qed.

(** The outcome of a battle creation, in full. *)
Lemma post_habits_battle (w : World) (partner creator : ObjectId)
    (battleDuration : option Z) (habitData : Habit.Fields) (nm : string) :
  f_userId habitData = Some creator ->
  Habit.requiredString (f_name habitData) = Some nm ->
  let shared h uid pid st :=
    Habit.mk h uid nm (Habit.default (f_completedDates habitData) [])
      (Habit.default (f_xpGrantedDates habitData) [])
      (Habit.default (f_currentStreak habitData) 0)
      (Habit.default (f_longestStreak habitData) 0)
      (Some pid) (Some (nextOid w)) battle st
      (or_else (Habit.default battleDuration 0) 7)
      (f_battleStartDate habitData) (f_battleWinner habitData) false in
  let mine := shared (S (nextOid w)) creator partner waiting in
  let theirs := shared (S (S (nextOid w))) partner creator Habit.pending in
  Server.post_habits (Some partner) battleDuration habitData w
    = Some (mkResponse 201 (JHabit mine),
            mkWorld (users w) (habits w ++ [mine; theirs]) (S (S (S (nextOid w))))
              (random w)
              (writes w ++ [HabitSaved (S (nextOid w)); HabitSaved (S (S (nextOid w)))])).
Proof.
  intros Hu Hn shared mine theirs. subst shared mine theirs.
  unfold Server.post_habits. run. validated. rewrite Hu, Hn. run.
  cbn. rewrite <- !app_assoc. reflexivity.
Qed.

(** X10. In a store whose ids and group tokens came from the allocator,
    creating a battle and then cancelling it through the creator's record
    is answered 201 and then 200, and leaves the habits collection exactly
    as it was before the creation: both records of the battle are gone, no
    other record is touched. *)
Theorem create_then_cancel_restores_habits
    (w : World) (partner creator : ObjectId) (battleDuration : option Z)
    (habitData : Habit.Fields) (nm : string) :
  idsAllocated w ->
  groupsAllocated w ->
  f_userId habitData = Some creator ->
  Habit.requiredString (f_name habitData) = Some nm ->
  exists mine w1 w2,
    Server.post_habits (Some partner) battleDuration habitData w
      = Some (mkResponse 201 (JHabit mine), w1) /\
    post_battles_cancel (Habit._id mine) w1
      = Some (mkResponse 200 (JMessage "Battle request cancelled"), w2) /\
    habits w2 = habits w /\
    users w2 = users w.
Proof.
  intros Ids Grs Hu Hn.
  pose proof (@post_habits_battle w partner creator battleDuration habitData nm Hu Hn) as C.
  cbv zeta in C.
  match type of C with _ = Some (mkResponse _ (JHabit ?m), ?w1) =>
    set (mine := m) in *; set (w1v := w1) in * end.
  exists mine, w1v. eexists. split; [exact C|].
  destruct (@allocated_fresh w (S (nextOid w)) Ids Grs ltac:(lia)) as [FreshId _].
  destruct (@allocated_fresh w (nextOid w) Ids Grs ltac:(lia)) as [_ FreshGroup].
  unfold post_battles_cancel, Habit_deleteOne, Habit_findByIdAndDelete. run.
  subst w1v. cbn [habits users Habit._id mine].
  rewrite (find_app_none _ _ _ (find_all_false _ _ FreshId)).
  cbn [find Habit._id]. rewrite Nat.eqb_refl. run.
  cbn [Habit.sharedGroupId Habit._id].
  assert (NoneBefore :
            find (fun h => sameGroup (Some (nextOid w)) h
                           && negb (Nat.eqb (Habit._id h) (S (nextOid w))))
                 (habits w) = None).
  { apply find_all_false. intros h Hin. cbv beta.
    apply andb_false_iff. left. exact (FreshGroup h Hin). }
  rewrite (find_app_none _ _ _ NoneBefore).
  rewrite (removeFirst_app_none _ _ _ NoneBefore).
  cbn [find removeFirst sameGroup Habit.sharedGroupId Habit._id].
  rewrite !Nat.eqb_refl.
  replace (Nat.eqb (S (S (nextOid w))) (S (nextOid w))) with false
    by (symmetry; apply Nat.eqb_neq; lia).
  cbn [andb negb]. run.
  split; [reflexivity|]. cbn [habits users]. split; [|reflexivity].
  rewrite filter_app. cbn [filter Habit._id]. rewrite Nat.eqb_refl. cbn [negb].
  rewrite app_nil_r. apply filter_all_true.
  intros h Hin. cbv beta. apply negb_true_iff. exact (FreshId h Hin).
Qed.

Lemma create_then_cancel_restores_habits_witness :
  let solo1 := Habit.mk 4 7 "read" [] [] 0 0 None None solo active 7 None None true in
  let habitData :=
    mkFields (Some 7%nat) (Some "run") None None None None None None None None
      None None None None in
  let w := mkWorld [] [solo1] 10 [] [] in
  exists mine w1 w2,
    Server.post_habits (Some 9%nat) None habitData w
      = Some (mkResponse 201 (JHabit mine), w1) /\
    post_battles_cancel (Habit._id mine) w1
      = Some (mkResponse 200 (JMessage "Battle request cancelled"), w2) /\
    habits w2 = [solo1].
Proof.
  intros solo1 habitData w.
  assert (Ids : idsAllocated w).
  { intros h [<-|[]]. simpl. lia. }
  assert (Grs : groupsAllocated w).
  { intros h g [<-|[]] E. discriminate E. }
  destruct (@create_then_cancel_restores_habits w 9 7 None habitData "run"
              Ids Grs eq_refl eq_refl) as (mine & w1 & w2 & A & B & C & _).
  exists mine, w1, w2. repeat split; assumption.
Defined.

(** The two records of a new battle are a battle pair, seen from either
    side, and the store is still one whose ids came from the allocator. *)
Lemma post_habits_battle_pair (w w1 : World) (partner creator : ObjectId)
    (battleDuration : option Z) (habitData : Habit.Fields) (nm : string)
    (mine : Habit.t) :
  idsAllocated w ->
  groupsAllocated w ->
  f_userId habitData = Some creator ->
  Habit.requiredString (f_name habitData) = Some nm ->
  Server.post_habits (Some partner) battleDuration habitData w
    = Some (mkResponse 201 (JHabit mine), w1) ->
  exists theirs,
    habits w1 = habits w ++ [mine; theirs] /\ users w1 = users w /\
    Habit.userId mine = creator /\ Habit.userId theirs = partner /\
    Habit.battleStatus mine = waiting /\ Habit.battleStatus theirs = Habit.pending /\
    Habit.isVisible mine = false /\ Habit.isVisible theirs = false /\
    BattlePair w1 (nextOid w) mine theirs /\
    BattlePair w1 (nextOid w) theirs mine /\
    idsAllocated w1 /\ groupsAllocated w1.
Proof.
  intros Ids Grs Hu Hn C.
  rewrite (@post_habits_battle w partner creator battleDuration habitData nm Hu Hn) in C.
  cbv zeta in C. injection C as Em Ew. subst mine w1.
  destruct (@allocated_fresh w (S (nextOid w)) Ids Grs ltac:(lia)) as [Fresh1 _].
  destruct (@allocated_fresh w (S (S (nextOid w))) Ids Grs ltac:(lia)) as [Fresh2 _].
  destruct (@allocated_fresh w (nextOid w) Ids Grs ltac:(lia)) as [_ FreshG].
  eexists. split; [reflexivity|]. cbn [users habits Habit.userId Habit.battleStatus
                                      Habit.isVisible].
  do 7 (split; [reflexivity|]).
  assert (Only : forall h,
             In h (habits w) -> Habit.sharedGroupId h = Some (nextOid w) -> False).
  { intros h Hin E. pose proof (FreshG h Hin) as F.
    unfold sameGroup in F. rewrite E, Nat.eqb_refl in F. discriminate. }
  split; [|split; [|split]].
  - constructor; unfold habitById; cbn [habits Habit._id Habit.sharedGroupId
                                         Habit.partnerId Habit.userId];
      try reflexivity.
    + rewrite (find_app_none _ _ _ (find_all_false _ _ Fresh1)).
      cbn [find Habit._id]. now rewrite Nat.eqb_refl.
    + rewrite (find_app_none _ _ _ (find_all_false _ _ Fresh2)).
      cbn [find Habit._id].
      replace (Nat.eqb (S (nextOid w)) (S (S (nextOid w)))) with false
        by (symmetry; apply Nat.eqb_neq; lia).
      now rewrite Nat.eqb_refl.
    + lia.
    + intros h Hin E. pose proof Hin as Hin'. apply in_app_iff in Hin'.
      destruct Hin' as [Hin'|[<-|[<-|[]]]]; simpl; auto.
      exfalso. eapply Only; eauto.
  - constructor; unfold habitById; cbn [habits Habit._id Habit.sharedGroupId
                                         Habit.partnerId Habit.userId];
      try reflexivity.
    + rewrite (find_app_none _ _ _ (find_all_false _ _ Fresh2)).
      cbn [find Habit._id].
      replace (Nat.eqb (S (nextOid w)) (S (S (nextOid w)))) with false
        by (symmetry; apply Nat.eqb_neq; lia).
      now rewrite Nat.eqb_refl.
    + rewrite (find_app_none _ _ _ (find_all_false _ _ Fresh1)).
      cbn [find Habit._id]. now rewrite Nat.eqb_refl.
    + lia.
    + intros h Hin E. pose proof Hin as Hin'. apply in_app_iff in Hin'.
      destruct Hin' as [Hin'|[<-|[<-|[]]]]; simpl; auto.
      exfalso. eapply Only; eauto.
  - intros h Hin. cbn [habits nextOid] in *. apply in_app_iff in Hin.
    destruct Hin as [Hin|[<-|[<-|[]]]]; simpl; try lia.
    specialize (Ids h Hin). lia.
  - intros h g0 Hin E. cbn [habits nextOid] in *. apply in_app_iff in Hin.
    destruct Hin as [Hin|[<-|[<-|[]]]]; simpl in E; try (inversion E; subst; lia).
    specialize (Grs h g0 Hin E). lia.
Qed.

(* ------------------------------------------------------------------ *)
(** ** Battles: what the listings show *)

Lemma get_habits_lists (userId : ObjectId) (w : World) :
  get_habits userId w
    = Some (Sent 200%nat
              (filter (fun h => Nat.eqb (Habit.userId h) userId && Habit.isVisible h
                                && negb (statusEqb (Habit.battleStatus h) completed))
                 (habits w)), w).
Proof. reflexivity. Qed.

Lemma get_battles_sent_lists (userId : ObjectId) (w : World) :
  get_battles_sent userId w
    = Some (Sent 200%nat
              (map (fun h => (h, populated (Habit.partnerId h) w))
                 (filter (fun h => Nat.eqb (Habit.userId h) userId
                                   && statusEqb (Habit.battleStatus h) waiting
                                   && isBattle h)
                    (habits w))), w).
Proof. reflexivity. Qed.

Lemma get_battles_requests_lists (userId : ObjectId) (w : World) :
  get_battles_requests userId w
    = Some (Sent 200%nat
              (map (fun h => (h, populated (Habit.partnerId h) w))
                 (filter (fun h => Nat.eqb (Habit.userId h) userId
                                   && statusEqb (Habit.battleStatus h) Habit.pending
                                   && isBattle h)
                    (habits w))), w).
Proof. reflexivity. Qed.

(** X8. [server.js], in a store whose ids and tokens came from the
    allocator: after a battle creation the invitee accepts through its own
    record; both records are then stored [active] and visible with the one
    start date, and [GET /habits] lists the creator's record for the
    creator and the invitee's record for the invitee. *)
Theorem create_then_accept_shows_both
    (w : World) (partner creator : ObjectId) (battleDuration : option Z)
    (habitData : Habit.Fields) (nm : string) (now : Z) :
  idsAllocated w ->
  groupsAllocated w ->
  f_userId habitData = Some creator ->
  Habit.requiredString (f_name habitData) = Some nm ->
  exists mine theirs w1 r2 w2 listCreator listPartner,
    Server.post_habits (Some partner) battleDuration habitData w
      = Some (mkResponse 201 (JHabit mine), w1) /\
    habits w1 = habits w ++ [mine; theirs] /\
    post_battles_respond (Habit._id theirs) "accept" now w1 = Some (r2, w2) /\
    habitById (Habit._id mine) w2 = Some (Habit.with_accept now mine) /\
    habitById (Habit._id theirs) w2 = Some (Habit.with_accept now theirs) /\
    get_habits creator w2 = Some (Sent 200%nat listCreator, w2) /\
    In (Habit.with_accept now mine) listCreator /\
    get_habits partner w2 = Some (Sent 200%nat listPartner, w2) /\
    In (Habit.with_accept now theirs) listPartner.
Proof.
  intros Ids Grs Hu Hn.
  pose proof (@post_habits_battle w partner creator battleDuration habitData nm Hu Hn) as C.
  cbv zeta in C.
  match type of C with _ = Some (mkResponse _ (JHabit ?m), ?w1) =>
    set (mine := m) in *; set (w1v := w1) in * end.
  destruct (@post_habits_battle_pair w w1v partner creator battleDuration habitData nm
              mine Ids Grs Hu Hn C)
    as (theirs & Eh & _ & Um & Ut & _ & _ & _ & _ & _ & BP & _).
  destruct (@respond_accept_shows_both w1v (nextOid w) theirs mine now BP)
    as (r2 & w2 & R & Ft & Fm & _).
  exists mine, theirs, w1v, r2, w2. do 2 eexists.
  split; [exact C|]. split; [exact Eh|]. split; [exact R|].
  split; [exact Fm|]. split; [exact Ft|].
  split; [apply get_habits_lists|]. split.
  { apply filter_In. split.
    - unfold habitById in Fm. apply find_some in Fm. exact (proj1 Fm).
    - cbn [Habit.userId Habit.isVisible Habit.battleStatus Habit.with_accept].
      rewrite Um, Nat.eqb_refl. reflexivity. }
  split; [apply get_habits_lists|].
  apply filter_In. split.
  - unfold habitById in Ft. apply find_some in Ft. exact (proj1 Ft).
  - cbn [Habit.userId Habit.isVisible Habit.battleStatus Habit.with_accept].
    rewrite Ut, Nat.eqb_refl. reflexivity.
Qed.

Lemma create_then_accept_shows_both_witness :
  let habitData :=
    mkFields (Some 7%nat) (Some "run") None None None None None None None None
      None None None None in
  let w := mkWorld [] [] 10 [] [] in
  exists mine theirs w1 r2 w2,
    Server.post_habits (Some 9%nat) None habitData w
      = Some (mkResponse 201 (JHabit mine), w1) /\
    post_battles_respond (Habit._id theirs) "accept" 5000 w1 = Some (r2, w2) /\
    habitById (Habit._id mine) w2 = Some (Habit.with_accept 5000 mine).
Proof.
  intros habitData w.
  assert (Ids : idsAllocated w) by (intros h []).
  assert (Grs : groupsAllocated w) by (intros h g []).
  destruct (@create_then_accept_shows_both w 9 7 None habitData "run" 5000
              Ids Grs eq_refl eq_refl)
    as (mine & theirs & w1 & r2 & w2 & l1 & l2 & A & _ & B & C & _).
  exists mine, theirs, w1, r2, w2. repeat split; assumption.
Defined.

(** X12. [server.js]: right after a battle creation the two new records
    are in nobody's [GET /habits] list (every user is answered the list of
    before); the creator's record is the new last entry of the creator's
    [GET /battles/sent], and the invitee's record the new last entry of the
    invitee's [GET /battles/requests], each with its partner populated. *)
Theorem new_battle_is_listed_as_sent_and_requested
    (w : World) (partner creator : ObjectId) (battleDuration : option Z)
    (habitData : Habit.Fields) (nm : string) :
  f_userId habitData = Some creator ->
  Habit.requiredString (f_name habitData) = Some nm ->
  exists mine theirs w1 sentBefore requestsBefore,
    Server.post_habits (Some partner) battleDuration habitData w
      = Some (mkResponse 201 (JHabit mine), w1) /\
    habits w1 = habits w ++ [mine; theirs] /\
    (forall user listed,
       get_habits user w = Some (Sent 200%nat listed, w) ->
       get_habits user w1 = Some (Sent 200%nat listed, w1)) /\
    get_battles_sent creator w = Some (Sent 200%nat sentBefore, w) /\
    get_battles_sent creator w1
      = Some (Sent 200%nat (sentBefore ++ [(mine, populated (Some partner) w)]), w1) /\
    get_battles_requests partner w = Some (Sent 200%nat requestsBefore, w) /\
    get_battles_requests partner w1
      = Some (Sent 200%nat (requestsBefore ++ [(theirs, populated (Some creator) w)]), w1).
Proof.
  intros Hu Hn.
  pose proof (@post_habits_battle w partner creator battleDuration habitData nm Hu Hn) as C.
  cbv beta zeta in C.
  match type of C with _ = Some (mkResponse _ (JHabit ?m), ?w1) =>
    set (mine := m) in *; set (w1v := w1) in * end.
  exists mine. eexists. exists w1v. do 2 eexists.
  split; [exact C|]. split; [reflexivity|].
  rewrite !get_battles_sent_lists, !get_battles_requests_lists.
  split; [|split; [reflexivity|split; [|split; [reflexivity|]]]].
  - intros user listed. rewrite !get_habits_lists. intros E.
    injection E as <-. subst w1v. cbn [habits].
    rewrite filter_app. cbn [filter Habit.userId Habit.isVisible mine].
    rewrite !andb_false_r. cbn [andb]. rewrite app_nil_r. reflexivity.
  - subst w1v. cbn [habits].
    rewrite filter_app, map_app.
    cbn [filter map Habit.userId Habit.battleStatus Habit.type Habit.partnerId
         mine isBattle statusEqb].
    rewrite Nat.eqb_refl, !andb_false_r. cbn [andb map]. reflexivity.
  - subst w1v. cbn [habits].
    rewrite filter_app, map_app.
    cbn [filter map Habit.userId Habit.battleStatus Habit.type Habit.partnerId
         mine isBattle statusEqb].
    rewrite Nat.eqb_refl, !andb_false_r. cbn [andb map]. reflexivity.
Qed.

Lemma new_battle_is_listed_as_sent_and_requested_witness :
  let habitData :=
    mkFields (Some 7%nat) (Some "run") None None None None None None None None
      None None None None in
  let partner := User.mk 9 10 1 (mkHellWeek false None None) (Some "ZZ999") [] [] in
  let w := mkWorld [partner] [] 10 [] [] in
  exists mine w1,
    Server.post_habits (Some 9%nat) None habitData w
      = Some (mkResponse 201 (JHabit mine), w1) /\
    get_habits 7 w1 = Some (Sent 200%nat [], w1) /\
    get_battles_sent 7 w1 = Some (Sent 200%nat [(mine, Some partner)], w1).
Proof.
  intros habitData partner w.
  destruct (@new_battle_is_listed_as_sent_and_requested w 9 7 None habitData "run"
              eq_refl eq_refl)
    as (mine & theirs & w1 & sb & rb & A & _ & B & C & D & _).
  exists mine, w1. split; [exact A|]. split.
  - apply B. reflexivity.
  - injection C as <-. exact D.
Defined.

(* ------------------------------------------------------------------ *)
(** ** Hell Week on [server.js] *)

Lemma server_hell_week_start_witness :
  let user := User.mk 7 600 4 (mkHellWeek false None None) (Some "AB12C") [] [] in
  let w := mkWorld [user] [] 8 [] [] in
  exists w',
    Server.post_user_hell_week 7 "start" 5000 5001 w
      = Some (mkResponse 200
                (JHellWeek "Welcome to Hell."
                   (mkHellWeek true (Some 5000) (Some 604805001))), w').
Proof.
  intros user w.
  destruct (@server_hell_week_start w 7 5000 5001 user eq_refl eq_refl) as (_ & _ & S).
  destruct S as (w' & A & _); [reflexivity | vm_compute; discriminate |].
  exists w'. exact A.
Defined.

(** X14. [server.js]: the three closing actions of Hell Week do not look
    at whether the user is in Hell Week. For a stored user, each answers
    200 and stores the user out of Hell Week with the dates cleared:
    [surrender] with XP [max 0 (xp - 700)], [fail] with [max 0 (xp - 500)],
    both at the level of before; [complete] with XP [xp + 1000] and the
    level raised to the derived one when that is higher. An action outside
    the four names changes nothing. *)
Theorem hell_week_outcomes
    (w : World) (userId : ObjectId) (tStart tNow : Z) (user : User.t) :
  userById userId w = Some user ->
  lacksFriendCode user = false ->
  (exists r w',
     Server.post_user_hell_week userId "surrender" tStart tNow w = Some (r, w') /\
     statusCode r = 200%nat /\
     userById userId w'
       = Some (User.with_platformXp (Z.max 0 (platformXp user - 700))
                 (User.with_hellWeek hellWeekOff user))) /\
  (exists r w',
     Server.post_user_hell_week userId "fail" tStart tNow w = Some (r, w') /\
     statusCode r = 200%nat /\
     userById userId w'
       = Some (User.with_platformXp (Z.max 0 (platformXp user - 500))
                 (User.with_hellWeek hellWeekOff user))) /\
  (exists r w',
     Server.post_user_hell_week userId "complete" tStart tNow w = Some (r, w') /\
     statusCode r = 200%nat /\
     userById userId w'
       = Some (User.with_level
                 (Z.max (or_else (level user) 1) (calculateLevel (platformXp user + 1000)))
                 (User.with_platformXp (platformXp user + 1000)
                    (User.with_hellWeek hellWeekOff user)))) /\
  (forall action,
     action <> "start" -> action <> "surrender" -> action <> "fail" ->
     action <> "complete" ->
     Server.post_user_hell_week userId action tStart tNow w = Some (noResponse, w)).
Proof.
  unfold userById. intros Hu Hc.
  pose proof (find_key User._id _ _ Hu) as [Huid _].
  unfold Server.post_user_hell_week. run. rewrite Hu. run.
  cbn [String.eqb Ascii.eqb Bool.eqb]. run.
  rewrite or_else_zero.
  rewrite !User_save_coded by exact Hc.
  repeat match goal with |- _ /\ _ => split end.
  1-3: do 2 eexists; split; [reflexivity|]; split; [reflexivity|];
       cbn [users]; rewrite <- Huid;
       match goal with
       | |- find _ (replaceUser ?u _) = _ =>
           apply (find_replace_same User._id u (a0 := user))
       end;
       cbn [User._id User.with_level User.with_platformXp User.with_hellWeek];
       rewrite Huid; exact Hu.
  intros action N1 N2 N3 N4.
  apply String.eqb_neq in N1, N2, N3, N4. rewrite N1, N2, N3, N4. reflexivity.
Qed.

Lemma hell_week_outcomes_witness :
  let user := User.mk 7 300 3 (mkHellWeek false None None) (Some "AB12C") [] [] in
  let w := mkWorld [user] [] 8 [] [] in
  exists r w' stored,
    Server.post_user_hell_week 7 "surrender" 0 0 w = Some (r, w') /\
    userById 7 w' = Some stored /\ platformXp stored = 0 /\ level stored = 3.
Proof.
  intros user w.
  destruct (@hell_week_outcomes w 7 0 0 user eq_refl eq_refl)
    as ((r & w' & A & _ & B) & _).
  exists r, w'. eexists. split; [exact A|]. split; [exact B|]. split; reflexivity.
Defined.

(* ------------------------------------------------------------------ *)
(** ** Levels on [server.js] *)

Lemma server_level_never_decreases_witness :
  let user := User.mk 7 600 4 (mkHellWeek true (Some 0) (Some 604800000))
                (Some "AB12C") [] [] in
  let w := mkWorld [user] [] 8 [] [] in
  exists r w' stored,
    Server.app (fun s => s) (Server.POST_user_hell_week 7 "surrender" 0 0) w
      = Some (r, w') /\
    userById 7 w' = Some stored /\
    4 <= level stored.
Proof.
  intros user w. do 3 eexists.
  split; [reflexivity|]. split; [reflexivity|].
  pose proof (@server_level_never_decreases (fun s => s)
                (Server.POST_user_hell_week 7 "surrender" 0 0) w _ _
                eq_refl eq_refl 7%nat user _ eq_refl eq_refl) as [L _].
  exact L.
Defined.

(** X16. [server.js], [GET /user/:id] for a stored user who has a friend
    code: the answer is the stored user; the XP is not changed; the level
    is the derived one when that is higher than the stored level (0
    counting as 1), the stored one otherwise, so that afterwards the
    derived level is never above the stored one; nothing is written when
    the level stands; and asking again gives the same answer and changes
    nothing. *)
Theorem get_user_heals_level_once
    (w : World) (id : ObjectId) (user : User.t) :
  userById id w = Some user ->
  lacksFriendCode user = false ->
  exists w' stored,
    get_user id w = Some (mkResponse 200 (JUser stored), w') /\
    userById id w' = Some stored /\
    platformXp stored = platformXp user /\
    level stored
      = (if calculateLevel (platformXp user) >? or_else (level user) 1
         then calculateLevel (platformXp user) else level user) /\
    calculateLevel (platformXp stored) <= or_else (level stored) 1 /\
    (calculateLevel (platformXp user) <= or_else (level user) 1 -> w' = w) /\
    get_user id w' = Some (mkResponse 200 (JUser stored), w').
Proof.
  unfold userById. intros Hu Hc.
  pose proof (find_key User._id _ _ Hu) as [Huid _].
  pose proof (calculateLevel_positive (platformXp user)) as Pos.
  unfold get_user. run. rewrite Hu. run. rewrite Hc. run.
  rewrite or_else_zero.
  destruct (Z.gtb_spec (calculateLevel (platformXp user)) (or_else (level user) 1))
    as [Hgt|Hle].
  - rewrite User_save_coded by exact Hc.
    set (stored := User.with_level (calculateLevel (platformXp user)) user).
    assert (Hs : find (fun u => Nat.eqb (User._id u) id)
                   (replaceUser stored (users w)) = Some stored).
    { rewrite <- Huid. apply (find_replace_same User._id stored (a0 := user)).
      cbn [User._id stored User.with_level]. rewrite Huid. exact Hu. }
    do 2 eexists. split; [reflexivity|]. cbn [users].
    split; [exact Hs|]. split; [reflexivity|]. split; [reflexivity|].
    assert (Hno : calculateLevel (platformXp user)
                  <= or_else (calculateLevel (platformXp user)) 1).
    { unfold or_else. destruct (Z.eqb_spec (calculateLevel (platformXp user)) 0); lia. }
    split; [exact Hno|]. split; [lia|].
    rewrite Hs. run.
    change (lacksFriendCode stored) with (lacksFriendCode user). rewrite Hc. run.
    cbn [platformXp level stored User.with_level]. rewrite or_else_zero.
    destruct (Z.gtb_spec (calculateLevel (platformXp user))
                (or_else (calculateLevel (platformXp user)) 1)); [lia | reflexivity].
  - do 2 eexists. split; [reflexivity|].
    split; [exact Hu|]. split; [reflexivity|]. split; [reflexivity|].
    split; [exact Hle|]. split; [reflexivity|].
    rewrite Hu. run. rewrite Hc. run. rewrite or_else_zero.
    destruct (Z.gtb_spec (calculateLevel (platformXp user)) (or_else (level user) 1));
      [lia | reflexivity].
Qed.

Lemma get_user_heals_level_once_witness :
  let user := User.mk 7 650 1 (mkHellWeek false None None) (Some "AB12C") [] [] in
  let w := mkWorld [user] [] 8 [] [] in
  exists w' stored,
    get_user 7 w = Some (mkResponse 200 (JUser stored), w') /\
    level stored = 4 /\
    get_user 7 w' = Some (mkResponse 200 (JUser stored), w').
Proof.
  intros user w.
  destruct (@get_user_heals_level_once w 7 user eq_refl eq_refl)
    as (w' & stored & A & _ & _ & L & _ & _ & B).
  exists w', stored. split; [exact A|]. split; [|exact B].
  rewrite L. reflexivity.
Defined.

(* ------------------------------------------------------------------ *)
(** ** [models/User.js]: the friend code given by the pre-save hook *)

Lemma charAt_in_range (r : nat) :
  (r < 36)%nat ->
  exists c, charAt r chars = String c EmptyString /\
            In c (list_ascii_of_string chars).
Proof.
  intros Hr. unfold charAt, chars.
  do 36 (destruct r as [|r];
         [eexists; split; [reflexivity|];
          cbn; repeat first [left; reflexivity | right] |]).
  lia.
Qed.

Lemma list_ascii_of_string_app (s t : string) :
  list_ascii_of_string (s ++ t) = list_ascii_of_string s ++ list_ascii_of_string t.
Proof.
  induction s as [|c s IH]; simpl; [reflexivity | now rewrite IH].
Qed.

Lemma length_string_app (s t : string) :
  String.length (s ++ t) = (String.length s + String.length t)%nat.
Proof.
  induction s as [|c s IH]; simpl; [reflexivity | now rewrite IH].
Qed.

(** The inner loop takes [k] draws; with draws in range it appends [k]
    characters of the alphabet. *)
Lemma drawCode_spec (k : nat) :
  forall code rs code' rs',
    drawCode k code rs = Some (code', rs') ->
    (exists used, rs = used ++ rs' /\ List.length used = k) /\
    (Forall (fun r => (r < 36)%nat) rs ->
     String.length code' = (String.length code + k)%nat /\
     (inAlphabet code -> inAlphabet code')).
Proof.
  induction k as [|k IH]; intros code rs code' rs' H; simpl in H.
  - injection H as <- <-. split; [exists []; auto|].
    intros _. split; [lia | auto].
  - destruct rs as [|r rs]; [discriminate|].
    destruct (IH _ _ _ _ H) as [(used & -> & Hl) Rest]. split.
    + exists (r :: used). simpl. auto.
    + intros Hall. inversion Hall as [|? ? Hr Hrs]; subst.
      destruct (Rest Hrs) as [Len Alpha].
      destruct (@charAt_in_range r Hr) as (c & Ec & Hc).
      rewrite Ec in *. rewrite length_string_app in Len. simpl in Len.
      split; [lia|].
      intros Hcode. apply Alpha. intros x Hx.
      rewrite list_ascii_of_string_app in Hx. apply in_app_iff in Hx.
      destruct Hx as [Hx|[<-|[]]]; auto.
Qed.

Lemma uniqueCode_spec (fuel : nat) (us : list User.t) :
  forall rs code rs',
    uniqueCode fuel rs us = Some (code, rs') ->
    find (hasFriendCode code) us = None /\
    (exists used, rs = used ++ rs') /\
    (Forall (fun r => (r < 36)%nat) rs ->
     String.length code = 5%nat /\ inAlphabet code).
Proof.
  induction fuel as [|fuel IH]; intros rs code rs' H; cbn [uniqueCode] in H;
    [discriminate|].
  destruct (drawCode 5 "" rs) as [[c rs1]|] eqn:D; [|discriminate].
  destruct (@drawCode_spec 5 _ _ _ _ D) as [(used & -> & Hl) Rest].
  destruct (find (hasFriendCode c) us) eqn:F.
  - destruct (IH _ _ _ H) as (A & (used' & ->) & B).
    split; [exact A|]. split; [exists (used ++ used'); now rewrite app_assoc|].
    intros Hall. apply B. apply Forall_app in Hall. tauto.
  - injection H as <- <-. split; [exact F|]. split; [eauto|].
    intros Hall. destruct (Rest Hall) as [Len Alpha].
    split; [exact Len|]. apply Alpha. intros x [].
Qed.

(** X17. When a user without a friend code is saved and the save returns,
    the stored user carries a friend code that no user of the store had;
    the hook used up a prefix of the random draws; and with every draw
    below 36 (as [Math.floor(Math.random() * 36)] is) the code has exactly
    5 characters, all from [A-Z0-9]. A user who has a code keeps it, and no
    draw is used. *)
Theorem saved_user_gets_fresh_friend_code
    (u u' : User.t) (w w' : World) :
  User_save u w = Ret u' w' ->
  (lacksFriendCode u = true ->
   exists code used,
     friendCode u' = Some code /\
     find (hasFriendCode code) (users w) = None /\
     random w = used ++ random w' /\
     (Forall (fun r => (r < 36)%nat) (random w) ->
      String.length code = 5%nat /\ inAlphabet code /\ lacksFriendCode u' = false)) /\
  (lacksFriendCode u = false -> friendCode u' = friendCode u /\ random w' = random w).
Proof.
  unfold User_save, preSave. intros Sv.
  destruct (lacksFriendCode u) eqn:L; run in Sv.
  - destruct (uniqueCode _ _ _) as [[code rs]|] eqn:U; run in Sv; [|discriminate].
    injection Sv as <- <-. split; [|discriminate].
    intros _. destruct (@uniqueCode_spec _ _ _ _ _ U) as (A & (used & E) & B).
    exists code, used. cbn [friendCode User.with_friendCode random].
    repeat split; try assumption; destruct (B H) as [Len Alpha]; try assumption.
    unfold lacksFriendCode. cbn [friendCode User.with_friendCode].
    destruct code; [discriminate Len | reflexivity].
  - injection Sv as <- <-. split; [discriminate|]. intros _. split; reflexivity.
Qed.

Lemma saved_user_gets_fresh_friend_code_witness :
  let legacy := User.mk 7 0 1 (mkHellWeek false None None) None [] [] in
  let other := User.mk 9 0 1 (mkHellWeek false None None) (Some "AAAAA") [] [] in
  let w := mkWorld [legacy; other] [] 10 [0; 0; 0; 0; 0; 1; 27; 35; 0; 2]%nat [] in
  exists u' w',
    User_save legacy w = Ret u' w' /\
    friendCode u' = Some "B19AC" /\
    find (hasFriendCode "B19AC") (users w) = None.
Proof.
  intros legacy other w. do 2 eexists. split; [reflexivity|].
  destruct (@saved_user_gets_fresh_friend_code legacy _ w _ eq_refl) as [A _].
  destruct (A eq_refl) as (code & used & E & F & _).
  cbn [friendCode User.with_friendCode] in E. injection E as <-.
  split; [reflexivity | exact F].
Defined.

(* ------------------------------------------------------------------ *)
(** ** Friend requests: refusals, rejection, acceptance without request *)

(** X18. [POST /social/add-friend] refuses without touching the store:
    404 when no user has the (upper-cased) code, whoever the sender is; 500
    when the code is found but the sender is not a stored user; 400 "You
    cannot add yourself." when the code is the sender's own; 400 "Already
    friends." when the target is in the sender's friends. *)
Theorem add_friend_refusals
    (toUpperCase : string -> string) (w : World) (senderId : ObjectId)
    (code : string) (now : Z) :
  (find (hasFriendCode (toUpperCase code)) (users w) = None ->
   post_social_add_friend toUpperCase senderId code now w
     = Some (mkResponse 404 (JError "User not found with this code."), w)) /\
  (forall target,
     find (hasFriendCode (toUpperCase code)) (users w) = Some target ->
     userById senderId w = None ->
     exists r,
       post_social_add_friend toUpperCase senderId code now w = Some (r, w) /\
       statusCode r = 500%nat) /\
  (forall sender target,
     find (hasFriendCode (toUpperCase code)) (users w) = Some target ->
     userById senderId w = Some sender ->
     (User._id sender = User._id target ->
      post_social_add_friend toUpperCase senderId code now w
        = Some (mkResponse 400 (JError "You cannot add yourself."), w)) /\
     (User._id sender <> User._id target ->
      includes (User._id target) (friends sender) = true ->
      post_social_add_friend toUpperCase senderId code now w
        = Some (mkResponse 400 (JError "Already friends."), w))).
Proof.
  unfold userById, post_social_add_friend. run.
  split; [|split].
  - intros ->. reflexivity.
  - intros target -> ->. run. eexists. split; reflexivity.
  - intros sender target -> ->. run. split.
    + intros E. rewrite E, Nat.eqb_refl. reflexivity.
    + intros Hne Hi. apply Nat.eqb_neq in Hne. rewrite Hne, Hi. reflexivity.
Qed.

Lemma filter_app_all_false (A : Type) (f : A -> bool) (l : list A) (a : A) :
  f a = false -> filter f (l ++ [a]) = filter f l.
Proof.
  intros Ha. rewrite filter_app. simpl. rewrite Ha. apply app_nil_r.
Qed.

(** X19. A request that is sent and then turned down leaves no trace: for
    a sender and a target found under a code, not friends, with no request
    of the sender queued, the request followed by a handle-request of the
    target with any action but "accept" is answered 200 both times and
    leaves the target's document exactly as it was before the request; the
    sender's document is never written; nobody's friends change. *)
Theorem request_then_reject_restores_target
    (toUpperCase : string -> string) (w : World) (senderId : ObjectId)
    (code action : string) (t1 : Z) (sender target : User.t) :
  userById senderId w = Some sender ->
  find (hasFriendCode (toUpperCase code)) (users w) = Some target ->
  userById (User._id target) w = Some target ->
  User._id sender <> User._id target ->
  includes (User._id target) (friends sender) = false ->
  find (fun r => Nat.eqb (from r) senderId) (friendRequests target) = None ->
  lacksFriendCode target = false ->
  action <> "accept" ->
  exists w1 r2 w2,
    post_social_add_friend toUpperCase senderId code t1 w
      = Some (mkResponse 200 (JMessage "Friend request sent!"), w1) /\
    post_social_handle_request (User._id target) senderId action w1 = Some (r2, w2) /\
    statusCode r2 = 200%nat /\
    userById (User._id target) w2 = Some target /\
    userById senderId w2 = Some sender /\
    writes w2 = (writes w ++ [UserSaved (User._id target)])
                  ++ [UserSaved (User._id target)].
Proof.
  intros Hs Ht Hti Hne Hnf Hnr Hct Ha.
  pose proof (find_key User._id _ _ Hs) as [Hsid _].
  assert (Hne' : User._id target <> senderId) by congruence.
  rewrite (@add_friend_sent toUpperCase w senderId code t1 sender target
             Hs Ht Hne Hnf Hnr Hct).
  eexists. eexists. eexists. split; [reflexivity|].
  set (target1 := requestedTarget senderId t1 target).
  assert (Hu1 : find (fun u => Nat.eqb (User._id u) (User._id target))
                  (replaceUser target1 (users w)) = Some target1).
  { apply (find_replace_same User._id target1 (a0 := target)). exact Hti. }
  assert (Hs1 : find (fun u => Nat.eqb (User._id u) senderId)
                  (replaceUser target1 (users w)) = Some sender).
  { unfold replaceUser.
    rewrite (@find_replace_other _ User._id target1 senderId (users w) Hne').
    exact Hs. }
  unfold post_social_handle_request. run. rewrite Hu1, Hs1. run.
  apply String.eqb_neq in Ha. rewrite Ha.
  assert (Back : User.with_friendRequests
                   (filter (fun r => negb (Nat.eqb (from r) senderId))
                      (friendRequests target1)) target1 = target).
  { cbn [friendRequests target1 requestedTarget User.with_friendRequests].
    rewrite filter_app_all_false
      by (cbn [from]; rewrite Nat.eqb_refl; reflexivity).
    rewrite (filter_none _ _ Hnr). destruct target; reflexivity. }
  rewrite Back. rewrite User_save_coded by exact Hct.
  split; [reflexivity|]. cbn [statusCode users writes].
  split; [reflexivity|]. split; [|split; [|reflexivity]].
  - unfold userById. cbn [users].
    apply (find_replace_same User._id target (a0 := target1)). exact Hu1.
  - unfold userById. cbn [users]. unfold replaceUser.
    rewrite (@find_replace_other _ User._id target senderId _ Hne'). exact Hs1.
Qed.

Lemma request_then_reject_restores_target_witness :
  let sender := User.mk 7 0 1 (mkHellWeek false None None) (Some "AB12C") [] [] in
  let target := User.mk 9 0 1 (mkHellWeek false None None) (Some "ZZ999") [7%nat] [] in
  let w := mkWorld [sender; target] [] 10 [] [] in
  exists w1 r2 w2,
    post_social_add_friend (fun s => s) 7 "ZZ999" 1000 w
      = Some (mkResponse 200 (JMessage "Friend request sent!"), w1) /\
    post_social_handle_request 9 7 "reject" w1 = Some (r2, w2) /\
    users w2 = users w.
Proof.
  intros sender target w.
  destruct (@request_then_reject_restores_target (fun s => s) w 7 "ZZ999" "reject"
              1000 sender target)
    as (w1 & r2 & w2 & A & B & _).
  - reflexivity.
  - reflexivity.
  - reflexivity.
  - simpl. intros H. discriminate H.
  - reflexivity.
  - reflexivity.
  - reflexivity.
  - intros H. discriminate H.
  - exists w1, r2, w2. split; [exact A|]. split; [exact B|].
    injection A as <-. vm_compute in B. injection B as _ <-. reflexivity.
Defined.

(** X20. [POST /social/handle-request] does not look for a queued request:
    an accept between two different stored users makes them friends of
    each other, also when the user's queue holds no request at all. *)
Theorem accept_needs_no_request
    (w : World) (userId requesterId : ObjectId) (user requester : User.t) :
  userById userId w = Some user ->
  userById requesterId w = Some requester ->
  userId <> requesterId ->
  lacksFriendCode user = false ->
  lacksFriendCode requester = false ->
  friendRequests user = [] ->
  exists r w' user' requester',
    post_social_handle_request userId requesterId "accept" w = Some (r, w') /\
    statusCode r = 200%nat /\
    userById userId w' = Some user' /\
    userById requesterId w' = Some requester' /\
    In requesterId (friends user') /\
    In userId (friends requester').
Proof.
  intros Hu Hr Hne Hcu Hcr _.
  destruct (@handle_request_accept_stored w userId requesterId user requester
              Hu Hr Hne Hcu Hcr) as (r & w' & A & S & Bu & Br).
  exists r, w', (acceptedUser requesterId user), (acceptedRequester userId requester).
  repeat match goal with |- _ /\ _ => split end; try assumption.
  - apply includes_In, includes_acceptedUser.
  - apply includes_In. rewrite friends_acceptedRequester.
    destruct (includes userId (friends requester)) eqn:E;
      [exact E | apply includes_push].
Qed.

Lemma accept_needs_no_request_witness :
  let a := User.mk 7 0 1 (mkHellWeek false None None) (Some "AB12C") [] [] in
  let b := User.mk 9 0 1 (mkHellWeek false None None) (Some "ZZ999") [] [] in
  let w := mkWorld [a; b] [] 10 [] [] in
  exists r w' a' b',
    post_social_handle_request 7 9 "accept" w = Some (r, w') /\
    userById 7 w' = Some a' /\ userById 9 w' = Some b' /\
    In 9%nat (friends a') /\ In 7%nat (friends b').
Proof.
  intros a b w.
  destruct (@accept_needs_no_request w 7 9 a b eq_refl eq_refl)
    as (r & w' & a' & b' & A & _ & B & C & D & E);
    try reflexivity; [intros H; discriminate H|].
  exists r, w', a', b'. repeat split; assumption.
Defined.

(* ------------------------------------------------------------------ *)
(** ** Every request: users are never added or removed, refusals change
       nothing *)

Lemma map_key_replaceById (A : Type) (key : A -> ObjectId) (a : A) (l : list A) :
  map key (replaceById key a l) = map key l.
Proof.
  unfold replaceById. rewrite map_map. apply map_ext. intros v.
  destruct (Nat.eqb_spec (key v) (key a)); congruence.
Qed.

Lemma orderly_refl (w w' : World) (r : Response) :
  users w' = users w -> habits w' = habits w -> orderly w r w'.
Proof. intros Eu Eh. split; [now rewrite Eu | auto]. Qed.

Lemma orderly_habits_only (w w' : World) (r : Response) :
  users w' = users w -> (statusCode r < 400)%nat -> orderly w r w'.
Proof. intros Eu Hs. split; [now rewrite Eu | lia]. Qed.

(** After a save that follows writes to the habits only. *)
Lemma orderly_saved (w w0 w1 : World) (u u1 : User.t) (r : Response) :
  map User._id (users w0) = map User._id (users w) ->
  User_save u w0 = Ret u1 w1 ->
  (statusCode r < 400)%nat ->
  orderly w r w1.
Proof.
  intros E Sv Hs. pose proof (User_save_inv u w0) as Inv. rewrite Sv in Inv.
  destruct Inv as (_ & Eus & _). split; [|lia].
  rewrite Eus. unfold replaceUser. rewrite map_key_replaceById. exact E.
Qed.

Ltac scrutinee t :=
  lazymatch t with
  | context [match ?x with _ => _ end] => scrutinee x
  | _ => t
  end.

Ltac walk H :=
  repeat first
    [ progress (run in H)
    | lazymatch type of H with
      | context [User_save ?u ?w0] =>
          let Sv := fresh "Sv" in
          destruct (User_save u w0) as [? ?| |] eqn:Sv;
          [ | exfalso; eapply User_save_never_throws; exact Sv | discriminate H ]
      | context [match ?x with _ => _ end] =>
          let y := scrutinee x in destruct y eqn:?
      end ].

Ltac settle H :=
  inversion H; subst;
  first
    [ apply orderly_refl; reflexivity
    | apply orderly_habits_only; [reflexivity | cbn; lia]
    | eapply orderly_saved; [ | eassumption | cbn; lia]; reflexivity ].

Lemma post_habits_orderly (partnerId : option ObjectId) (battleDuration : option Z)
    (habitData : Habit.Fields) (w w' : World) (r : Response) :
  post_habits partnerId battleDuration habitData w = Some (r, w') -> orderly w r w'.
Proof.
  unfold post_habits.
  destruct (f_userId habitData) as [owner|] eqn:Hu;
    destruct (Habit.requiredString (f_name habitData)) as [nm|] eqn:Hn;
    destruct partnerId as [partner|];
    run; validated; rewrite ?Hu, ?Hn; run; intros H; settle H.
Qed.

Lemma post_habits_toggle_orderly (id : ObjectId) (date : string) (now : Z)
    (w w' : World) (r : Response) :
  post_habits_toggle id date now w = Some (r, w') -> orderly w r w'.
Proof.
  unfold post_habits_toggle. intros H. run in H.
  destruct (find _ (habits w)) as [habit|]; run in H; [|settle H].
  destruct (toggleLedger habit date now) as [habit1 xpChange]. walk H; settle H.
Qed.

Lemma post_user_hell_week_orderly (userId : ObjectId) (action : string)
    (tStart tNow : Z) (w w' : World) (r : Response) :
  post_user_hell_week userId action tStart tNow w = Some (r, w') -> orderly w r w'.
Proof.
  unfold post_user_hell_week. intros H. walk H; settle H.
Qed.

Lemma post_battles_respond_orderly (habitId : ObjectId) (action : string) (now : Z)
    (w w' : World) (r : Response) :
  post_battles_respond habitId action now w = Some (r, w') -> orderly w r w'.
Proof.
  unfold post_battles_respond. intros H. walk H; settle H.
Qed.

Lemma post_battles_surrender_orderly (habitId : ObjectId)
    (w w' : World) (r : Response) :
  post_battles_surrender habitId w = Some (r, w') -> orderly w r w'.
Proof.
  unfold post_battles_surrender. intros H. walk H; settle H.
Qed.

Lemma post_social_add_friend_orderly (toUpperCase : string -> string)
    (userId : ObjectId) (code : string) (now : Z) (w w' : World) (r : Response) :
  post_social_add_friend toUpperCase userId code now w = Some (r, w') -> orderly w r w'.
Proof.
  unfold post_social_add_friend. intros H. walk H; settle H.
Qed.

Lemma User_save_ids (u u1 : User.t) (w0 w1 : World) :
  User_save u w0 = Ret u1 w1 ->
  map User._id (users w1) = map User._id (users w0).
Proof.
  intros Sv. pose proof (User_save_inv u w0) as Inv. rewrite Sv in Inv.
  destruct Inv as (_ & Eus & _). rewrite Eus. unfold replaceUser.
  apply map_key_replaceById.
Qed.

Ltac settle2 H :=
  first
    [ settle H
    | inversion H; subst;
      eapply orderly_saved; [ | eassumption | cbn; lia];
      eapply User_save_ids; eassumption ].

(** The ids of the users after a run of saves. *)
Ltac same_ids H :=
  inversion H; subst; cbn [users];
  repeat match goal with
         | Sv : User_save _ _ = Ret _ ?w1 |- context [users ?w1] =>
             rewrite (@User_save_ids _ _ _ _ Sv); cbn [users]
         end;
  reflexivity.

Lemma post_social_handle_request_ids (userId requesterId : ObjectId)
    (action : string) (w w' : World) (r : Response) :
  post_social_handle_request userId requesterId action w = Some (r, w') ->
  map User._id (users w') = map User._id (users w).
Proof.
  unfold post_social_handle_request. intros H. walk H; same_ids H.
Qed.

Lemma post_social_handle_request_orderly (userId requesterId : ObjectId)
    (action : string) (w w' : World) (r : Response) :
  userId <> requesterId ->
  post_social_handle_request userId requesterId action w = Some (r, w') ->
  orderly w r w'.
Proof.
  unfold post_social_handle_request. intros Hne H.
  rewrite (proj2 (Nat.eqb_neq userId requesterId) Hne) in H. cbn [andb] in H.
  walk H; settle2 H.
Qed.

(** A user who accepts itself: the first save stores the user as its own
    friend, the second is refused, and the answer is 500. *)
Lemma self_accept_fails_after_the_first_save (w : World) (id : ObjectId) (user : User.t) :
  userById id w = Some user ->
  lacksFriendCode user = false ->
  includes id (friends user) = false ->
  exists w',
    post_social_handle_request id id "accept" w
      = Some (mkResponse 500 (JError versionError), w') /\
    userById id w' = Some (User.with_friends (friends user ++ [id]) user).
Proof.
  unfold userById. intros Hu Hc Hn.
  pose proof (find_key User._id _ _ Hu) as [Hid _].
  unfold post_social_handle_request. run. rewrite Hu. run.
  cbn [String.eqb Ascii.eqb Bool.eqb]. rewrite Hn, Nat.eqb_refl. cbn [andb negb].
  rewrite User_save_coded by (destruct user; exact Hc). run.
  eexists. split; [reflexivity|]. cbn [users]. subst id.
  exact (find_replace_same User._id
           (User.with_friends (friends user ++ [User._id user]) user) (a0 := user) _ Hu).
Qed.

Lemma get_user_orderly (id : ObjectId) (w w' : World) (r : Response) :
  get_user id w = Some (r, w') -> orderly w r w'.
Proof.
  unfold get_user. intros H. walk H; settle2 H.
Qed.

Lemma app_ids (toUpperCase : string -> string) (req : Server.Request)
    (w w' : World) (r : Response) :
  Server.app toUpperCase req w = Some (r, w') ->
  map User._id (users w') = map User._id (users w).
Proof.
  destruct req; cbn [Server.app]; intros H.
  - exact (proj1 (post_habits_orderly _ _ _ _ H)).
  - exact (proj1 (post_habits_toggle_orderly _ _ _ _ H)).
  - exact (proj1 (post_user_hell_week_orderly _ _ _ _ _ H)).
  - exact (proj1 (post_battles_respond_orderly _ _ _ _ H)).
  - exact (proj1 (post_battles_surrender_orderly _ _ H)).
  - exact (proj1 (post_social_add_friend_orderly _ _ _ _ _ H)).
  - exact (post_social_handle_request_ids _ _ _ _ H).
  - exact (proj1 (get_user_orderly _ _ H)).
Qed.

Lemma app_orderly (toUpperCase : string -> string) (req : Server.Request)
    (w w' : World) (r : Response) :
  refusesFirst req = true ->
  Server.app toUpperCase req w = Some (r, w') -> orderly w r w'.
Proof.
  destruct req; cbn [Server.app refusesFirst]; intros Hr H.
  - eapply post_habits_orderly; exact H.
  - eapply post_habits_toggle_orderly; exact H.
  - eapply post_user_hell_week_orderly; exact H.
  - eapply post_battles_respond_orderly; exact H.
  - eapply post_battles_surrender_orderly; exact H.
  - eapply post_social_add_friend_orderly; exact H.
  - eapply post_social_handle_request_orderly; [|exact H].
    apply Nat.eqb_neq. now apply negb_true_iff.
  - eapply get_user_orderly; exact H.
Qed.

(** X21. No request to the routes of [Server.app] (create habit, toggle,
    Hell Week, battle respond and surrender, add-friend, handle-request,
    get-user) creates or removes a user: whatever the request and its
    answer, the users collection afterwards holds documents under the same
    ids, in the same order, as before. *)
Theorem requests_keep_the_user_ids
    (toUpperCase : string -> string) (req : Server.Request)
    (w w' : World) (r : Response) :
  Server.app toUpperCase req w = Some (r, w') ->
  map User._id (users w') = map User._id (users w).
Proof.
  intros H. exact (@app_ids toUpperCase req w w' r H).
Qed.

Lemma requests_keep_the_user_ids_witness :
  let asker := User.mk 7 40 1 (mkHellWeek false None None) (Some "AB12C") [] [] in
  let target := User.mk 9 0 1 (mkHellWeek false None None) (Some "ZZ999") [] [] in
  let w := mkWorld [asker; target] [] 10 [] [] in
  exists r w',
    Server.app (fun s => s) (Server.POST_social_add_friend 7 "ZZ999" 5) w = Some (r, w') /\
    users w' <> users w /\
    map User._id (users w') = [7%nat; 9%nat].
Proof.
  intros asker target w. do 2 eexists.
  split; [reflexivity|]. split; [cbn; discriminate|].
  exact (@requests_keep_the_user_ids (fun s => s)
           (Server.POST_social_add_friend 7 "ZZ999" 5) w _ _ eq_refl).
Defined.

(** X22. A request to a route of [Server.app] that refuses before it
    writes (every request but a battle creation and a handle-request of a
    user with itself) and is answered with a status of 400 or more has
    changed neither collection; a solo creation that fails validation has
    stored nothing. *)
Theorem refused_request_changes_nothing
    (toUpperCase : string -> string) (req : Server.Request)
    (w w' : World) (r : Response) :
  refusesFirst req = true ->
  Server.app toUpperCase req w = Some (r, w') ->
  (400 <= statusCode r)%nat ->
  users w' = users w /\ habits w' = habits w.
Proof.
  intros Hr H Hs. exact (proj2 (@app_orderly toUpperCase req w w' r Hr H) Hs).
Qed.

Lemma refused_request_changes_nothing_witness :
  let mine := Habit.mk 1 7 "run" [] [] 0 0 (Some 9%nat) (Some 3%nat) battle active
                7 (Some 0) None true in
  let w := mkWorld [] [mine] 10 [] [] in
  exists r w',
    Server.app (fun s => s) (Server.POST_battles_respond 2 "accept" 5) w = Some (r, w') /\
    statusCode r = 404%nat /\
    users w' = users w /\ habits w' = habits w.
Proof.
  intros mine w. do 2 eexists.
  split; [reflexivity|]. split; [reflexivity|].
  apply (@refused_request_changes_nothing (fun s => s)
           (Server.POST_battles_respond 2 "accept" 5) w _ _ eq_refl eq_refl).
  cbn. lia.
Defined.

(* ------------------------------------------------------------------ *)
(** ** [GET /battles]: the expiry sweep *)

Lemma NoDup_map_In_eq (A : Type) (key : A -> ObjectId) (l : list A) (a b : A) :
  NoDup (map key l) -> In a l -> In b l -> key a = key b -> a = b.
Proof.
  induction l as [|x l IH]; simpl; [contradiction|].
  intros N Ha Hb E. inversion N as [|? ? Hx N']; subst.
  destruct Ha as [->|Ha], Hb as [->|Hb]; auto.
  - exfalso. apply Hx. rewrite E. now apply in_map.
  - exfalso. apply Hx. rewrite <- E. now apply in_map.
Qed.

Lemma with_battleStatus_idem (s : Habit.BattleStatus) (h : Habit.t) :
  Habit.with_battleStatus s (Habit.with_battleStatus s h) = Habit.with_battleStatus s h.
Proof. destruct h; reflexivity. Qed.

Lemma with_battleStatus_id (s : Habit.BattleStatus) (h : Habit.t) :
  Habit._id (Habit.with_battleStatus s h) = Habit._id h.
Proof. destruct h; reflexivity. Qed.

(** The loop, in closed form: the stored documents that share their id
    with a due battle of the list are marked completed, the others stay. *)
Lemma sweep_spec (addDays : Z -> Z -> Z) (now : Z) (l : list Habit.t) :
  forall w,
    (forall b v, In b l -> In v (habits w) -> Habit._id v = Habit._id b ->
       Habit.with_battleStatus completed v = Habit.with_battleStatus completed b) ->
    exists w',
      sweep addDays now l w = Ret tt w' /\
      users w' = users w /\
      habits w' =
        map (fun v =>
               if existsb (fun b => Nat.eqb (Habit._id b) (Habit._id v)
                                    && due addDays now b) l
               then Habit.with_battleStatus completed v else v)
            (habits w).
Proof.
  induction l as [|b rest IH]; intros w Inv.
  - exists w. cbn [sweep existsb]. run. repeat split.
    symmetry. rewrite <- (map_id (habits w)) at 2. apply map_ext. reflexivity.
  - assert (Inv' : forall b0 v, In b0 rest -> In v (habits w) ->
              Habit._id v = Habit._id b0 ->
              Habit.with_battleStatus completed v
                = Habit.with_battleStatus completed b0).
    { intros b0 v Hb0. apply Inv. now right. }
    cbn [sweep existsb]. unfold due at 1.
    destruct (battleStartDate b) as [start|]; cbn [andb].
    2: { destruct (IH w Inv') as (w' & E & Eu & Eh). exists w'.
         repeat split; try assumption. rewrite Eh. apply map_ext. intros v.
         now rewrite andb_false_r. }
    destruct (now >? addDays start (battleDuration b)) eqn:D.
    2: { destruct (IH w Inv') as (w' & E & Eu & Eh). exists w'.
         repeat split; try assumption. rewrite Eh. apply map_ext. intros v.
         now rewrite andb_false_r. }
    run.
    set (w1 := mkWorld _ _ _ _ _).
    destruct (IH w1) as (w' & E & Eu & Eh).
    { intros b0 v Hb0 Hv Eid. subst w1. cbn [habits] in Hv.
      unfold replaceHabit, replaceById in Hv. apply in_map_iff in Hv.
      destruct Hv as (v0 & <- & Hv0).
      rewrite with_battleStatus_id in *.
      destruct (Nat.eqb_spec (Habit._id v0) (Habit._id b)) as [Eb|Nb].
      - rewrite with_battleStatus_idem.
        rewrite with_battleStatus_id in Eid.
        rewrite <- (Inv b v0 (or_introl eq_refl) Hv0 Eb).
        apply Inv'; [assumption|assumption|congruence].
      - now apply Inv'. }
    exists w'. split; [exact E|]. split; [exact Eu|].
    rewrite Eh. subst w1. cbn [habits]. unfold replaceHabit, replaceById.
    rewrite map_map. apply map_ext_in. intros v Hv.
    rewrite with_battleStatus_id.
    destruct (Nat.eqb_spec (Habit._id v) (Habit._id b)) as [Eb|Nb].
    + rewrite with_battleStatus_id.
      rewrite (proj2 (Nat.eqb_eq (Habit._id b) (Habit._id v)) (eq_sym Eb)).
      cbn [andb orb].
      rewrite <- (Inv b v (or_introl eq_refl) Hv Eb).
      destruct (existsb _ rest); [apply with_battleStatus_idem|reflexivity].
    + rewrite (proj2 (Nat.eqb_neq (Habit._id b) (Habit._id v)) (fun X => Nb (eq_sym X))).
      reflexivity.
Qed.

Lemma sweep_none (addDays : Z -> Z -> Z) (now : Z) (l : list Habit.t) (w : World) :
  (forall b, In b l -> due addDays now b = false) ->
  sweep addDays now l w = Ret tt w.
Proof.
  induction l as [|b rest IH]; intros Hd; cbn [sweep].
  - reflexivity.
  - pose proof (Hd b (or_introl eq_refl)) as Db. unfold due in Db.
    destruct (battleStartDate b) as [start|]; [rewrite Db|];
      apply IH; intros b0 Hb0; apply Hd; now right.
Qed.

Lemma expire_id (addDays : Z -> Z -> Z) (userId : ObjectId) (now : Z) (h : Habit.t) :
  Habit._id (expire addDays userId now h) = Habit._id h.
Proof. unfold expire. destruct (expired _ _ _ h); [apply with_battleStatus_id|reflexivity]. Qed.

(** After the sweep no active battle of the user is due. *)
Lemma expire_not_expired (addDays : Z -> Z -> Z) (userId : ObjectId) (now : Z)
    (h : Habit.t) :
  expired addDays userId now (expire addDays userId now h) = false.
Proof.
  unfold expire. destruct (expired addDays userId now h) eqn:E; [|exact E].
  unfold expired. destruct h; cbn. now rewrite andb_false_r.
Qed.

Lemma get_battles_sweeps (addDays : Z -> Z -> Z) (userId : ObjectId) (now : Z)
    (w : World) :
  NoDup (map Habit._id (habits w)) ->
  exists w',
    get_battles addDays userId now w
      = Some (Sent 200%nat
                (map (fun h => (h, populated (Habit.partnerId h) w'))
                   (filter (fun h => Nat.eqb (Habit.userId h) userId
                                     && isBattle h
                                     && (statusEqb (Habit.battleStatus h) active
                                         || statusEqb (Habit.battleStatus h) completed))
                      (habits w'))), w') /\
    users w' = users w /\
    habits w' = map (expire addDays userId now) (habits w).
Proof.
  intros N. unfold get_battles, tryCatchReply, Habit_find. run.
  set (P := fun h => Nat.eqb (Habit.userId h) userId && isBattle h
                     && statusEqb (Habit.battleStatus h) active).
  destruct (@sweep_spec addDays now (filter P (habits w)) w) as (w' & E & Eu & Eh).
  { intros b v Hb Hv Eid. apply filter_In in Hb. destruct Hb as [Hb _].
    now rewrite (@NoDup_map_In_eq _ Habit._id (habits w) v b N Hv Hb Eid). }
  rewrite E. exists w'. split; [reflexivity|]. split; [exact Eu|].
  rewrite Eh. apply map_ext_in. intros v Hv. unfold expire, expired.
  fold (P v).
  assert (X : existsb (fun b => Nat.eqb (Habit._id b) (Habit._id v) && due addDays now b)
                (filter P (habits w)) = P v && due addDays now v).
  { destruct (P v && due addDays now v) eqn:T.
    - apply andb_true_iff in T. destruct T as [Pv Dv].
      apply existsb_exists. exists v. split.
      + apply filter_In. now split.
      + now rewrite Nat.eqb_refl, Dv.
    - destruct (existsb _ _) eqn:Ex; [|reflexivity].
      apply existsb_exists in Ex. destruct Ex as (b & Hb & Tb).
      apply filter_In in Hb. destruct Hb as [Hb Pb].
      apply andb_true_iff in Tb. destruct Tb as [Eid Db].
      apply Nat.eqb_eq in Eid.
      rewrite (@NoDup_map_In_eq _ Habit._id (habits w) b v N Hb Hv Eid) in Pb, Db.
      now rewrite Pb, Db in T. }
  now rewrite X.
Qed.

(** X23. [GET /battles] with distinct habit ids in the store: the
    sweep marks completed exactly the user's active battles that have a
    start date and whose end date is before [now], every other record
    (other users' battles, solo habits, battles without a start date) is
    stored as it was and no user is touched; the answer lists the user's
    battles that are then active or completed, none of them both active
    and due; and the same request at the same time again changes nothing
    and gives the same answer. *)
Theorem get_battles_expires_due_battles
    (addDays : Z -> Z -> Z) (userId : ObjectId) (now : Z) (w : World) :
  NoDup (map Habit._id (habits w)) ->
  exists w' data,
    get_battles addDays userId now w = Some (Sent 200%nat data, w') /\
    users w' = users w /\
    habits w' = map (expire addDays userId now) (habits w) /\
    (forall h, In h (map fst data) <->
       In h (habits w') /\ Habit.userId h = userId /\ Habit.type h = battle /\
       (Habit.battleStatus h = active \/ Habit.battleStatus h = completed)) /\
    (forall h, In h (map fst data) -> Habit.battleStatus h = active ->
       due addDays now h = false) /\
    get_battles addDays userId now w' = Some (Sent 200%nat data, w').
Proof.
  intros N.
  destruct (@get_battles_sweeps addDays userId now w N) as (w' & E & Eu & Eh).
  exists w'. eexists. split; [exact E|]. split; [exact Eu|]. split; [exact Eh|].
  rewrite map_map. cbn [fst]. rewrite map_id.
  assert (L : forall h,
             In h (filter (fun h => Nat.eqb (Habit.userId h) userId && isBattle h
                                    && (statusEqb (Habit.battleStatus h) active
                                        || statusEqb (Habit.battleStatus h) completed))
                     (habits w')) <->
             In h (habits w') /\ Habit.userId h = userId /\ Habit.type h = battle /\
             (Habit.battleStatus h = active \/ Habit.battleStatus h = completed)).
  { intros h. rewrite filter_In. split.
    - intros [Hin T]. split; [exact Hin|].
      apply andb_true_iff in T. destruct T as [T S].
      apply andb_true_iff in T. destruct T as [U B].
      apply Nat.eqb_eq in U. split; [exact U|].
      unfold isBattle in B. split; [destruct (Habit.type h); [discriminate|reflexivity]|].
      destruct (Habit.battleStatus h); cbn in S; try discriminate; auto.
    - intros (Hin & U & B & S). split; [exact Hin|].
      unfold isBattle. rewrite U, B, Nat.eqb_refl.
      destruct S as [-> | ->]; reflexivity. }
  split; [exact L|].
  assert (D : forall h, In h (habits w') -> Habit.userId h = userId ->
                Habit.type h = battle -> Habit.battleStatus h = active ->
                due addDays now h = false).
  { intros h Hin U B A. rewrite Eh in Hin. apply in_map_iff in Hin.
    destruct Hin as (h0 & <- & _).
    pose proof (@expire_not_expired addDays userId now h0) as X.
    unfold expired, isBattle in X. rewrite U, B, A, Nat.eqb_refl in X. exact X. }
  split.
  { intros h Hin A. apply L in Hin. destruct Hin as (Hin & U & B & _). now apply D. }
  unfold get_battles, tryCatchReply, Habit_find. run.
  rewrite sweep_none; [reflexivity|].
  intros b Hb. apply filter_In in Hb. destruct Hb as [Hin T].
  apply andb_true_iff in T. destruct T as [T S].
  apply andb_true_iff in T. destruct T as [U B].
  apply Nat.eqb_eq in U. unfold isBattle in B.
  apply D; auto.
  - destruct (Habit.type b); [discriminate|reflexivity].
  - destruct (Habit.battleStatus b); cbn in S; try discriminate; reflexivity.
Qed.

Lemma get_battles_expires_due_battles_witness :
  let old := Habit.mk 1 7 "run" [] [] 0 0 (Some 9%nat) (Some 3%nat) battle active
               7 (Some 0) None true in
  let fresh := Habit.mk 2 7 "read" [] [] 0 0 (Some 9%nat) (Some 4%nat) battle active
                 7 (Some 100) None true in
  let theirs := Habit.mk 5 9 "run" [] [] 0 0 (Some 7%nat) (Some 3%nat) battle active
                  7 (Some 0) None true in
  let w := mkWorld [] [old; fresh; theirs] 10 [] [] in
  exists w' data,
    get_battles (fun d n => d + n) 7 50 w = Some (Sent 200%nat data, w') /\
    habits w' = [Habit.with_battleStatus completed old; fresh; theirs] /\
    get_battles (fun d n => d + n) 7 50 w' = Some (Sent 200%nat data, w').
Proof.
  intros old fresh theirs w.
  destruct (@get_battles_expires_due_battles (fun d n => d + n) 7%nat 50 w)
    as (w' & data & E & _ & Eh & _ & _ & E2).
  - cbn. repeat constructor; cbn; intuition discriminate.
  - exists w', data. split; [exact E|]. split; [|exact E2].
    rewrite Eh. reflexivity.
Defined.

(* ------------------------------------------------------------------ *)
(** ** [GET /social/requests]: the inbox *)

Lemma get_social_requests_lists (w : World) (userId : ObjectId) (user : User.t) :
  userById userId w = Some user ->
  get_social_requests userId w =
    Some (Sent 200%nat
            (flat_map
               (fun r =>
                  match populated (Some (from r)) w with
                  | Some sender => if isPending r then [(sender, timestamp r)] else []
                  | None => []
                  end)
               (friendRequests user)), w).
Proof.
  unfold userById. intros Hu. unfold get_social_requests, tryCatchReply. run.
  rewrite Hu. reflexivity.
Qed.

(** Every entry of the inbox comes from a queued request and carries the
    stored user that the request names. *)
Lemma inbox_entry (w : World) (rs : list User.FriendRequest) (e : User.t * Z) :
  In e (flat_map
          (fun r =>
             match populated (Some (from r)) w with
             | Some sender => if isPending r then [(sender, timestamp r)] else []
             | None => []
             end) rs) ->
  exists r, In r rs /\ from r = User._id (fst e).
Proof.
  intros H. apply in_flat_map in H. destruct H as (r & Hr & He).
  exists r. split; [exact Hr|].
  cbn [populated] in He.
  destruct (find _ (users w)) as [sender|] eqn:F; [|contradiction].
  destruct (isPending r); [|contradiction].
  destruct He as [<-|[]]. cbn [fst].
  symmetry. exact (proj1 (find_key User._id _ _ F)).
Qed.

(** X24. A friend request that goes through is the last entry of the
    target's inbox, with the sender's stored document and the time of the
    request, and no older entry is from that sender; once the target has
    accepted it, the inbox holds no entry from the sender. Reading the
    inbox changes nothing. *)
Theorem sent_request_is_listed_until_accepted
    (toUpperCase : string -> string) (w : World) (senderId : ObjectId)
    (code : string) (t1 : Z) (sender target : User.t) :
  userById senderId w = Some sender ->
  find (hasFriendCode (toUpperCase code)) (users w) = Some target ->
  userById (User._id target) w = Some target ->
  User._id sender <> User._id target ->
  includes (User._id target) (friends sender) = false ->
  find (fun r => Nat.eqb (from r) senderId) (friendRequests target) = None ->
  lacksFriendCode target = false ->
  lacksFriendCode sender = false ->
  exists w1 older r2 w2 inbox2,
    post_social_add_friend toUpperCase senderId code t1 w
      = Some (mkResponse 200 (JMessage "Friend request sent!"), w1) /\
    get_social_requests (User._id target) w1
      = Some (Sent 200%nat (older ++ [(sender, t1)]), w1) /\
    (forall e, In e older -> User._id (fst e) <> senderId) /\
    post_social_handle_request (User._id target) senderId "accept" w1 = Some (r2, w2) /\
    statusCode r2 = 200%nat /\
    get_social_requests (User._id target) w2 = Some (Sent 200%nat inbox2, w2) /\
    (forall e, In e inbox2 -> User._id (fst e) <> senderId).
Proof.
  intros Hs Ht Hti Hne Hnf Hnr Hct Hcs.
  pose proof (find_key User._id _ _ Hs) as [Hsid _].
  assert (Hne' : User._id target <> senderId) by congruence.
  rewrite (@add_friend_sent toUpperCase w senderId code t1 sender target
             Hs Ht Hne Hnf Hnr Hct).
  set (target1 := requestedTarget senderId t1 target).
  set (w1 := mkWorld _ _ _ _ _).
  assert (Hu1 : userById (User._id target) w1 = Some target1).
  { unfold userById. subst w1. cbn [users].
    apply (find_replace_same User._id target1 (a0 := target)). exact Hti. }
  assert (Hs1 : userById senderId w1 = Some sender).
  { unfold userById. subst w1. cbn [users]. unfold replaceUser.
    rewrite (@find_replace_other _ User._id target1 senderId (users w) Hne').
    exact Hs. }
  assert (Hct1 : lacksFriendCode target1 = false).
  { rewrite <- Hct. destruct target; reflexivity. }
  destruct (@handle_request_accept_stored w1 (User._id target) senderId target1 sender
              Hu1 Hs1 Hne' Hct1 Hcs) as (r2 & w2 & E2 & S2 & Hu2 & _).
  exists w1. eexists. exists r2, w2. eexists.
  split; [reflexivity|].
  split.
  { rewrite (@get_social_requests_lists w1 (User._id target) target1 Hu1).
    cbn [target1 requestedTarget friendRequests User.with_friendRequests].
    rewrite flat_map_app. cbn [flat_map from timestamp isPending User.status populated].
    unfold userById in Hs1. rewrite Hs1. rewrite app_nil_r. reflexivity. }
  split.
  { intros e He. apply inbox_entry in He. destruct He as (r & Hr & <-).
    pose proof (find_none _ _ Hnr r Hr) as X. now apply Nat.eqb_neq in X. }
  split; [exact E2|]. split; [exact S2|].
  split.
  { apply (@get_social_requests_lists w2 (User._id target) _ Hu2). }
  intros e He. apply inbox_entry in He. destruct He as (r & Hr & <-).
  unfold acceptedUser in Hr.
  cbn [friends friendRequests User.with_friendRequests] in Hr.
  destruct (includes senderId (friends target1));
    cbn [friendRequests User.with_friendRequests User.with_friends] in Hr;
    apply filter_In in Hr; destruct Hr as [_ X];
    apply negb_true_iff in X; now apply Nat.eqb_neq in X.
Qed.

Lemma sent_request_is_listed_until_accepted_witness :
  let sender := User.mk 7 0 1 (mkHellWeek false None None) (Some "AB12C") [] [] in
  let other := User.mk 8 0 1 (mkHellWeek false None None) (Some "CC333") [] [] in
  let target := User.mk 9 0 1 (mkHellWeek false None None) (Some "ZZ999") []
                  [User.mkFriendRequest 8 User.pending 500] in
  let w := mkWorld [sender; other; target] [] 10 [] [] in
  exists w1 older r2 w2 inbox2,
    post_social_add_friend (fun s => s) 7 "ZZ999" 1000 w
      = Some (mkResponse 200 (JMessage "Friend request sent!"), w1) /\
    get_social_requests 9 w1 = Some (Sent 200%nat (older ++ [(sender, 1000)]), w1) /\
    post_social_handle_request 9 7 "accept" w1 = Some (r2, w2) /\
    get_social_requests 9 w2 = Some (Sent 200%nat inbox2, w2) /\
    (forall e, In e inbox2 -> User._id (fst e) <> 7%nat).
Proof.
  intros sender other target w.
  destruct (@sent_request_is_listed_until_accepted (fun s => s) w 7%nat "ZZ999" 1000
              sender target eq_refl eq_refl eq_refl)
    as (w1 & older & r2 & w2 & inbox2 & A & B & _ & C & _ & D & E).
  - cbn. discriminate.
  - reflexivity.
  - reflexivity.
  - reflexivity.
  - reflexivity.
  - exists w1, older, r2, w2, inbox2. repeat split; assumption.
Defined.

(* ------------------------------------------------------------------ *)
(** ** [DELETE /habits/:id] *)

(** X25. [DELETE /habits/:id] answers 200 "Deleted" whether or not a
    record is stored under the id; afterwards no record is, every record
    under another id is stored as before (the other record of a battle
    included: the route does not look at the group), the users are not
    touched, and when nothing was stored under the id the habits are
    exactly what they were. *)
Theorem delete_habit_removes_that_record_only (w : World) (id : ObjectId) :
  exists w',
    delete_habits id w = Some (mkResponse 200 (JMessage "Deleted"), w') /\
    users w' = users w /\
    habitById id w' = None /\
    (forall id', id' <> id -> habitById id' w' = habitById id' w) /\
    (forall h, In h (habits w') <-> In h (habits w) /\ Habit._id h <> id) /\
    (habitById id w = None -> habits w' = habits w).
Proof.
  unfold delete_habits, Habit_findByIdAndDelete. run.
  eexists. split; [reflexivity|]. cbn [users]. split; [reflexivity|].
  unfold habitById. cbn [habits].
  split; [|split; [|split]].
  - apply find_all_false. intros h Hin. apply filter_In in Hin.
    destruct Hin as [_ X]. now apply negb_true_iff in X.
  - intros id' Hne. apply find_filter_keeps. intros h E.
    apply Nat.eqb_eq in E. apply negb_true_iff. apply Nat.eqb_neq. congruence.
  - intros h. rewrite filter_In. rewrite negb_true_iff, Nat.eqb_neq. reflexivity.
  - intros Hn. exact (filter_none _ _ Hn).
Qed.

(* ------------------------------------------------------------------ *)
(** ** [GET /habits/shared/:groupId] *)

(** X11. For the two records of a battle in a store with distinct habit
    ids, [GET /habits/shared/:groupId] with the battle's token lists these
    two records and no other, each with the stored owner (or none when the
    owner is not a stored user), and changes nothing. *)
Theorem shared_group_lists_the_pair
    (w : World) (g : ObjectId) (mine theirs : Habit.t) :
  BattlePair w g mine theirs ->
  NoDup (map Habit._id (habits w)) ->
  exists data,
    get_habits_shared g w = Some (Sent 200%nat data, w) /\
    (forall h, In h (map fst data) <-> h = mine \/ h = theirs) /\
    (forall h owner, In (h, owner) data -> owner = userById (Habit.userId h) w).
Proof.
  intros P N.
  pose proof (find_key Habit._id _ _ (pair_mine P)) as [_ Im].
  pose proof (find_key Habit._id _ _ (pair_theirs P)) as [_ It].
  eexists. split; [reflexivity|]. split.
  - intros h. rewrite map_map. cbn [fst]. rewrite map_id, filter_In. split.
    + intros [Hin S]. unfold sameGroup in S.
      destruct (Habit.sharedGroupId h) as [g'|] eqn:G; [|discriminate].
      apply Nat.eqb_eq in S. subst g'.
      destruct (pair_only P h Hin G) as [E|E]; [left|right];
        eapply (@NoDup_map_In_eq _ Habit._id (habits w)); eassumption.
    + intros [-> | ->]; (split; [assumption|]); unfold sameGroup.
      * rewrite (pair_group_mine P). apply Nat.eqb_refl.
      * rewrite (pair_group_theirs P). apply Nat.eqb_refl.
  - intros h owner Hin. apply in_map_iff in Hin.
    destruct Hin as (h0 & E & _). inversion E; subst. reflexivity.
Qed.

Lemma shared_group_lists_the_pair_witness :
  let mine := Habit.mk 1 7 "run" [] [] 0 0 (Some 9%nat) (Some 3%nat) battle
                Habit.pending 7 None None false in
  let theirs := Habit.mk 2 9 "run" [] [] 0 0 (Some 7%nat) (Some 3%nat) battle
                  waiting 7 None None false in
  exists data,
    get_habits_shared 3 (mkWorld [] [theirs; mine] 10 [] []) = Some (Sent 200%nat data, mkWorld [] [theirs; mine] 10 [] []) /\
    (forall h, In h (map fst data) <-> h = mine \/ h = theirs).
Proof.
  intros mine theirs.
  destruct (@shared_group_lists_the_pair (mkWorld [] [theirs; mine] 10 [] []) 3%nat
              mine theirs BattlePair_example)
    as (data & E & L & _).
  - cbn. repeat constructor; cbn; intuition discriminate.
  - exists data. split; assumption.
Defined.
